(** * Smart Digital Canteen: order lifecycle, pickup tokens and reports

    A shallow embedding of the order module (createOrder, the look-ups,
    updateOrderStatus), the cart totals it reads, the token generator of
    js/utils.js and getDailyReport of js/admin.js, followed by the
    properties of the order subsystem.

    Conventions of the embedding.
    - localStorage holds JSON; the three keys the order module touches
      ([CART], [ORDERS], [CURRENT_USER]) are typed fields of [Storage],
      [None] standing for an absent key ([getFromStorage] returns null).
    - Amounts and quantities are integers ([Z]); JS numbers are exact on
      them below 2^53.  The one true division of the report is kept exact
      in [Q].
    - A moment in time is its epoch value in milliseconds ([Z]); the ISO
      string kept in storage ([toISOString], read back by [new Date(s)])
      denotes the same moment.
    - The wall clock and [Math.random] are oracles: the k-th reading is
      [now k], the k-th draw is [rand36 k]; the state counts the readings
      taken so far.  The calendar of the JS runtime is the interface
      [DateRuntime]. *)

From stdpp Require Import base numbers list strings sorting.
From Stdlib Require Import Ascii QArith.

Local Open Scope string_scope.
Local Open Scope Z_scope.

(** ** The JS runtime *)

(** The calendar methods of [Date] the code calls, on epoch milliseconds. *)
Class DateRuntime := {
  getFullYear : Z -> Z;
  getMonth : Z -> Z;          (* 0-based, as in JS *)
  getDate : Z -> Z;
  toDateString : Z -> string
}.

Module Js.

(** Digits of [Number.prototype.toString(radix)]: 0-9 then a-z. *)
Definition digitChar (d : N) : ascii :=
  if (d <? 10)%N then ascii_of_N (48 + d) else ascii_of_N (87 + d).

Fixpoint toStringGo (fuel : nat) (radix n : N) (acc : string) : string :=
  match fuel with
  | O => acc
  | S fuel' =>
      let acc' := String (digitChar (n mod radix)) acc in
      if (n / radix =? 0)%N then acc' else toStringGo fuel' radix (n / radix) acc'
  end.

(** [n.toString(radix)] for a non-negative integer. *)
Definition natToString (radix n : N) : string :=
  toStringGo (S (N.to_nat (N.log2 n))) radix n "".

(** [z.toString(radix)] for an integer: a minus sign, then the digits. *)
Definition toString (radix : N) (z : Z) : string :=
  match z with
  | Zneg p => "-" +:+ natToString radix (Npos p)
  | _ => natToString radix (Z.to_N z)
  end.

Fixpoint repeatChar (n : nat) (c : ascii) : string :=
  match n with
  | O => ""
  | S n' => String c (repeatChar n' c)
  end.

(** [s.padStart(targetLength, c)] for a one-character filler. *)
Definition padStart (targetLength : nat) (c : ascii) (s : string) : string :=
  repeatChar (targetLength - String.length s) c +:+ s.

(** [s.substr(start)]. *)
Fixpoint substr (start : nat) (s : string) : string :=
  match start, s with
  | O, _ => s
  | S k, String _ s' => substr k s'
  | S _, EmptyString => ""
  end.

(** [xs.reduce((acc, x) => step acc x, init)]. *)
Definition reduce {A B} (step : B -> A -> B) (init : B) (xs : list A) : B :=
  fold_left step xs init.

(** [xs.find(p) || null]. *)
Fixpoint find {A} (p : A -> bool) (xs : list A) : option A :=
  match xs with
  | [] => None
  | x :: xs' => if p x then Some x else find p xs'
  end.

(** [xs.findIndex(p)], [None] for -1. *)
Fixpoint findIndex {A} (p : A -> bool) (xs : list A) : option nat :=
  match xs with
  | [] => None
  | x :: xs' => if p x then Some O else option_map S (findIndex p xs')
  end.

(** [xs.includes(x)] on strings. *)
Definition includes (xs : list string) (x : string) : bool :=
  existsb (String.eqb x) xs.

(** [Array.prototype.sort(compare)]: the sort is stable, so with a
    consistent comparator its result is the one of this insertion sort
    (an element goes in front of the first later element it does not
    exceed). *)
Fixpoint sortInsert {A} (compare : A -> A -> Z) (x : A) (xs : list A) : list A :=
  match xs with
  | [] => [x]
  | y :: xs' => if (compare x y <=? 0)%Z then x :: y :: xs'
                else y :: sortInsert compare x xs'
  end.

Definition sort {A} (compare : A -> A -> Z) (xs : list A) : list A :=
  foldr (sortInsert compare) [] xs.

End Js.

(** ** Data model *)

Module CartItem.
Record t := mk {
  id : string;
  name : string;
  price : Z;
  image : string;
  quantity : Z
}.
End CartItem.

Module OrderItem.
Record t := mk {
  id : string;
  name : string;
  price : Z;
  quantity : Z;
  subtotal : Z
}.
End OrderItem.

Module StatusEntry.
Record t := mk {
  status : string;
  timestamp : Z;
  note : string
}.
End StatusEntry.

Module User.
Record t := mk {
  id : string;
  name : string;
  email : string;
  role : string
}.
End User.

Module Order.
Record t := mk {
  id : string;
  token : string;
  userId : string;
  userName : string;
  userEmail : string;
  items : list OrderItem.t;
  subtotal : Z;
  tax : Z;
  total : Z;
  status : string;
  statusHistory : list StatusEntry.t;
  createdAt : Z;
  updatedAt : Z;
  completedAt : option Z     (* absent until the order is completed *)
}.
End Order.

Module ORDER_STATUS.
Definition PENDING := "pending".
Definition PREPARING := "preparing".
Definition READY := "ready".
Definition COMPLETED := "completed".
Definition CANCELLED := "cancelled".
End ORDER_STATUS.

(** The keys of localStorage read or written by the order module. *)
Record Storage := mkStorage {
  CART : option (list CartItem.t);
  ORDERS : option (list Order.t);
  CURRENT_USER : option User.t
}.

(** What an operation can change: the storage and how far the two oracles
    have been consumed. *)
Record State := mkState {
  storage : Storage;
  ticks : nat;     (* clock readings taken so far *)
  draws : nat      (* Math.random draws taken so far *)
}.

(** The result object [{ success, message, order }]. *)
Record Result := mkResult {
  success : bool;
  message : string;
  order : option Order.t
}.

(** The report object of [getDailyReport]; [popularItems], which is computed
    from the completed orders alone and feeds no other field, is left out. *)
Record Report := mkReport {
  date : string;
  totalOrders : nat;
  completedOrders : nat;
  cancelledOrders : nat;
  revenue : Z;
  averageOrderValue : Q
}.

(** ** Operations as state transformers *)

Definition M (A : Type) : Type := State -> A * State.

Definition ret {A} (a : A) : M A := fun s => (a, s).

Definition bind {A B} (m : M A) (k : A -> M B) : M B :=
  fun s => let (a, s') := m s in k a s'.

Notation "x <- m ;; k" := (bind m (fun x => k))
  (at level 20, m at level 99, k at level 200, format "x  <-  m  ;;  '/' k").
Notation "m ;; k" := (bind m (fun _ => k))
  (at level 100, k at level 200, right associativity).

(** Read-only access to the storage. *)
Definition gets {A} (f : Storage -> A) : M A := fun s => (f (storage s), s).

Definition modify (f : Storage -> Storage) : M unit :=
  fun s => (tt, mkState (f (storage s)) (ticks s) (draws s)).

(** [saveToStorage(STORAGE_KEYS.CART, cart)]. *)
Definition saveToStorage_CART (cart : list CartItem.t) : M unit :=
  modify (fun st => mkStorage (Some cart) (ORDERS st) (CURRENT_USER st)).

(** [saveToStorage(STORAGE_KEYS.ORDERS, orders)]. *)
Definition saveToStorage_ORDERS (orders : list Order.t) : M unit :=
  modify (fun st => mkStorage (CART st) (Some orders) (CURRENT_USER st)).

(** *** Cart module *)

(** [getFromStorage(STORAGE_KEYS.CART) || []]. *)
Definition getCart (st : Storage) : list CartItem.t := default [] (CART st).

(** [saveCart]; the badge it refreshes afterwards is DOM only. *)
Definition saveCart (cart : list CartItem.t) : M unit := saveToStorage_CART cart.

Definition clearCart : M unit := saveCart [].

Definition getCartSubtotal (st : Storage) : Z :=
  Js.reduce (fun total item => total + CartItem.price item * CartItem.quantity item)
            0 (getCart st).

Record Totals := mkTotals {
  totals_subtotal : Z;
  totals_tax : Z;
  totals_serviceFee : Z;
  totals_total : Z
}.

Definition getCartTotals (st : Storage) : Totals :=
  let subtotal := getCartSubtotal st in
  let tax := 0 in
  let serviceFee := 0 in
  let total := subtotal + tax + serviceFee in
  mkTotals subtotal tax serviceFee total.

(** *** Session *)

Definition getCurrentUser (st : Storage) : option User.t := CURRENT_USER st.

(** *** Read side of the order module *)

Definition getAllOrders (st : Storage) : list Order.t := default [] (ORDERS st).

Definition getOrderByToken (token : string) (st : Storage) : option Order.t :=
  Js.find (fun order => String.eqb (Order.token order) token) (getAllOrders st).

Definition getOrderById (orderId : string) (st : Storage) : option Order.t :=
  Js.find (fun order => String.eqb (Order.id order) orderId) (getAllOrders st).

(** The comparator [(a, b) => new Date(a.createdAt) - new Date(b.createdAt)]. *)
Definition byCreatedAt (a b : Order.t) : Z := Order.createdAt a - Order.createdAt b.

Definition getUserOrders (userId : string) (st : Storage) : list Order.t :=
  Js.sort (fun a b => byCreatedAt b a)
    (List.filter (fun order => String.eqb (Order.userId order) userId) (getAllOrders st)).

Definition getOrdersByStatus (status : string) (st : Storage) : list Order.t :=
  Js.sort byCreatedAt
    (List.filter (fun order => String.eqb (Order.status order) status) (getAllOrders st)).

Definition activeStatuses : list string :=
  [ORDER_STATUS.PENDING; ORDER_STATUS.PREPARING; ORDER_STATUS.READY].

Definition getActiveOrders (st : Storage) : list Order.t :=
  Js.sort byCreatedAt
    (List.filter (fun order => Js.includes activeStatuses (Order.status order))
                 (getAllOrders st)).

(** The in-place mutation [updateOrderStatus] performs on the order it found. *)
Definition transitionOrder (newStatus note : string) (t1 t2 : Z) (done : option Z)
    (order : Order.t) : Order.t :=
  Order.mk (Order.id order) (Order.token order) (Order.userId order)
    (Order.userName order) (Order.userEmail order) (Order.items order)
    (Order.subtotal order) (Order.tax order) (Order.total order)
    newStatus
    (Order.statusHistory order ++
       [StatusEntry.mk newStatus t1
          (if String.eqb note "" then "Status changed to " +:+ newStatus else note)])
    (Order.createdAt order)
    t2
    (match done with Some t3 => Some t3 | None => Order.completedAt order end).

Section Canteen.

Context {runtime : DateRuntime}.
Variable now : nat -> Z.          (* k-th reading of the wall clock *)
Variable rand36 : nat -> string.  (* k-th [Math.random().toString(36)] *)

(** [new Date()] / [Date.now()]: one reading of the clock. *)
Definition newDate : M Z :=
  fun s => (now (ticks s), mkState (storage s) (S (ticks s)) (draws s)).

Definition mathRandom36 : M string :=
  fun s => (rand36 (draws s), mkState (storage s) (ticks s) (S (draws s))).

(** *** js/utils.js: token and id *)

Definition dateStr (date : Z) : string :=
  Js.toString 10 (getFullYear date) +:+
  Js.padStart 2 "0" (Js.toString 10 (getMonth date + 1)) +:+
  Js.padStart 2 "0" (Js.toString 10 (getDate date)).

Definition todayOrders (date : Z) (orders : list Order.t) : list Order.t :=
  List.filter (fun order =>
                 String.eqb (toDateString (Order.createdAt order)) (toDateString date))
              orders.

Definition generateToken : M string :=
  date <- newDate ;;
  orders <- gets (fun st => default [] (ORDERS st)) ;;
  let sequenceNum :=
    Js.padStart 4 "0" (Js.toString 10 (Z.of_nat (length (todayOrders date orders) + 1))) in
  ret ("TKN-" +:+ dateStr date +:+ "-" +:+ sequenceNum).

Definition generateId : M string :=
  t <- newDate ;;
  r <- mathRandom36 ;;
  ret (Js.toString 36 t +:+ Js.substr 2 r).

(** *** Orders module: createOrder *)

Definition createOrder : M Result :=
  cart <- gets getCart ;;
  currentUser <- gets getCurrentUser ;;
  if (length cart =? 0)%nat then
    ret (mkResult false "Cart is empty" None)
  else
    match currentUser with
    | None => ret (mkResult false "Please login to place order" None)
    | Some currentUser =>
        totals <- gets getCartTotals ;;
        token <- generateToken ;;
        id <- generateId ;;
        timestamp <- newDate ;;
        createdAt <- newDate ;;
        updatedAt <- newDate ;;
        let order :=
          Order.mk id token
            (User.id currentUser) (User.name currentUser) (User.email currentUser)
            (map (fun item =>
                    OrderItem.mk (CartItem.id item) (CartItem.name item)
                      (CartItem.price item) (CartItem.quantity item)
                      (CartItem.price item * CartItem.quantity item))
                 cart)
            (totals_subtotal totals) (totals_tax totals) (totals_total totals)
            ORDER_STATUS.PENDING
            [StatusEntry.mk ORDER_STATUS.PENDING timestamp "Order placed"]
            createdAt updatedAt None in
        orders <- gets (fun st => default [] (ORDERS st)) ;;
        saveToStorage_ORDERS (orders ++ [order]) ;;
        clearCart ;;
        ret (mkResult true "Order placed successfully!" (Some order))
    end.

(** *** Orders module: updateOrderStatus *)

Definition updateOrderStatus (orderId newStatus note : string) : M Result :=
  orders <- gets getAllOrders ;;
  match Js.findIndex (fun o => String.eqb (Order.id o) orderId) orders with
  | None => ret (mkResult false "Order not found" None)
  | Some orderIndex =>
      t1 <- newDate ;;
      t2 <- newDate ;;
      done <- (if String.eqb newStatus ORDER_STATUS.COMPLETED
               then t3 <- newDate ;; ret (Some t3)
               else ret None) ;;
      let orders' := alter (transitionOrder newStatus note t1 t2 done) orderIndex orders in
      saveToStorage_ORDERS orders' ;;
      ret (mkResult true ("Order status updated to " +:+ newStatus)
                    (orders' !! orderIndex))
  end.

(** *** js/admin.js: getDailyReport *)

Definition getDailyReport (date : Z) (st : Storage) : Report :=
  let orders := getAllOrders st in
  let dateStr := toDateString date in
  let dayOrders :=
    List.filter (fun o => String.eqb (toDateString (Order.createdAt o)) dateStr) orders in
  let completedOrders :=
    List.filter (fun o => String.eqb (Order.status o) ORDER_STATUS.COMPLETED) dayOrders in
  mkReport dateStr
    (length dayOrders)
    (length completedOrders)
    (length (List.filter (fun o => String.eqb (Order.status o) ORDER_STATUS.CANCELLED)
                         dayOrders))
    (Js.reduce (fun sum o => sum + Order.total o) 0 completedOrders)
    (if (0 <? length completedOrders)%nat
     then Qdiv
            (inject_Z (Js.reduce (fun sum o => sum + Order.total o) 0 completedOrders))
            (inject_Z (Z.of_nat (length completedOrders)))
     else inject_Z 0).

(** *** The values the two order operations compute in a given state *)

(** The token [generateToken] returns in state [s]. *)
Definition tokenAt (s : State) : string :=
  "TKN-" +:+ dateStr (now (ticks s)) +:+ "-" +:+
  Js.padStart 4 "0"
    (Js.toString 10
       (Z.of_nat (length (todayOrders (now (ticks s)) (getAllOrders (storage s))) + 1))).

(** The order [createOrder] builds in state [s] for user [u]: the clock is
    read five times, for the token, the id, the history entry, [createdAt]
    and [updatedAt], in this order. *)
Definition orderAt (s : State) (u : User.t) : Order.t :=
  Order.mk
    (Js.toString 36 (now (1 + ticks s)) +:+ Js.substr 2 (rand36 (draws s)))
    (tokenAt s)
    (User.id u) (User.name u) (User.email u)
    (map (fun item =>
            OrderItem.mk (CartItem.id item) (CartItem.name item)
              (CartItem.price item) (CartItem.quantity item)
              (CartItem.price item * CartItem.quantity item))
         (getCart (storage s)))
    (getCartSubtotal (storage s)) 0 (getCartSubtotal (storage s) + 0 + 0)
    ORDER_STATUS.PENDING
    [StatusEntry.mk ORDER_STATUS.PENDING (now (2 + ticks s)) "Order placed"]
    (now (3 + ticks s)) (now (4 + ticks s)) None.

(** What [updateOrderStatus] writes to [completedAt], and how many clock
    readings it takes, when the id is found. *)
Definition doneAt (s : State) (newStatus : string) : option Z :=
  if String.eqb newStatus ORDER_STATUS.COMPLETED then Some (now (2 + ticks s)) else None.

Definition ticksOfUpdate (newStatus : string) : nat :=
  if String.eqb newStatus ORDER_STATUS.COMPLETED then 3%nat else 2%nat.

(** *** What the daily report is said to count *)

(** [o] was created on the calendar day of [date]. *)
Definition createdOn (date : Z) (o : Order.t) : Prop :=
  toDateString (Order.createdAt o) = toDateString date.

(** [o] is a completed order created on the day of [date]. *)
Definition countedOn (date : Z) (o : Order.t) : Prop :=
  Order.status o = ORDER_STATUS.COMPLETED /\ createdOn date o.

#[global] Instance countedOn_dec (date : Z) (o : Order.t) : Decision (countedOn date o).
Proof. unfold countedOn, createdOn. apply _. Defined.

(** What [o] adds to the revenue of the day of [date]. *)
Definition contribution (date : Z) (o : Order.t) : Z :=
  if bool_decide (countedOn date o) then Order.total o else 0.

(** The orders of [s] were all stamped by readings the clock has already
    given. *)
Definition createdEarlier (s : State) : Prop :=
  Forall (fun o => exists k, (k < ticks s)%nat /\ Order.createdAt o = now k)
         (getAllOrders (storage s)).

(** *** What a token is said to look like *)

(** The number of orders of the collection created on the day [day]
    (a [toDateString] value). *)
Definition sameDayCount (day : string) (orders : list Order.t) : nat :=
  length (filter (fun o => toDateString (Order.createdAt o) = day) orders).

(** TKN-YYYYMMDD-NNNN for the date of [date] and the number [n]. *)
Definition tokenFormat (date : Z) (n : nat) : string :=
  "TKN-" +:+ dateStr date +:+ "-" +:+ Js.padStart 4 "0" (Js.toString 10 (Z.of_nat n)).

End Canteen.

(** Sum of a list of amounts. *)
Definition sumZ (xs : list Z) : Z := foldr Z.add 0 xs.

(** The amount of a cart line: unit price times quantity. *)
Definition lineAmount (line : CartItem.t) : Z :=
  CartItem.price line * CartItem.quantity line.

(** The invariant linking an order's status to its history. *)
Definition statusTracksHistory (o : Order.t) : Prop :=
  StatusEntry.status <$> last (Order.statusHistory o) = Some (Order.status o).

(** Every order of [before] is still there in [after], at the same place,
    related to its earlier self by [R]. *)
Definition evolves (R : relation Order.t) (before after : list Order.t) : Prop :=
  forall i o, before !! i = Some o -> exists o', after !! i = Some o' /\ R o o'.

(** The history of [o'] extends the one of [o]. *)
Definition historyGrows (o o' : Order.t) : Prop :=
  Order.statusHistory o `prefix_of` Order.statusHistory o'.

(** [o'] has the completion time of [o]. *)
Definition completedAtKept (o o' : Order.t) : Prop :=
  Order.completedAt o' = Order.completedAt o.

(** An active order: pending, preparing or ready. *)
Definition isActive (o : Order.t) : Prop :=
  Order.status o = "pending" \/ Order.status o = "preparing" \/ Order.status o = "ready".

(** Oldest first. *)
Definition oldestFirst (a b : Order.t) : Prop := Order.createdAt a <= Order.createdAt b.

(** ** A concrete runtime: the calendar in time zone UTC *)

Module Utc.

Definition msPerDay : Z := 86400000.

(** Day number since 1970-01-01 of an epoch value. *)
Definition day (t : Z) : Z := t / msPerDay.

(** Civil date (year, month 1-12, day of month) of a day number, in the
    proleptic Gregorian calendar. *)
Definition civil (days : Z) : Z * Z * Z :=
  let z := days + 719468 in
  let era := z / 146097 in
  let doe := z - era * 146097 in
  let yoe := (doe - doe / 1460 + doe / 36524 - doe / 146096) / 365 in
  let doy := doe - (365 * yoe + yoe / 4 - yoe / 100) in
  let mp := (5 * doy + 2) / 153 in
  let d := doy - (153 * mp + 2) / 5 + 1 in
  let m := if mp <? 10 then mp + 3 else mp - 9 in
  let y := yoe + era * 400 + (if m <=? 2 then 1 else 0) in
  (y, m, d).

Definition weekDay (days : Z) : Z := (days + 4) mod 7.

Definition dayName (w : Z) : string :=
  nth (Z.to_nat w) ["Sun"; "Mon"; "Tue"; "Wed"; "Thu"; "Fri"; "Sat"] "".

Definition monthName (m : Z) : string :=
  nth (Z.to_nat (m - 1))
      ["Jan"; "Feb"; "Mar"; "Apr"; "May"; "Jun";
       "Jul"; "Aug"; "Sep"; "Oct"; "Nov"; "Dec"] "".

Definition fullYear (t : Z) : Z := let '(y, _, _) := civil (day t) in y.
Definition month (t : Z) : Z := let '(_, m, _) := civil (day t) in m - 1.
Definition dayOfMonth (t : Z) : Z := let '(_, _, d) := civil (day t) in d.

(** [Date.prototype.toDateString]: "Tue Nov 03 2026". *)
Definition dateString (t : Z) : string :=
  let '(y, m, d) := civil (day t) in
  dayName (weekDay (day t)) +:+ " " +:+ monthName m +:+ " " +:+
  Js.padStart 2 "0" (Js.toString 10 d) +:+ " " +:+
  (if y <? 0 then "-" else "") +:+ Js.padStart 4 "0" (Js.toString 10 (Z.abs y)).

Definition runtime : DateRuntime :=
  {| getFullYear := fullYear; getMonth := month; getDate := dayOfMonth;
     toDateString := dateString |}.

End Utc.

(** ** Histories of operations *)

(** What can happen to the three keys: the cart module and the session
    rewrite [CART] and [CURRENT_USER]; only [createOrder] and
    [updateOrderStatus] write [ORDERS]. *)
Inductive Op :=
| SetCart (cart : option (list CartItem.t))
| SetUser (user : option User.t)
| CreateOrder
| UpdateOrderStatus (orderId newStatus note : string).

Section Histories.

Context {runtime : DateRuntime}.
Variable now : nat -> Z.
Variable rand36 : nat -> string.

(** One operation; the result object of the two order operations is kept. *)
Definition step (op : Op) : M (option Result) :=
  match op with
  | SetCart cart =>
      modify (fun st => mkStorage cart (ORDERS st) (CURRENT_USER st)) ;; ret None
  | SetUser user =>
      modify (fun st => mkStorage (CART st) (ORDERS st) user) ;; ret None
  | CreateOrder =>
      r <- createOrder now rand36 ;; ret (Some r)
  | UpdateOrderStatus orderId newStatus note =>
      r <- updateOrderStatus now orderId newStatus note ;; ret (Some r)
  end.

(** The token an operation hands out: the one of the order a successful
    createOrder returns. *)
Definition issued (op : Op) (r : option Result) : list string :=
  match op, r with
  | CreateOrder, Some (mkResult true _ (Some o)) => [Order.token o]
  | _, _ => []
  end.

(** The tokens handed out by a history, in creation order, and the state
    it ends in. *)
Fixpoint run (ops : list Op) (s : State) : list string * State :=
  match ops with
  | [] => ([], s)
  | op :: ops' =>
      let (r, s') := step op s in
      let (tokens, s'') := run ops' s' in
      ((issued op r ++ tokens)%list, s'')
  end.

(** The step relation of the order collection: what each operation
    returns and the state it leaves, case by case. *)
Inductive outcome (s : State) : Op -> option Result -> State -> Prop :=
| outcome_cart cart :
    outcome s (SetCart cart) None
      (mkState (mkStorage cart (ORDERS (storage s)) (CURRENT_USER (storage s)))
               (ticks s) (draws s))
| outcome_user user :
    outcome s (SetUser user) None
      (mkState (mkStorage (CART (storage s)) (ORDERS (storage s)) user)
               (ticks s) (draws s))
| outcome_empty_cart :
    getCart (storage s) = [] ->
    outcome s CreateOrder (Some (mkResult false "Cart is empty" None)) s
| outcome_anonymous :
    getCart (storage s) <> [] ->
    getCurrentUser (storage s) = None ->
    outcome s CreateOrder (Some (mkResult false "Please login to place order" None)) s
| outcome_created u :
    getCart (storage s) <> [] ->
    getCurrentUser (storage s) = Some u ->
    outcome s CreateOrder
      (Some (mkResult true "Order placed successfully!" (Some (orderAt now rand36 s u))))
      (mkState (mkStorage (Some [])
                          (Some (getAllOrders (storage s) ++ [orderAt now rand36 s u])%list)
                          (Some u))
               (5 + ticks s) (1 + draws s))
| outcome_missing orderId newStatus note :
    Js.findIndex (fun o => String.eqb (Order.id o) orderId) (getAllOrders (storage s))
      = None ->
    outcome s (UpdateOrderStatus orderId newStatus note)
      (Some (mkResult false "Order not found" None)) s
| outcome_updated orderId newStatus note i :
    Js.findIndex (fun o => String.eqb (Order.id o) orderId) (getAllOrders (storage s))
      = Some i ->
    let orders' :=
      alter (transitionOrder newStatus note (now (ticks s)) (now (1 + ticks s))
                             (doneAt now s newStatus))
            i (getAllOrders (storage s)) in
    outcome s (UpdateOrderStatus orderId newStatus note)
      (Some (mkResult true ("Order status updated to " +:+ newStatus) (orders' !! i)))
      (mkState (mkStorage (CART (storage s)) (Some orders') (CURRENT_USER (storage s)))
               (ticksOfUpdate newStatus + ticks s) (draws s)).

End Histories.

(** A transition to "completed". *)
Definition completes (op : Op) : Prop :=
  exists orderId note, op = UpdateOrderStatus orderId ORDER_STATUS.COMPLETED note.

(** The sequence number a token ends in: the decimal value of the digits
    after its last hyphen. *)
Definition digitValue (c : ascii) : Z := Z.of_N (N_of_ascii c) - 48.

Fixpoint tokenSequenceGo (acc : Z) (s : string) : Z :=
  match s with
  | EmptyString => acc
  | String c s' =>
      if Ascii.eqb c "-" then tokenSequenceGo 0 s'
      else tokenSequenceGo (10 * acc + digitValue c) s'
  end.

Definition tokenSequence (token : string) : Z := tokenSequenceGo 0 token.

(** *** The token as the specification writes it *)

(** TKN-YYYYMMDD-NNNN spelled out digit by digit, independently of the
    code's [toString] and [padStart]: the [width] lowest decimal digits of
    a number, most significant first. *)
Definition decimalDigit (d : Z) : ascii :=
  match d with
  | 0 => "0" | 1 => "1" | 2 => "2" | 3 => "3" | 4 => "4"
  | 5 => "5" | 6 => "6" | 7 => "7" | 8 => "8" | _ => "9"
  end%char.

Fixpoint decimal (width : nat) (n : Z) : string :=
  match width with
  | O => ""
  | S width' => decimal width' (n / 10) +:+ String (decimalDigit (n mod 10)) ""
  end.

(** The token of the [number]-th order of the calendar day [year]-[month]-[day]
    ([month] from 1 to 12). *)
Definition tokenText (year month day number : Z) : string :=
  "TKN-" +:+ decimal 4 year +:+ decimal 2 month +:+ decimal 2 day +:+ "-" +:+
  decimal 4 number.

(** The number of orders a history places, by the specification's words: a
    creation succeeds when the cart holds a line and a customer is logged
    in, and it empties the cart; nothing else places an order. *)
Definition cartFilled (st : Storage) : bool :=
  match getCart st with [] => false | _ :: _ => true end.

Definition loggedIn (st : Storage) : bool :=
  match getCurrentUser st with Some _ => true | None => false end.

Fixpoint placements (ops : list Op) (filled logged : bool) : nat :=
  match ops with
  | [] => 0
  | SetCart cart :: ops' =>
      placements ops' (match cart with Some (_ :: _) => true | _ => false end) logged
  | SetUser user :: ops' =>
      placements ops' filled (match user with Some _ => true | None => false end)
  | CreateOrder :: ops' =>
      if filled && logged then S (placements ops' false logged)
      else placements ops' filled logged
  | UpdateOrderStatus _ _ _ :: ops' => placements ops' filled logged
  end.

(** [o'] carries the token and the creation time of [o]. *)
Definition sameStamp (o o' : Order.t) : Prop :=
  Order.token o' = Order.token o /\ Order.createdAt o' = Order.createdAt o.

(** ** Fixtures: a morning at the canteen, 3 November 2026 (UTC) *)

Module Demo.

(** A clock that advances one millisecond per reading. *)
Definition clock (k : nat) : Z := 1793700000000 + Z.of_nat k.

Definition random (k : nat) : string := "0.4fzyo82mvyr".

Definition itemA : CartItem.t := CartItem.mk "m1" "Rice and Curry" 350 "rice.jpg" 2.
Definition itemB : CartItem.t := CartItem.mk "m2" "Kottu" 280 "kottu.jpg" 1.

Definition U1 : User.t := User.mk "u1" "Nimal" "nimal@example.com" "customer".

(** Logged in, two lines in the cart, no orders yet. *)
Definition ready : State :=
  mkState (mkStorage (Some [itemA; itemB]) (Some []) (Some U1)) 0 0.

(** Nobody logged in and nothing in the cart. *)
Definition blank : State := mkState (mkStorage None None None) 0 0.

(** Logged out with a filled cart. *)
Definition anonymous : State :=
  mkState (mkStorage (Some [itemA]) (Some []) None) 0 0.

Definition placed (id token status : string) (history : list StatusEntry.t)
    (createdAt : Z) (completedAt : option Z) : Order.t :=
  Order.mk id token "u1" "Nimal" "nimal@example.com"
    [OrderItem.mk "m1" "Rice and Curry" 350 2 700] 700 0 700
    status history createdAt createdAt completedAt.

(** One pending order placed a minute before the clock starts. *)
Definition O1 : Order.t :=
  placed "o1" "TKN-20261103-0001" "pending"
    [StatusEntry.mk "pending" 1793699940000 "Order placed"] 1793699940000 None.

Definition oneOrder : State :=
  mkState (mkStorage (Some []) (Some [O1]) (Some U1)) 0 0.

(** A second order that was handed the token of O1. *)
Definition O2 : Order.t :=
  placed "o2" "TKN-20261103-0001" "preparing"
    [StatusEntry.mk "pending" 1793699950000 "Order placed";
     StatusEntry.mk "preparing" 1793699960000 "Started preparing"]
    1793699950000 None.

(** Yesterday's order, completed today; today's completed order; a
    cancelled one. *)
Definition O3 : Order.t :=
  placed "o3" "TKN-20261102-0007" "completed"
    [StatusEntry.mk "pending" 1793613600000 "Order placed";
     StatusEntry.mk "completed" 1793699970000 "Order collected by customer"]
    1793613600000 (Some 1793699970000).

Definition O4 : Order.t :=
  placed "o4" "TKN-20261103-0002" "completed"
    [StatusEntry.mk "pending" 1793699930000 "Order placed";
     StatusEntry.mk "completed" 1793699980000 "Order collected by customer"]
    1793699930000 (Some 1793699980000).

Definition O5 : Order.t :=
  placed "o5" "TKN-20261103-0003" "cancelled"
    [StatusEntry.mk "pending" 1793699920000 "Order placed";
     StatusEntry.mk "cancelled" 1793699990000 "Order cancelled"]
    1793699920000 None.

(** The whole collection; O2 is stored in front of O1, whose token it
    shares. *)
Definition board : Storage :=
  mkStorage (Some []) (Some [O2; O1; O3; O4; O5]) (Some U1).

(** One pending, one preparing, one completed and one cancelled order. *)
Definition counter : Storage :=
  mkStorage (Some []) (Some [O2; O1; O4; O5]) (Some U1).

(** Lunch time: O1 is in the collection, a customer is logged in with a
    filled cart, and three orders are placed while the kitchen works. *)
Definition lunch : State :=
  mkState (mkStorage (Some [itemA]) (Some [O1]) (Some U1)) 0 0.

Definition rush : list Op :=
  [CreateOrder;
   UpdateOrderStatus "o1" "preparing" "Started preparing";
   CreateOrder;                       (* the cart was cleared: "Cart is empty" *)
   SetCart (Some [itemB]);
   CreateOrder;
   SetUser None;
   SetCart (Some [itemA; itemB]);
   CreateOrder;                       (* nobody logged in *)
   SetUser (Some U1);
   CreateOrder].

(** The kitchen starts on O1 while a second order comes in, then O1 is
    ready; the last transition carries a status outside ORDER_STATUS. *)
Definition morning : list Op :=
  [UpdateOrderStatus "o1" "preparing" "Started preparing";
   SetCart (Some [itemA; itemB]);
   CreateOrder;
   UpdateOrderStatus "o1" "ready" "";
   UpdateOrderStatus "o1" "on-hold" ""].

(** The state after the order of [ready] has been placed, that order and
    its id. *)
Definition afterOrder : State :=
  (createOrder (runtime := Utc.runtime) clock random ready).2.

Definition placedOrder : Order.t :=
  orderAt (runtime := Utc.runtime) clock random ready U1.

Definition placedId : string := Order.id placedOrder.

End Demo.

(** ** The rest of the cart module, the menu catalogue and the dashboards *)

(** [xs.find(p)] as a reference: the element found together with its
    position, so that a mutation of the element can be written back. *)
Fixpoint findRef {A} (p : A -> bool) (xs : list A) : option (nat * A) :=
  match xs with
  | [] => None
  | x :: xs' =>
      if p x then Some (O, x)
      else match findRef p xs' with
           | Some (i, y) => Some (S i, y)
           | None => None
           end
  end.

(** *** js/menu.js *)

Module MenuItem.
Record t := mk {
  id : string;
  name : string;
  description : string;
  price : Z;
  category : string;
  image : string;
  available : bool;
  preparationTime : Z;
  createdAt : option Z;      (* absent on the sample items *)
  updatedAt : option Z       (* absent until updateMenuItem *)
}.
End MenuItem.

(** The result objects of the menu operations; [available] is present on
    a successful toggle only. *)
Module MenuResult.
Record t := mk {
  success : bool;
  message : string;
  available : option bool
}.
End MenuResult.

(** The menu functions read and write one key, STORAGE_KEYS.MENU_ITEMS;
    its value ([None] when absent) is passed in and handed back. *)
Definition getMenuItems (onlyAvailable : bool) (menu : option (list MenuItem.t))
    : list MenuItem.t :=
  let items := default [] menu in
  if onlyAvailable then List.filter (fun item => MenuItem.available item) items
  else items.

Definition getMenuItem (itemId : string) (menu : option (list MenuItem.t))
    : option MenuItem.t :=
  Js.find (fun item => String.eqb (MenuItem.id item) itemId) (getMenuItems false menu).

Definition filterByCategory (category : string) (menu : option (list MenuItem.t))
    : list MenuItem.t :=
  let items := getMenuItems true menu in
  if String.eqb category "all" then items
  else List.filter (fun item => String.eqb (MenuItem.category item) category) items.

Definition deleteMenuItem (itemId : string) (menu : option (list MenuItem.t))
    : MenuResult.t * option (list MenuItem.t) :=
  let items := getMenuItems false menu in
  let filteredItems :=
    List.filter (fun item => negb (String.eqb (MenuItem.id item) itemId)) items in
  if (length filteredItems =? length items)%nat then
    (MenuResult.mk false "Item not found" None, menu)
  else
    (MenuResult.mk true "Menu item deleted successfully!" None, Some filteredItems).

(** [item.available = value]. *)
Definition setAvailable (value : bool) (item : MenuItem.t) : MenuItem.t :=
  MenuItem.mk (MenuItem.id item) (MenuItem.name item) (MenuItem.description item)
    (MenuItem.price item) (MenuItem.category item) (MenuItem.image item)
    value (MenuItem.preparationTime item)
    (MenuItem.createdAt item) (MenuItem.updatedAt item).

Definition toggleItemAvailability (itemId : string) (menu : option (list MenuItem.t))
    : MenuResult.t * option (list MenuItem.t) :=
  let items := getMenuItems false menu in
  match findRef (fun i => String.eqb (MenuItem.id i) itemId) items with
  | None => (MenuResult.mk false "Item not found" None, menu)
  | Some (index, item) =>
      let available := negb (MenuItem.available item) in
      (MenuResult.mk true
         ("Item is now " +:+ (if available then "available" else "unavailable"))
         (Some available),
       Some (alter (setAvailable available) index items))
  end.

(** *** Cart module: the operations on the cart *)

Module CartResult.
Record t := mk {
  success : bool;
  message : string;
  cartCount : option Z      (* present when addToCart succeeds *)
}.
End CartResult.

Definition getCartItemCount (st : Storage) : Z :=
  Js.reduce (fun total item => total + CartItem.quantity item) 0 (getCart st).

(** [item.quantity = value]. *)
Definition setQuantity (value : Z) (item : CartItem.t) : CartItem.t :=
  CartItem.mk (CartItem.id item) (CartItem.name item) (CartItem.price item)
    (CartItem.image item) value.

Definition addToCart (menu : option (list MenuItem.t)) (itemId : string) (quantity : Z)
    : M CartResult.t :=
  match getMenuItem itemId menu with
  | None => ret (CartResult.mk false "Item not found" None)
  | Some menuItem =>
      if negb (MenuItem.available menuItem) then
        ret (CartResult.mk false "Item is not available" None)
      else
        cart <- gets getCart ;;
        let cart' :=
          match findRef (fun item => String.eqb (CartItem.id item) itemId) cart with
          | Some (index, existingItem) =>
              alter (setQuantity (CartItem.quantity existingItem + quantity)) index cart
          | None =>
              (cart ++ [CartItem.mk (MenuItem.id menuItem) (MenuItem.name menuItem)
                          (MenuItem.price menuItem) (MenuItem.image menuItem)
                          quantity])%list
          end in
        saveCart cart' ;;
        cartCount <- gets getCartItemCount ;;
        ret (CartResult.mk true (MenuItem.name menuItem +:+ " added to cart!")
                           (Some cartCount))
  end.

Definition removeFromCart (itemId : string) : M CartResult.t :=
  cart <- gets getCart ;;
  let filteredCart :=
    List.filter (fun item => negb (String.eqb (CartItem.id item) itemId)) cart in
  if (length filteredCart =? length cart)%nat then
    ret (CartResult.mk false "Item not in cart" None)
  else
    saveCart filteredCart ;;
    ret (CartResult.mk true "Item removed from cart" None).

Definition updateCartQuantity (itemId : string) (quantity : Z) : M CartResult.t :=
  if quantity <? 1 then removeFromCart itemId
  else
    cart <- gets getCart ;;
    match findRef (fun i => String.eqb (CartItem.id i) itemId) cart with
    | None => ret (CartResult.mk false "Item not in cart" None)
    | Some (index, item) =>
        saveCart (alter (setQuantity quantity) index cart) ;;
        ret (CartResult.mk true "Cart updated" None)
    end.

Definition increaseQuantity (itemId : string) : M unit :=
  cart <- gets getCart ;;
  match findRef (fun i => String.eqb (CartItem.id i) itemId) cart with
  | Some (index, item) =>
      saveCart (alter (setQuantity (CartItem.quantity item + 1)) index cart)
  | None => ret tt
  end.

Definition decreaseQuantity (itemId : string) : M unit :=
  cart <- gets getCart ;;
  match findRef (fun i => String.eqb (CartItem.id i) itemId) cart with
  | Some (index, item) =>
      if 1 <? CartItem.quantity item then
        saveCart (alter (setQuantity (CartItem.quantity item - 1)) index cart)
      else
        removeFromCart itemId ;; ret tt
  | None => ret tt
  end.

(** What the customer can do to the cart. *)
Inductive CartOp :=
| AddToCart (itemId : string) (quantity : Z)
| RemoveFromCart (itemId : string)
| UpdateCartQuantity (itemId : string) (quantity : Z)
| IncreaseQuantity (itemId : string)
| DecreaseQuantity (itemId : string)
| ClearCart.

Definition cartStep (menu : option (list MenuItem.t)) (op : CartOp) : M unit :=
  match op with
  | AddToCart itemId quantity => addToCart menu itemId quantity ;; ret tt
  | RemoveFromCart itemId => removeFromCart itemId ;; ret tt
  | UpdateCartQuantity itemId quantity => updateCartQuantity itemId quantity ;; ret tt
  | IncreaseQuantity itemId => increaseQuantity itemId
  | DecreaseQuantity itemId => decreaseQuantity itemId
  | ClearCart => clearCart
  end.

Fixpoint cartRun (menu : option (list MenuItem.t)) (ops : list CartOp) (s : State)
    : State :=
  match ops with
  | [] => s
  | op :: ops' => cartRun menu ops' (cartStep menu op s).2
  end.

(** The state after [saveCart cart]: only the CART key is rewritten. *)
Definition withCart (cart : list CartItem.t) (s : State) : State :=
  mkState (mkStorage (Some cart) (ORDERS (storage s)) (CURRENT_USER (storage s)))
          (ticks s) (draws s).

(** The cart a successful [addToCart] saves. *)
Definition cartAfterAdd (menuItem : MenuItem.t) (itemId : string) (quantity : Z)
    (cart : list CartItem.t) : list CartItem.t :=
  match findRef (fun item => String.eqb (CartItem.id item) itemId) cart with
  | Some (index, existingItem) =>
      alter (setQuantity (CartItem.quantity existingItem + quantity)) index cart
  | None =>
      (cart ++ [CartItem.mk (MenuItem.id menuItem) (MenuItem.name menuItem)
                  (MenuItem.price menuItem) (MenuItem.image menuItem) quantity])%list
  end.

(** The lines of a cart other than those of [itemId]. *)
Definition otherLines (itemId : string) (cart : list CartItem.t) : list CartItem.t :=
  List.filter (fun item => negb (String.eqb (CartItem.id item) itemId)) cart.

(** Nothing but the cart differs between [s] and [s']. *)
Definition onlyCartChanged (s s' : State) : Prop :=
  ORDERS (storage s') = ORDERS (storage s) /\
  CURRENT_USER (storage s') = CURRENT_USER (storage s) /\
  ticks s' = ticks s /\ draws s' = draws s.

(** A tidy cart: one line per item, every line with at least one unit. *)
Definition tidyCart (cart : list CartItem.t) : Prop :=
  NoDup (map CartItem.id cart) /\ Forall (fun line => 1 <= CartItem.quantity line) cart.

(** The cart operations a history asks for add at least one unit each. *)
Definition addsUnits (op : CartOp) : Prop :=
  match op with
  | AddToCart _ quantity => 1 <= quantity
  | _ => True
  end.

(** The fields of an order no transition touches. *)
Definition sameOrder (o o' : Order.t) : Prop :=
  Order.id o' = Order.id o /\ Order.token o' = Order.token o /\
  Order.userId o' = Order.userId o /\ Order.userName o' = Order.userName o /\
  Order.userEmail o' = Order.userEmail o /\ Order.items o' = Order.items o /\
  Order.subtotal o' = Order.subtotal o /\ Order.tax o' = Order.tax o /\
  Order.total o' = Order.total o /\ Order.createdAt o' = Order.createdAt o.

(** The order line [createOrder] copies from a cart line. *)
Definition copiedFrom (line : CartItem.t) (item : OrderItem.t) : Prop :=
  OrderItem.id item = CartItem.id line /\ OrderItem.name item = CartItem.name line /\
  OrderItem.price item = CartItem.price line /\
  OrderItem.quantity item = CartItem.quantity line /\
  OrderItem.subtotal item = CartItem.price line * CartItem.quantity line.

(** Newest first. *)
Definition newestFirst (a b : Order.t) : Prop := Order.createdAt b <= Order.createdAt a.

(** *** Dashboards *)

(** The object [getTodayStats] returns. *)
Module TodayStats.
Record t := mk {
  total : nat;
  pending : nat;
  preparing : nat;
  ready : nat;
  completed : nat;
  cancelled : nat;
  revenue : Z
}.
End TodayStats.

(** [itemCounts[name]] after one more item of a completed order: the own
    properties of [itemCounts] in insertion order.  A count of 0 is falsy
    and is overwritten, which gives the same number as adding to it. *)
Fixpoint countItem (name : string) (quantity : Z) (itemCounts : list (string * Z))
    : list (string * Z) :=
  match itemCounts with
  | [] => [(name, quantity)]
  | (key, count) :: rest =>
      if String.eqb key name then
        (key, if count =? 0 then quantity else count + quantity) :: rest
      else (key, count) :: countItem name quantity rest
  end.

(** The two nested [forEach] loops over the completed orders. *)
Definition countItems (completedOrders : list Order.t) : list (string * Z) :=
  fold_left
    (fun itemCounts order =>
       fold_left
         (fun itemCounts item =>
            countItem (OrderItem.name item) (OrderItem.quantity item) itemCounts)
         (Order.items order) itemCounts)
    completedOrders [].

(** The property names [Object.prototype] answers for on an object
    literal, and the names [Object.entries] lists first (array indices:
    the decimal rendering of an integer below 2^32 - 1). *)
Definition objectPrototypeKeys : list string :=
  ["constructor"; "__proto__"; "hasOwnProperty"; "isPrototypeOf";
   "propertyIsEnumerable"; "toLocaleString"; "toString"; "valueOf";
   "__defineGetter__"; "__defineSetter__"; "__lookupGetter__"; "__lookupSetter__"].

Fixpoint decimalValue (acc : N) (s : string) : option N :=
  match s with
  | EmptyString => Some acc
  | String c s' =>
      let d := N_of_ascii c in
      if ((48 <=? d) && (d <=? 57))%N then decimalValue (10 * acc + (d - 48)) s'
      else None
  end.

Definition isArrayIndex (s : string) : bool :=
  match s, decimalValue 0 s with
  | String _ _, Some n =>
      String.eqb (Js.natToString 10 n) s && (n <? 4294967295)%N
  | _, _ => false
  end.

(** An item name that is an ordinary key of [itemCounts]: the association
    list [countItems] is the object of the source for such names. *)
Definition plainKey (name : string) : Prop :=
  (name ∉ objectPrototypeKeys) /\ isArrayIndex name = false.

Definition plainNames (orders : list Order.t) : Prop :=
  Forall (fun o => Forall (fun item => plainKey (OrderItem.name item)) (Order.items o))
         orders.

(** The units of [name] sold by the orders. *)
Definition unitsSold (name : string) (orders : list Order.t) : Z :=
  sumZ (map (fun o =>
               sumZ (map (fun item =>
                            if String.eqb (OrderItem.name item) name
                            then OrderItem.quantity item else 0)
                         (Order.items o)))
            orders).

Section Dashboards.

Context {runtime : DateRuntime}.
Variable now : nat -> Z.

(** [getTodayStats] (staff dashboard). *)
Definition getTodayStats : M TodayStats.t :=
  date <- newDate now ;;
  orders <- gets getAllOrders ;;
  let today := toDateString date in
  let todayOrders :=
    List.filter (fun o => String.eqb (toDateString (Order.createdAt o)) today) orders in
  let count status :=
    length (List.filter (fun o => String.eqb (Order.status o) status) todayOrders) in
  ret (TodayStats.mk
         (length todayOrders)
         (count ORDER_STATUS.PENDING)
         (count ORDER_STATUS.PREPARING)
         (count ORDER_STATUS.READY)
         (count ORDER_STATUS.COMPLETED)
         (count ORDER_STATUS.CANCELLED)
         (Js.reduce (fun sum o => sum + Order.total o) 0
            (List.filter (fun o => String.eqb (Order.status o) ORDER_STATUS.COMPLETED)
                         todayOrders))).

(** The [popularItems] of [getDailyReport]: the five best-selling names of
    the completed orders created on the day of [date]. *)
Definition popularItems (date : Z) (st : Storage) : list (string * Z) :=
  let orders := getAllOrders st in
  let dateStr := toDateString date in
  let dayOrders :=
    List.filter (fun o => String.eqb (toDateString (Order.createdAt o)) dateStr) orders in
  let completedOrders :=
    List.filter (fun o => String.eqb (Order.status o) ORDER_STATUS.COMPLETED) dayOrders in
  take 5 (Js.sort (fun a b : string * Z => b.2 - a.2) (countItems completedOrders)).

End Dashboards.

(** A status the order module knows. *)
Definition knownStatus (o : Order.t) : Prop :=
  Order.status o ∈ [ORDER_STATUS.PENDING; ORDER_STATUS.PREPARING; ORDER_STATUS.READY;
                    ORDER_STATUS.COMPLETED; ORDER_STATUS.CANCELLED].

(** The count [itemCounts] holds for [name]. *)
Definition countOf (name : string) (itemCounts : list (string * Z)) : Z :=
  sumZ (map (fun entry : string * Z => if String.eqb entry.1 name then entry.2 else 0)
            itemCounts).

(** Best seller first. *)
Definition bestFirst (a b : string * Z) : Prop := b.2 <= a.2.

(** Some order sold an item called [name]. *)
Definition soldIn (name : string) (orders : list Order.t) : Prop :=
  exists o item, o ∈ orders /\ item ∈ Order.items o /\ OrderItem.name item = name.

(** The value of a string of digits in a radix up to 36, as
    [parseInt(s, radix)] reads the strings [toString(radix)] writes. *)
Definition charValue (c : ascii) : N :=
  let n := N_of_ascii c in
  if (n <? 58)%N then (n - 48)%N else (n - 87)%N.

Fixpoint digitsValue (radix acc : N) (s : string) : N :=
  match s with
  | EmptyString => acc
  | String c s' => digitsValue radix (acc * radix + charValue c) s'
  end.

(** The clock readings an id may carry for its time part to have eight
    base-36 digits: 36^7 (June 1972) up to 36^8 (May 2059). *)
Definition eightDigitTime (t : Z) : Prop := 78364164096 <= t < 2821109907456.



(** ** More fixtures *)

Module Shelf.

Definition rice : MenuItem.t :=
  MenuItem.mk "m1" "Rice and Curry" "Rice with three curries" 350 "Rice" "rice.jpg"
    true 15 None None.

Definition kottu : MenuItem.t :=
  MenuItem.mk "m2" "Kottu" "Chicken kottu" 280 "Kottu" "kottu.jpg" true 18 None None.

Definition tea : MenuItem.t :=
  MenuItem.mk "m3" "Tea" "Plain tea" 40 "Drinks" "tea.jpg" false 5 None None.

Definition menu : option (list MenuItem.t) := Some [rice; kottu; tea].

(** A customer with two helpings of rice and one kottu in the cart. *)
Definition shopping : State :=
  mkState (mkStorage (Some [Demo.itemA; Demo.itemB]) (Some [Demo.O1]) (Some Demo.U1)) 0 0.

Definition visit : list CartOp :=
  [AddToCart "m1" 1; DecreaseQuantity "m2"; AddToCart "m3" 1; AddToCart "m2" 2;
   UpdateCartQuantity "m1" 0; IncreaseQuantity "m2"; AddToCart "m1" 1].

End Shelf.

(** ** The model at work *)

Example padStart_sequence :
  Js.padStart 4 "0" (Js.toString 10 42) = "0042" /\
  Js.padStart 4 "0" (Js.toString 10 12345) = "12345" /\
  Js.toString 36 1793700000001 = "mw0io1s1" /\
  Js.substr 2 "0.4fzyo82mvyr" = "4fzyo82mvyr".
Proof. repeat split. Qed.

Example sort_is_stable :
  Js.sort (fun a b : Z * string => a.1 - b.1) [(2, "a"); (1, "b"); (2, "c"); (1, "d")]
  = [(1, "b"); (1, "d"); (2, "a"); (2, "c")].
Proof. reflexivity. Qed.

Example first_order_of_the_day :
  let r := (createOrder (runtime := Utc.runtime) Demo.clock Demo.random Demo.ready).1 in
  success r = true /\
  (Order.token <$> order r) = Some "TKN-20261103-0001" /\
  (Order.id <$> order r) = Some "mw0io1s14fzyo82mvyr" /\
  (Order.total <$> order r) = Some 980 /\
  storage Demo.afterOrder
  = mkStorage (Some []) (Some [Demo.placedOrder]) (Some Demo.U1) /\
  ticks Demo.afterOrder = 5%nat.
Proof. vm_compute. repeat split. Qed.

(** pending -> preparing -> ready -> completed: four history entries in
    that order, completedAt set. *)
Example lifecycle :
  let s3 :=
    (run (runtime := Utc.runtime) Demo.clock Demo.random
         [UpdateOrderStatus "o1" "preparing" "Started preparing";
          UpdateOrderStatus "o1" "ready" "Food is ready for pickup";
          UpdateOrderStatus "o1" "completed" "Order collected by customer"]
         Demo.oneOrder).2 in
  exists o, getOrderById "o1" (storage s3) = Some o /\
    Order.status o = "completed" /\
    map StatusEntry.status (Order.statusHistory o)
    = ["pending"; "preparing"; "ready"; "completed"] /\
    Order.completedAt o = Some 1793700000006 /\
    Order.updatedAt o = 1793700000005.
Proof. eexists. vm_compute. repeat split. Qed.

Example active_on_the_board :
  getActiveOrders Demo.board = [Demo.O1; Demo.O2] /\
  getOrderByToken "TKN-20261103-0001" Demo.board = Some Demo.O2 /\
  getOrderById "o9" Demo.board = None.
Proof. repeat split. Qed.

(** ** Facts about the runtime functions *)

Lemma reduce_add {A} (f : A -> Z) (xs : list A) (init : Z) :
  Js.reduce (fun acc x => acc + f x) init xs = init + sumZ (map f xs).
Proof.
  unfold Js.reduce. revert init.
  induction xs as [|x xs IH]; intros init; simpl; [lia|].
  rewrite IH. lia.
Qed.

Lemma find_first {A} (p : A -> bool) (l1 l2 : list A) (x : A) :
  Forall (fun y => p y = false) l1 -> p x = true ->
  Js.find p (l1 ++ x :: l2) = Some x.
Proof.
  intros Hl1 Hx. induction Hl1 as [|y l1 Hy _ IH]; simpl.
  - by rewrite Hx.
  - by rewrite Hy.
Qed.

Lemma find_app_Some {A} (p : A -> bool) (l1 l2 : list A) (x : A) :
  Js.find p l1 = Some x -> Js.find p (l1 ++ l2) = Some x.
Proof.
  induction l1 as [|y l1 IH]; simpl; [done|].
  destruct (p y); auto.
Qed.

Lemma findIndex_None {A} (p : A -> bool) (xs : list A) :
  Forall (fun y => p y = false) xs -> Js.findIndex p xs = None.
Proof.
  induction 1 as [|y xs Hy _ IH]; simpl; [done|].
  by rewrite Hy, IH.
Qed.

Lemma find_findIndex {A} (p : A -> bool) (xs : list A) (x : A) :
  Js.find p xs = Some x ->
  exists i, Js.findIndex p xs = Some i /\ xs !! i = Some x.
Proof.
  induction xs as [|y xs IH]; simpl; [done|].
  destruct (p y).
  - intros [= <-]. by exists O.
  - intros Hx. destruct (IH Hx) as (i & -> & Hi). by exists (S i).
Qed.

Section SortFacts.

Context {A : Type} (key : A -> Z).

Local Abbreviation byKey := (fun a b : A => key a - key b).
Local Abbreviation le := (fun a b : A => key a <= key b).

Lemma sortInsert_Permutation (x : A) (xs : list A) :
  Js.sortInsert byKey x xs ≡ₚ x :: xs.
Proof.
  induction xs as [|y xs IH]; simpl; [done|].
  destruct (key x - key y <=? 0); [done|].
  rewrite IH. apply Permutation_swap.
Qed.

Lemma sort_Permutation (xs : list A) : Js.sort byKey xs ≡ₚ xs.
Proof.
  induction xs as [|x xs IH]; simpl; [done|].
  by rewrite sortInsert_Permutation, IH.
Qed.

Lemma sortInsert_sorted (x : A) (xs : list A) :
  StronglySorted le xs -> StronglySorted le (Js.sortInsert byKey x xs).
Proof.
  induction 1 as [|y xs Hs IH Hy]; simpl.
  - repeat constructor.
  - destruct (key x - key y <=? 0) eqn:Hxy; simpl in *.
    + constructor; [by constructor|].
      constructor; [lia|].
      eapply Forall_impl; [exact Hy|]. simpl. intros; lia.
    + constructor; [done|].
      rewrite sortInsert_Permutation. constructor; [lia|done].
Qed.

Lemma sort_sorted (xs : list A) : StronglySorted le (Js.sort byKey xs).
Proof.
  induction xs as [|x xs IH]; simpl; [constructor|].
  by apply sortInsert_sorted.
Qed.

End SortFacts.

(** *** Decimal rendering and the sequence number read back from a token *)

Lemma digitChar_value (d : N) :
  (d < 10)%N -> digitValue (Js.digitChar d) = Z.of_N d /\ Js.digitChar d <> "-"%char.
Proof.
  intros Hd.
  assert (Hcases : In d [0; 1; 2; 3; 4; 5; 6; 7; 8; 9]%N).
  { simpl. lia. }
  simpl in Hcases.
  repeat (destruct Hcases as [<-|Hcases]; [by split|]). done.
Qed.

Lemma tokenSequenceGo_app (s1 s2 : string) (acc : Z) :
  tokenSequenceGo acc (s1 +:+ s2) = tokenSequenceGo (tokenSequenceGo acc s1) s2.
Proof.
  revert acc. induction s1 as [|c s1 IH]; intros acc; simpl; [done|].
  destruct (Ascii.eqb c "-"); apply IH.
Qed.

Lemma tokenSequenceGo_zeros (k : nat) (s : string) :
  tokenSequenceGo 0 (Js.repeatChar k "0" +:+ s) = tokenSequenceGo 0 s.
Proof. induction k as [|k IH]; simpl; [done|exact IH]. Qed.

Lemma log2_div_radix (n : N) (fuel : nat) :
  (N.to_nat (N.log2 n) < S fuel)%nat -> (n / 10 <> 0)%N ->
  (N.to_nat (N.log2 (n / 10)) < fuel)%nat.
Proof.
  intros Hfuel Hq.
  assert (Hle : (2 * (n / 10) <= n)%N).
  { pose proof (N.Div0.mul_div_le n 10). lia. }
  apply N.log2_le_mono in Hle.
  rewrite N.log2_double in Hle by (by apply N.neq_0_lt_0). lia.
Qed.

Lemma tokenSequenceGo_decimal (fuel : nat) (n : N) (rest : string) :
  (N.to_nat (N.log2 n) < fuel)%nat ->
  tokenSequenceGo 0 (Js.toStringGo fuel 10 n rest) = tokenSequenceGo (Z.of_N n) rest.
Proof.
  revert n rest. induction fuel as [|fuel IH]; intros n rest Hfuel; [lia|].
  simpl.
  assert (Hmod : (n mod 10 < 10)%N) by (apply N.mod_lt; lia).
  destruct (digitChar_value _ Hmod) as [Hval Hchar].
  apply Ascii.eqb_neq in Hchar.
  pose proof (N.div_mod n 10 ltac:(lia)) as Hdm.
  destruct (n / 10 =? 0)%N eqn:Hq.
  - apply N.eqb_eq in Hq. simpl. rewrite Hchar, Hval.
    f_equal. lia.
  - apply N.eqb_neq in Hq.
    rewrite IH by (by apply log2_div_radix).
    simpl. rewrite Hchar, Hval. f_equal. lia.
Qed.

Lemma toString_of_nat (radix : N) (n : nat) :
  Js.toString radix (Z.of_nat n) = Js.natToString radix (N.of_nat n).
Proof. by destruct n. Qed.

Lemma tokenSequence_padded (prefix : string) (width n : nat) :
  tokenSequence
    (prefix +:+ "-" +:+ Js.padStart width "0" (Js.toString 10 (Z.of_nat n)))
  = Z.of_nat n.
Proof.
  unfold tokenSequence, Js.padStart.
  rewrite tokenSequenceGo_app.
  change ("-" +:+ ?s) with (String "-" s). simpl.
  rewrite tokenSequenceGo_zeros.
  rewrite toString_of_nat. unfold Js.natToString.
  rewrite tokenSequenceGo_decimal by lia. simpl. lia.
Qed.

Lemma toStringGo_length (fuel : nat) (n : N) (rest : string) (k : nat) :
  (0 < k)%nat -> (n < 10 ^ N.of_nat k)%N ->
  (String.length (Js.toStringGo fuel 10 n rest) <= k + String.length rest)%nat.
Proof.
  revert n rest k. induction fuel as [|fuel IH]; intros n rest k Hk Hn; simpl; [lia|].
  destruct (n / 10 =? 0)%N eqn:Hq; simpl; [lia|].
  apply N.eqb_neq in Hq.
  destruct k as [|[|k]]; [lia| |].
  - exfalso. apply Hq. apply N.div_small. simpl in Hn. lia.
  - etrans; [apply (IH _ _ (S k)); [lia|]|simpl; lia].
    apply N.Div0.div_lt_upper_bound.
    replace (N.of_nat (S (S k))) with (N.succ (N.of_nat (S k))) in Hn by lia.
    by rewrite N.pow_succ_r' in Hn.
Qed.

Lemma repeatChar_length (k : nat) (c : ascii) (s : string) :
  String.length (Js.repeatChar k c +:+ s) = (k + String.length s)%nat.
Proof. induction k as [|k IH]; simpl; [done|by rewrite IH]. Qed.

Lemma sequenceNum_length (n : nat) :
  Z.of_nat n < 10000 ->
  String.length (Js.padStart 4 "0" (Js.toString 10 (Z.of_nat n))) = 4%nat.
Proof.
  intros Hn. unfold Js.padStart. rewrite repeatChar_length.
  rewrite toString_of_nat. unfold Js.natToString.
  set (str := Js.toStringGo _ _ _ _).
  assert (Hlen : (String.length str <= 4 + String.length "")%nat).
  { apply toStringGo_length; [lia|]. change (10 ^ N.of_nat 4)%N with 10000%N. lia. }
  simpl in Hlen.
  lia.
Qed.

Lemma append_length (s1 s2 : string) :
  String.length (s1 +:+ s2) = (String.length s1 + String.length s2)%nat.
Proof. induction s1 as [|c s1 IH]; simpl; [done|by rewrite IH]. Qed.

Lemma padStart_length (width : nat) (c : ascii) (s : string) :
  String.length (Js.padStart width c s) = (width `max` String.length s)%nat.
Proof. unfold Js.padStart. rewrite repeatChar_length. lia. Qed.

Lemma toStringGo_length_ge (fuel : nat) (n : N) (rest : string) (k : nat) :
  (10 ^ N.of_nat k <= n)%N -> (N.to_nat (N.log2 n) < fuel)%nat ->
  (S k + String.length rest <= String.length (Js.toStringGo fuel 10 n rest))%nat.
Proof.
  revert n rest k. induction fuel as [|fuel IH]; intros n rest k Hn Hfuel; [lia|].
  simpl. destruct (n / 10 =? 0)%N eqn:Hq.
  - apply N.eqb_eq in Hq. apply N.div_small_iff in Hq; [|done].
    destruct k as [|k]; [simpl; lia|]. exfalso.
    assert (10 ^ 1 <= 10 ^ N.of_nat (S k))%N by (apply N.pow_le_mono_r; lia).
    change (10 ^ 1)%N with 10%N in *. lia.
  - apply N.eqb_neq in Hq.
    pose proof (log2_div_radix n fuel Hfuel Hq) as Hfuel'.
    apply N.neq_0_lt_0 in Hq.
    destruct k as [|k].
    + etrans; [|apply (IH _ _ O); [|done]]; simpl; [lia|].
      change (10 ^ 0)%N with 1%N. lia.
    + etrans; [|apply (IH _ _ k); [|done]]; simpl; [lia|].
      apply N.div_le_lower_bound; [done|].
      replace (N.of_nat (S k)) with (N.succ (N.of_nat k)) in Hn by lia.
      by rewrite N.pow_succ_r' in Hn.
Qed.

Lemma toString_nonneg (radix : N) (z : Z) :
  0 <= z -> Js.toString radix z = Js.natToString radix (Z.to_N z).
Proof. intros Hz. destruct z; [done|done|lia]. Qed.

(** A year of four digits renders as four characters; a month or a day of
    the month, padded, as two. *)
Lemma year_length (y : Z) :
  1000 <= y <= 9999 -> String.length (Js.toString 10 y) = 4%nat.
Proof.
  intros Hy. rewrite toString_nonneg by lia. unfold Js.natToString.
  set (fuel := S (N.to_nat (N.log2 (Z.to_N y)))).
  assert (Hfuel : (N.to_nat (N.log2 (Z.to_N y)) < fuel)%nat) by (subst fuel; lia).
  clearbody fuel.
  pose proof (toStringGo_length fuel (Z.to_N y) "" 4 ltac:(lia)) as Hle.
  pose proof (toStringGo_length_ge fuel (Z.to_N y) "" 3) as Hge.
  change (10 ^ N.of_nat 4)%N with 10000%N in Hle.
  change (10 ^ N.of_nat 3)%N with 1000%N in Hge.
  simpl String.length in Hle, Hge.
  specialize (Hle ltac:(lia)). specialize (Hge ltac:(lia) Hfuel).
  lia.
Qed.

Lemma two_digits_length (z : Z) :
  0 <= z <= 99 -> String.length (Js.padStart 2 "0" (Js.toString 10 z)) = 2%nat.
Proof.
  intros Hz. rewrite padStart_length, toString_nonneg by lia. unfold Js.natToString.
  generalize (S (N.to_nat (N.log2 (Z.to_N z)))). intros fuel.
  pose proof (toStringGo_length fuel (Z.to_N z) "" 2 ltac:(lia)) as Hle.
  change (10 ^ N.of_nat 2)%N with 100%N in Hle.
  simpl String.length in Hle. specialize (Hle ltac:(lia)). lia.
Qed.

(** *** The code's rendering against the digits of the specification *)

Lemma toStringGo_acc (fuel : nat) (radix n : N) (acc rest : string) :
  Js.toStringGo fuel radix n (acc +:+ rest) = Js.toStringGo fuel radix n acc +:+ rest.
Proof.
  revert n acc. induction fuel as [|fuel IH]; intros n acc; simpl; [done|].
  change (String ?c (acc +:+ rest)) with (String c acc +:+ rest).
  destruct (n / radix =? 0)%N; [done|apply IH].
Qed.

Lemma toStringGo_fuel (fuel1 fuel2 : nat) (n : N) (acc : string) :
  (N.to_nat (N.log2 n) < fuel1)%nat -> (N.to_nat (N.log2 n) < fuel2)%nat ->
  Js.toStringGo fuel1 10 n acc = Js.toStringGo fuel2 10 n acc.
Proof.
  revert fuel2 n acc.
  induction fuel1 as [|fuel1 IH]; intros [|fuel2] n acc H1 H2; try lia.
  simpl. destruct (n / 10 =? 0)%N eqn:Hq; [done|].
  apply N.eqb_neq in Hq. apply IH; by apply log2_div_radix.
Qed.

Lemma natToString_small (n : N) :
  (n < 10)%N -> Js.natToString 10 n = String (Js.digitChar n) "".
Proof.
  intros Hn. unfold Js.natToString. simpl.
  rewrite N.div_small, N.mod_small by done. done.
Qed.

Lemma natToString_step (n : N) :
  (10 <= n)%N ->
  Js.natToString 10 n
  = Js.natToString 10 (n / 10) +:+ String (Js.digitChar (n mod 10)) "".
Proof.
  intros Hn.
  assert (Hq : (n / 10 <> 0)%N).
  { apply N.neq_0_lt_0. apply N.div_str_pos. lia. }
  unfold Js.natToString at 1.
  set (fuel := N.to_nat (N.log2 n)).
  change (Js.toStringGo (S fuel) 10 n "")
    with (if (n / 10 =? 0)%N then String (Js.digitChar (n mod 10)) ""
          else Js.toStringGo fuel 10 (n / 10) (String (Js.digitChar (n mod 10)) "")).
  destruct (n / 10 =? 0)%N eqn:Hq'; [by apply N.eqb_eq in Hq'|].
  etrans; [apply (toStringGo_acc fuel 10 (n / 10) "" (String (Js.digitChar (n mod 10)) ""))|].
  f_equal. unfold Js.natToString.
  apply toStringGo_fuel; [|lia].
  apply log2_div_radix; [subst fuel; lia|done].
Qed.

Lemma digitChar_decimalDigit (d : N) :
  (d < 10)%N -> Js.digitChar d = decimalDigit (Z.of_N d).
Proof.
  intros Hd.
  assert (Hcases : In d [0; 1; 2; 3; 4; 5; 6; 7; 8; 9]%N).
  { simpl. lia. }
  simpl in Hcases.
  repeat (destruct Hcases as [<-|Hcases]; [done|]). done.
Qed.

Lemma append_assoc (s1 s2 s3 : string) : (s1 +:+ s2) +:+ s3 = s1 +:+ (s2 +:+ s3).
Proof.
  induction s1 as [|c s1 IH]; [done|].
  change (String c ((s1 +:+ s2) +:+ s3) = String c (s1 +:+ (s2 +:+ s3))).
  by rewrite <- IH.
Qed.

Lemma repeatChar_snoc (k : nat) (c : ascii) :
  Js.repeatChar k c +:+ String c "" = String c (Js.repeatChar k c).
Proof.
  induction k as [|k IH]; [done|].
  change (String c (Js.repeatChar k c +:+ String c "") = String c (String c (Js.repeatChar k c))).
  by rewrite IH.
Qed.

Lemma decimal_zero (width : nat) : decimal width 0 = Js.repeatChar width "0".
Proof.
  induction width as [|width IH]; [done|].
  change (decimal width 0 +:+ "0" = Js.repeatChar (S width) "0").
  rewrite IH. apply repeatChar_snoc.
Qed.

(** The code's zero-padded decimal rendering is the one of the
    specification, as long as the number fits the width. *)
Lemma padStart_decimal (width : nat) (n : N) :
  (0 < width)%nat -> (n < 10 ^ N.of_nat width)%N ->
  Js.padStart width "0" (Js.natToString 10 n) = decimal width (Z.of_N n).
Proof.
  revert n. induction width as [|width IH]; intros n Hwidth Hn; [lia|].
  change (decimal (S width) (Z.of_N n))
    with (decimal width (Z.of_N n / 10) +:+ String (decimalDigit (Z.of_N n mod 10)) "").
  assert (Hdigit : Js.digitChar (n mod 10) = decimalDigit (Z.of_N n mod 10)).
  { rewrite digitChar_decimalDigit by (apply N.mod_lt; lia).
    by rewrite N2Z.inj_mod. }
  destruct (decide (n < 10)%N) as [Hsmall|Hbig].
  - rewrite natToString_small by done.
    rewrite Z.div_small, decimal_zero by lia.
    rewrite <- Hdigit, N.mod_small by done.
    unfold Js.padStart. simpl. by rewrite Nat.sub_0_r.
  - rewrite natToString_step by lia. rewrite <- Hdigit.
    destruct width as [|width].
    { change (10 ^ N.of_nat 1)%N with 10%N in Hn. lia. }
    replace (Z.of_N n / 10) with (Z.of_N (n / 10)) by (by rewrite N2Z.inj_div).
    rewrite <- (IH (n / 10)%N); [|lia|].
    + unfold Js.padStart.
      rewrite append_length, append_assoc. simpl String.length.
      do 2 f_equal. lia.
    + apply N.Div0.div_lt_upper_bound.
      replace (N.of_nat (S (S width))) with (N.succ (N.of_nat (S width))) in Hn by lia.
      by rewrite N.pow_succ_r' in Hn.
Qed.

Lemma padStart_full (width : nat) (c : ascii) (s : string) :
  (width <= String.length s)%nat -> Js.padStart width c s = s.
Proof.
  intros Hlen. unfold Js.padStart.
  by replace (width - String.length s)%nat with 0%nat by lia.
Qed.

(** ** How the two order operations evaluate *)

Section Evaluation.

Context {runtime : DateRuntime}.
Variable now : nat -> Z.
Variable rand36 : nat -> string.

Lemma createOrder_success (s : State) (u : User.t) :
  getCart (storage s) <> [] ->
  getCurrentUser (storage s) = Some u ->
  createOrder now rand36 s =
    (mkResult true "Order placed successfully!" (Some (orderAt now rand36 s u)),
     mkState (mkStorage (Some [])
                        (Some (getAllOrders (storage s) ++ [orderAt now rand36 s u])%list)
                        (Some u))
             (5 + ticks s) (1 + draws s)).
Proof.
  destruct s as [[cart orders user] tk dr]. simpl.
  intros Hcart ->.
  unfold createOrder, bind, gets, getCart in *. simpl in *.
  destruct cart as [[|c cs]|]; simpl in *; [done| |done].
  reflexivity.
Qed.

Lemma createOrder_empty (s : State) :
  getCart (storage s) = [] ->
  createOrder now rand36 s = (mkResult false "Cart is empty" None, s).
Proof.
  unfold createOrder, bind, gets. simpl. by intros ->.
Qed.

Lemma createOrder_anonymous (s : State) :
  getCart (storage s) <> [] ->
  getCurrentUser (storage s) = None ->
  createOrder now rand36 s = (mkResult false "Please login to place order" None, s).
Proof.
  unfold createOrder, bind, gets. simpl. intros Hcart ->.
  by destruct (getCart (storage s)).
Qed.

Lemma updateOrderStatus_missing (s : State) (orderId newStatus note : string) :
  Js.findIndex (fun o => String.eqb (Order.id o) orderId) (getAllOrders (storage s)) = None ->
  updateOrderStatus now orderId newStatus note s = (mkResult false "Order not found" None, s).
Proof.
  unfold updateOrderStatus, bind, gets. simpl. by intros ->.
Qed.

Lemma updateOrderStatus_found (s : State) (orderId newStatus note : string) (i : nat) :
  Js.findIndex (fun o => String.eqb (Order.id o) orderId) (getAllOrders (storage s)) = Some i ->
  let orders' :=
    alter (transitionOrder newStatus note (now (ticks s)) (now (1 + ticks s))
                           (doneAt now s newStatus))
          i (getAllOrders (storage s)) in
  updateOrderStatus now orderId newStatus note s =
    (mkResult true ("Order status updated to " +:+ newStatus) (orders' !! i),
     mkState (mkStorage (CART (storage s)) (Some orders') (CURRENT_USER (storage s)))
             (ticksOfUpdate newStatus + ticks s) (draws s)).
Proof.
  unfold updateOrderStatus, bind, gets, doneAt, ticksOfUpdate. simpl. intros ->.
  by destruct (String.eqb newStatus ORDER_STATUS.COMPLETED).
Qed.

End Evaluation.

(** ** Order creation *)

Section Creation.

Context {runtime : DateRuntime}.
Variable now : nat -> Z.
Variable rand36 : nat -> string.

Lemma getCartSubtotal_sum (st : Storage) :
  getCartSubtotal st = sumZ (map lineAmount (getCart st)).
Proof. unfold getCartSubtotal. by rewrite (reduce_add lineAmount). Qed.

(** C1. With a non-empty cart and a current user, createOrder succeeds;
    the order's total and subtotal are both the sum of price times
    quantity over the cart lines, the tax is zero, and the status history
    is the single entry "pending".  For the cart of 2 x 350 and 1 x 280
    both amounts are 980. *)
Theorem createOrder_totals (s : State) :
  getCart (storage s) <> [] ->
  getCurrentUser (storage s) <> None ->
  exists o s',
    createOrder now rand36 s =
      (mkResult true "Order placed successfully!" (Some o), s') /\
    Order.total o = sumZ (map lineAmount (getCart (storage s))) /\
    Order.subtotal o = sumZ (map lineAmount (getCart (storage s))) /\
    Order.tax o = 0 /\
    (exists entry, Order.statusHistory o = [entry] /\
                   StatusEntry.status entry = ORDER_STATUS.PENDING) /\
    (forall a b, getCart (storage s) = [a; b] ->
       CartItem.price a = 350 -> CartItem.quantity a = 2 ->
       CartItem.price b = 280 -> CartItem.quantity b = 1 ->
       Order.subtotal o = 980 /\ Order.total o = 980).
Proof.
  intros Hcart Huser.
  destruct (getCurrentUser (storage s)) as [u|] eqn:Hu; [clear Huser|done].
  exists (orderAt now rand36 s u). eexists.
  split; [by apply createOrder_success|].
  simpl. rewrite getCartSubtotal_sum.
  split; [lia|]. split; [done|]. split; [done|]. split; [by eexists|].
  intros a b -> Hpa Hqa Hpb Hqb. unfold lineAmount. simpl.
  rewrite Hpa, Hqa, Hpb, Hqb. lia.
Qed.

(** C8, as the code has it.  createOrder checks the cart first: an empty
    cart gives "Cart is empty" whether or not somebody is logged in; a
    non-empty cart without a current user gives "Please login to place
    order".  Either way the result is { success: false, message } with no
    order, and neither the storage nor the oracles are touched. *)
Theorem createOrder_failures (s : State) :
  (getCart (storage s) = [] ->
     createOrder now rand36 s = (mkResult false "Cart is empty" None, s)) /\
  (getCart (storage s) <> [] -> getCurrentUser (storage s) = None ->
     createOrder now rand36 s =
       (mkResult false "Please login to place order" None, s)).
Proof.
  split; [apply createOrder_empty|apply createOrder_anonymous].
Qed.

(** C6, as the code has it.  The created order has exactly one history
    entry, with status "pending"; its timestamp and the order's createdAt
    are two successive readings of the clock (the third and the fourth of
    the five createOrder takes), so they agree exactly when the clock did
    not advance between the two, and the timestamp is never the later one
    when the clock is monotonic. *)
Theorem createOrder_first_entry (s : State) :
  getCart (storage s) <> [] ->
  getCurrentUser (storage s) <> None ->
  exists o s' entry,
    createOrder now rand36 s =
      (mkResult true "Order placed successfully!" (Some o), s') /\
    Order.statusHistory o = [entry] /\
    StatusEntry.status entry = ORDER_STATUS.PENDING /\
    StatusEntry.timestamp entry = now (2 + ticks s)%nat /\
    Order.createdAt o = now (3 + ticks s)%nat /\
    (now (2 + ticks s)%nat = now (3 + ticks s)%nat ->
       StatusEntry.timestamp entry = Order.createdAt o) /\
    ((forall i j, (i <= j)%nat -> now i <= now j) ->
       StatusEntry.timestamp entry <= Order.createdAt o).
Proof.
  intros Hcart Huser.
  destruct (getCurrentUser (storage s)) as [u|] eqn:Hu; [clear Huser|done].
  exists (orderAt now rand36 s u). do 2 eexists.
  split; [by apply createOrder_success|].
  simpl. repeat split; [done|].
  intros Hmono. apply Hmono. lia.
Qed.

End Creation.

Lemma createOrder_totals_witness :
  exists o s',
    createOrder (runtime := Utc.runtime) Demo.clock Demo.random Demo.ready =
      (mkResult true "Order placed successfully!" (Some o), s') /\
    Order.subtotal o = 980 /\ Order.total o = 980.
Proof.
  destruct (createOrder_totals (runtime := Utc.runtime) Demo.clock Demo.random Demo.ready)
    as (o & s' & Hrun & _ & _ & _ & _ & Hscenario); [discriminate|discriminate|].
  exists o, s'. split; [exact Hrun|].
  apply (Hscenario Demo.itemA Demo.itemB); reflexivity.
Defined.

Lemma createOrder_failures_witness :
  createOrder (runtime := Utc.runtime) Demo.clock Demo.random Demo.blank =
    (mkResult false "Cart is empty" None, Demo.blank) /\
  createOrder (runtime := Utc.runtime) Demo.clock Demo.random Demo.anonymous =
    (mkResult false "Please login to place order" None, Demo.anonymous).
Proof.
  split.
  - apply (proj1 (createOrder_failures (runtime := Utc.runtime)
                    Demo.clock Demo.random Demo.blank)).
    reflexivity.
  - apply (proj2 (createOrder_failures (runtime := Utc.runtime)
                    Demo.clock Demo.random Demo.anonymous)).
    + discriminate.
    + reflexivity.
Defined.

(** C8 as stated fails when both guards apply: with an empty cart and
    nobody logged in the message is "Cart is empty", not "Please login to
    place order". *)
Lemma createOrder_logged_out_empty_cart :
  getCurrentUser (storage Demo.blank) = None /\
  createOrder (runtime := Utc.runtime) Demo.clock Demo.random Demo.blank =
    (mkResult false "Cart is empty" None, Demo.blank) /\
  message (fst (createOrder (runtime := Utc.runtime) Demo.clock Demo.random Demo.blank))
    <> "Please login to place order".
Proof. split; [reflexivity|]. split; [reflexivity|]. vm_compute. discriminate. Qed.

Lemma createOrder_first_entry_witness :
  exists o s' entry,
    createOrder (runtime := Utc.runtime) Demo.clock Demo.random Demo.ready =
      (mkResult true "Order placed successfully!" (Some o), s') /\
    Order.statusHistory o = [entry] /\
    StatusEntry.status entry = ORDER_STATUS.PENDING /\
    StatusEntry.timestamp entry <= Order.createdAt o.
Proof.
  destruct (createOrder_first_entry (runtime := Utc.runtime)
              Demo.clock Demo.random Demo.ready)
    as (o & s' & entry & Hrun & Hhist & Hstatus & _ & _ & _ & Hle);
    [discriminate|discriminate|].
  exists o, s', entry. repeat split; try assumption.
  apply Hle. intros i j Hij. unfold Demo.clock. lia.
Defined.

(** C6 as stated fails when the clock advances between the two readings:
    with a clock that ticks at every reading the entry is stamped one
    millisecond before createdAt. *)
Lemma createOrder_clock_drift :
  exists o s' entry,
    createOrder (runtime := Utc.runtime) Demo.clock Demo.random Demo.ready =
      (mkResult true "Order placed successfully!" (Some o), s') /\
    head (Order.statusHistory o) = Some entry /\
    StatusEntry.timestamp entry = 1793700000002 /\
    Order.createdAt o = 1793700000003 /\
    StatusEntry.timestamp entry <> Order.createdAt o.
Proof.
  do 3 eexists. split; [vm_compute; reflexivity|].
  simpl. split; [reflexivity|]. simpl. repeat split. discriminate.
Qed.

(** ** The step relation is what the operations do *)

Section Steps.

Context {runtime : DateRuntime}.
Variable now : nat -> Z.
Variable rand36 : nat -> string.

Lemma step_outcome (op : Op) (s : State) :
  outcome now rand36 s op (step now rand36 op s).1 (step now rand36 op s).2.
Proof.
  destruct op as [cart|user| |orderId newStatus note]; simpl.
  - constructor.
  - constructor.
  - unfold bind. 
    destruct (decide (getCart (storage s) = [])) as [Hcart|Hcart].
    { rewrite createOrder_empty by done. by constructor. }
    destruct (getCurrentUser (storage s)) as [u|] eqn:Hu.
    + rewrite (createOrder_success _ _ _ u) by done. by constructor.
    + rewrite createOrder_anonymous by done. by constructor.
  - unfold bind.
    destruct (Js.findIndex (fun o => String.eqb (Order.id o) orderId)
                           (getAllOrders (storage s))) as [i|] eqn:Hi.
    + rewrite (updateOrderStatus_found _ _ _ _ _ i) by done. by constructor.
    + rewrite updateOrderStatus_missing by done. by constructor.
Qed.

End Steps.

(** ** Order collections along a history *)

Lemma evolves_refl (R : relation Order.t) `{!Reflexive R} (orders : list Order.t) :
  evolves R orders orders.
Proof. intros i o Hi. by exists o. Qed.

Lemma evolves_trans (R : relation Order.t) `{!Transitive R} (l1 l2 l3 : list Order.t) :
  evolves R l1 l2 -> evolves R l2 l3 -> evolves R l1 l3.
Proof.
  intros H12 H23 i o Hi.
  destruct (H12 i o Hi) as (o2 & Hi2 & Ho2).
  destruct (H23 i o2 Hi2) as (o3 & Hi3 & Ho3).
  exists o3. split; [done|by trans o2].
Qed.

Lemma evolves_snoc (R : relation Order.t) `{!Reflexive R} (orders : list Order.t)
    (o : Order.t) :
  evolves R orders (orders ++ [o]).
Proof.
  intros i x Hi. exists x. split; [|done].
  by apply lookup_app_l_Some.
Qed.

Lemma evolves_alter (R : relation Order.t) `{!Reflexive R} (orders : list Order.t)
    (f : Order.t -> Order.t) (i : nat) :
  (forall o, orders !! i = Some o -> R o (f o)) ->
  evolves R orders (alter f i orders).
Proof.
  intros Hf j o Hj. destruct (decide (i = j)) as [->|Hij].
  - exists (f o). rewrite list_lookup_alter_eq, Hj. split; [done|by apply Hf].
  - exists o. by rewrite list_lookup_alter_ne.
Qed.

Section Collections.

Context {runtime : DateRuntime}.
Variable now : nat -> Z.
Variable rand36 : nat -> string.

Lemma run_cons_state (op : Op) (ops : list Op) (s : State) :
  (run now rand36 (op :: ops) s).2
  = (run now rand36 ops (step now rand36 op s).2).2.
Proof.
  simpl. destruct (step now rand36 op s) as [r s1]. simpl.
  destruct (run now rand36 ops s1). reflexivity.
Qed.

(** The three things an operation can do to the order collection: leave
    it alone, append the new order, or rewrite one order in place. *)
Lemma outcome_orders (s s' : State) (op : Op) (r : option Result) :
  outcome now rand36 s op r s' ->
  getAllOrders (storage s') = getAllOrders (storage s) \/
  (exists u, op = CreateOrder /\
     getAllOrders (storage s')
     = (getAllOrders (storage s) ++ [orderAt now rand36 s u])%list) \/
  (exists orderId newStatus note i,
     op = UpdateOrderStatus orderId newStatus note /\
     Js.findIndex (fun o => String.eqb (Order.id o) orderId) (getAllOrders (storage s))
       = Some i /\
     getAllOrders (storage s')
     = alter (transitionOrder newStatus note (now (ticks s)) (now (1 + ticks s))
                              (doneAt now s newStatus))
             i (getAllOrders (storage s))).
Proof.
  intros Hout. destruct Hout; simpl; eauto 10.
Qed.

Lemma run_evolves (R : relation Order.t) `{!PreOrder R} (ops : list Op) :
  (forall orderId newStatus note t1 t2 s o,
     UpdateOrderStatus orderId newStatus note ∈ ops ->
     R o (transitionOrder newStatus note t1 t2 (doneAt now s newStatus) o)) ->
  forall s,
    evolves R (getAllOrders (storage s))
              (getAllOrders (storage (run now rand36 ops s).2)).
Proof.
  induction ops as [|op ops IH]; intros Hstep s.
  - apply evolves_refl, _.
  - rewrite run_cons_state.
    eapply (evolves_trans R); [|apply IH].
    + destruct (outcome_orders _ _ _ _ (step_outcome now rand36 op s))
        as [->|[(u & _ & ->)|(orderId & newStatus & note & i & -> & _ & ->)]].
      * apply evolves_refl, _.
      * apply evolves_snoc, _.
      * apply evolves_alter; [apply _|]. intros o _.
        eapply Hstep. by left.
    + intros orderId newStatus note t1 t2 s0 o Hin.
      eapply Hstep. by right.
Qed.

End Collections.

(** ** Status transitions *)

#[local] Instance historyGrows_preorder : PreOrder historyGrows.
Proof.
  split.
  - intros o. unfold historyGrows. done.
  - intros o1 o2 o3. unfold historyGrows. by etrans.
Qed.

#[local] Instance completedAtKept_preorder : PreOrder completedAtKept.
Proof.
  split.
  - by intros o.
  - intros o1 o2 o3. unfold completedAtKept. congruence.
Qed.

Lemma transitionOrder_tracks (newStatus note : string) (t1 t2 : Z) (done : option Z)
    (o : Order.t) :
  statusTracksHistory (transitionOrder newStatus note t1 t2 done o).
Proof. unfold statusTracksHistory. simpl. by rewrite last_snoc. Qed.

Lemma transitionOrder_grows (newStatus note : string) (t1 t2 : Z) (done : option Z)
    (o : Order.t) :
  historyGrows o (transitionOrder newStatus note t1 t2 done o).
Proof. unfold historyGrows. simpl. by apply prefix_app_r. Qed.

Lemma find_alter {A} (p : A -> bool) (f : A -> A) (xs : list A) (i : nat) :
  (forall x, p (f x) = p x) ->
  Js.findIndex p xs = Some i ->
  Js.find p (alter f i xs) = f <$> xs !! i.
Proof.
  intros Hpf. revert i. induction xs as [|x xs IH]; intros i; simpl; [done|].
  destruct (p x) eqn:Hx.
  - intros [= <-]. simpl. by rewrite Hpf, Hx.
  - destruct (Js.findIndex p xs) as [j|]; simpl; [|done].
    intros [= <-]. simpl. rewrite Hx. by apply IH.
Qed.

Section Transitions.

Context {runtime : DateRuntime}.
Variable now : nat -> Z.
Variable rand36 : nat -> string.

Lemma orderAt_tracks (s : State) (u : User.t) :
  statusTracksHistory (orderAt now rand36 s u).
Proof. reflexivity. Qed.

Lemma run_tracks (ops : list Op) (s : State) :
  Forall statusTracksHistory (getAllOrders (storage s)) ->
  Forall statusTracksHistory (getAllOrders (storage (run now rand36 ops s).2)).
Proof.
  revert s. induction ops as [|op ops IH]; intros s Hs; [done|].
  rewrite run_cons_state. apply IH.
  destruct (outcome_orders now rand36 _ _ _ _ (step_outcome now rand36 op s))
    as [->|[(u & _ & ->)|(orderId & newStatus & note & i & -> & _ & ->)]].
  - done.
  - apply Forall_app. split; [done|]. constructor; [apply orderAt_tracks|constructor].
  - apply Forall_alter; [done|]. intros o _ _. apply transitionOrder_tracks.
Qed.

(** C3. Along every history of operations, with any status arguments,
    an order collection whose orders have their status equal to the
    status of their last history entry stays so (the order createOrder
    returns and the order updateOrderStatus returns have the property
    outright), and each order keeps its place with its earlier history
    as a prefix of the later one. *)
Theorem status_follows_history (ops : list Op) (s : State) :
  Forall statusTracksHistory (getAllOrders (storage s)) ->
  let s' := (run now rand36 ops s).2 in
  Forall statusTracksHistory (getAllOrders (storage s')) /\
  (forall i o, getAllOrders (storage s) !! i = Some o ->
     exists o', getAllOrders (storage s') !! i = Some o' /\
                Order.statusHistory o `prefix_of` Order.statusHistory o') /\
  (forall o, order (createOrder now rand36 s).1 = Some o -> statusTracksHistory o) /\
  (forall orderId newStatus note o,
     order (updateOrderStatus now orderId newStatus note s).1 = Some o ->
     statusTracksHistory o /\ Order.status o = newStatus).
Proof.
  intros Hs s'. split; [by apply run_tracks|]. split; [|split].
  - apply (run_evolves now rand36 historyGrows).
    intros. apply transitionOrder_grows.
  - intros o.
    destruct (decide (getCart (storage s) = [])) as [Hcart|Hcart].
    { by rewrite createOrder_empty. }
    destruct (getCurrentUser (storage s)) as [u|] eqn:Hu.
    + rewrite (createOrder_success _ _ _ u) by done. simpl.
      intros [= <-]. apply orderAt_tracks.
    + by rewrite createOrder_anonymous.
  - intros orderId newStatus note o.
    destruct (Js.findIndex (fun o => String.eqb (Order.id o) orderId)
                           (getAllOrders (storage s))) as [i|] eqn:Hi.
    + pose proof (updateOrderStatus_found now s orderId newStatus note i Hi) as Hrun.
      cbv zeta in Hrun. rewrite Hrun. simpl.
      rewrite list_lookup_alter_eq.
      destruct (getAllOrders (storage s) !! i) as [x|]; simpl; [|done].
      intros [= <-]. split; [apply transitionOrder_tracks|done].
    + by rewrite updateOrderStatus_missing.
Qed.

End Transitions.

Section Completion.

Context {runtime : DateRuntime}.
Variable now : nat -> Z.
Variable rand36 : nat -> string.

Lemma unknown_id (orders : list Order.t) (orderId : string) :
  Forall (fun o => Order.id o <> orderId) orders ->
  Js.findIndex (fun o => String.eqb (Order.id o) orderId) orders = None.
Proof.
  intros Hall. apply findIndex_None.
  eapply Forall_impl; [exact Hall|]. intros o Ho. by apply String.eqb_neq.
Qed.

Lemma outcome_createdEarlier (s s' : State) (op : Op) (r : option Result) :
  outcome now rand36 s op r s' -> createdEarlier now s -> createdEarlier now s'.
Proof.
  unfold createdEarlier. intros Hout Hs.
  assert (Hlater : forall n, (ticks s <= n)%nat ->
            Forall (fun o => exists k, (k < n)%nat /\ Order.createdAt o = now k)
                   (getAllOrders (storage s))).
  { intros n Hn. eapply Forall_impl; [exact Hs|].
    intros o (k & Hk & Ho). exists k. split; [lia|done]. }
  destruct Hout; simpl; try done.
  - change (getAllOrders (mkStorage _ (Some ?l) _)) with l.
    apply Forall_app. split; [apply Hlater; lia|].
    constructor; [|constructor]. exists (3 + ticks s)%nat. split; [lia|done].
  - change (getAllOrders (mkStorage _ (Some ?l) _)) with l.
    apply Forall_alter; [apply Hlater; lia|]. by intros o _ Ho.
Qed.

Lemma run_createdEarlier (ops : list Op) (s : State) :
  createdEarlier now s -> createdEarlier now (run now rand36 ops s).2.
Proof.
  revert s. induction ops as [|op ops IH]; intros s Hs; [done|].
  rewrite run_cons_state. apply IH.
  eapply outcome_createdEarlier; [apply step_outcome|done].
Qed.

(** C4. On an id that no order of the collection carries,
    updateOrderStatus returns { success: false, "Order not found" } and
    leaves the whole state as it was.  On the id of an existing order and
    the new status "completed" it succeeds and the order, still found
    under that id, has completedAt set to the reading of the clock taken
    for it; when the clock is monotonic and createdAt was read from it
    earlier, createdAt is not after completedAt.  Every order placed along
    a history that starts from an empty collection has its createdAt read
    from the clock earlier. *)
Theorem updateOrderStatus_unknown_or_completed (s : State) (orderId note : string) :
  (forall newStatus,
     Forall (fun o => Order.id o <> orderId) (getAllOrders (storage s)) ->
     updateOrderStatus now orderId newStatus note s
     = (mkResult false "Order not found" None, s)) /\
  (forall o,
     getOrderById orderId (storage s) = Some o ->
     exists o' s',
       updateOrderStatus now orderId ORDER_STATUS.COMPLETED note s
       = (mkResult true "Order status updated to completed" (Some o'), s') /\
       getOrderById orderId (storage s') = Some o' /\
       Order.createdAt o' = Order.createdAt o /\
       Order.completedAt o' = Some (now (2 + ticks s)%nat) /\
       ((forall i j, (i <= j)%nat -> now i <= now j) ->
        (exists k, (k < ticks s)%nat /\ Order.createdAt o = now k) ->
        Order.createdAt o' <= now (2 + ticks s)%nat)) /\
  (forall ops s0,
     getAllOrders (storage s0) = [] ->
     s = (run now rand36 ops s0).2 ->
     forall o, o ∈ getAllOrders (storage s) ->
       exists k, (k < ticks s)%nat /\ Order.createdAt o = now k).
Proof.
  split; [|split].
  - intros newStatus Hall. apply updateOrderStatus_missing. by apply unknown_id.
  - intros o Ho. unfold getOrderById in Ho.
    destruct (find_findIndex _ _ _ Ho) as (i & Hi & Hlook).
    pose proof (updateOrderStatus_found now s orderId ORDER_STATUS.COMPLETED note i Hi)
      as Hrun.
    cbv zeta in Hrun. rewrite list_lookup_alter_eq, Hlook in Hrun. simpl in Hrun.
    do 2 eexists. split; [exact Hrun|]. simpl.
    split; [|split; [done|split; [done|]]].
    + unfold getOrderById. unfold getAllOrders at 1. simpl.
      rewrite (find_alter _ _ _ i); [by rewrite Hlook|done|exact Hi].
    + intros Hmono (k & Hk & ->). apply Hmono. lia.
  - intros ops s0 Hempty -> o Ho.
    assert (Hinv : createdEarlier now (run now rand36 ops s0).2).
    { apply run_createdEarlier. unfold createdEarlier. by rewrite Hempty. }
    unfold createdEarlier in Hinv. rewrite Forall_forall in Hinv. by apply Hinv.
Qed.

(** C7, as the code has it.  A transition writes completedAt exactly when
    its new status is "completed" and the id is found: the order found
    then gets the current reading of the clock as completedAt, whatever
    it held before; every other order, and every order under a transition
    to another status, keeps its completedAt.  Hence along a history
    without a transition to "completed" no completedAt ever changes. *)
Theorem completedAt_written_by_completed_only
    (s : State) (orderId newStatus note : string) :
  let found :=
    Js.findIndex (fun o => String.eqb (Order.id o) orderId) (getAllOrders (storage s)) in
  let s' := (updateOrderStatus now orderId newStatus note s).2 in
  (newStatus <> ORDER_STATUS.COMPLETED ->
     evolves completedAtKept (getAllOrders (storage s)) (getAllOrders (storage s'))) /\
  (newStatus = ORDER_STATUS.COMPLETED ->
     forall i o, getAllOrders (storage s) !! i = Some o ->
       exists o', getAllOrders (storage s') !! i = Some o' /\
         (found = Some i -> Order.completedAt o' = Some (now (2 + ticks s)%nat)) /\
         (found <> Some i -> Order.completedAt o' = Order.completedAt o)) /\
  (forall ops s0,
     Forall (fun op => ~ completes op) ops ->
     evolves completedAtKept (getAllOrders (storage s0))
             (getAllOrders (storage (run now rand36 ops s0).2))).
Proof.
  intros found s'. subst s'.
  assert (Hkeeps : forall st nt t1 t2 s1 o,
            st <> ORDER_STATUS.COMPLETED ->
            completedAtKept o (transitionOrder st nt t1 t2 (doneAt now s1 st) o)).
  { intros st nt t1 t2 s1 o Hst. unfold completedAtKept, doneAt. simpl.
    apply String.eqb_neq in Hst. by rewrite Hst. }
  split; [|split].
  - intros Hst. destruct found as [i|] eqn:Hfound; subst found.
    + pose proof (updateOrderStatus_found now s orderId newStatus note i Hfound) as Hrun.
      cbv zeta in Hrun. rewrite Hrun. simpl.
      apply evolves_alter; [apply _|]. intros o _. by apply Hkeeps.
    + rewrite updateOrderStatus_missing by done. apply evolves_refl, _.
  - intros -> i o Hlook. destruct found as [j|] eqn:Hfound; subst found.
    + pose proof (updateOrderStatus_found now s orderId ORDER_STATUS.COMPLETED note j
                    Hfound) as Hrun.
      cbv zeta in Hrun. rewrite Hrun.
      change (getAllOrders (storage (_, mkState (mkStorage _ (Some ?l) _) _ _).2))
        with l.
      destruct (decide (j = i)) as [->|Hji].
      * rewrite list_lookup_alter_eq, Hlook. simpl. eexists. split; [done|].
        simpl. split; [done|]. intros Hne. by destruct Hne.
      * rewrite list_lookup_alter_ne by done. exists o. split; [done|].
        split; [|done]. intros [= ?]. done.
    + rewrite updateOrderStatus_missing by done. exists o. by repeat split.
  - intros ops s0 Hops. apply (run_evolves now rand36 completedAtKept).
    intros id st nt t1 t2 s1 o Hin. apply Hkeeps.
    intros ->. rewrite Forall_forall in Hops. apply (Hops _ Hin).
    by exists id, nt.
Qed.

End Completion.

Lemma status_follows_history_witness :
  Forall statusTracksHistory
    (getAllOrders
       (storage (run (runtime := Utc.runtime) Demo.clock Demo.random
                     Demo.morning Demo.oneOrder).2)).
Proof.
  pose proof (status_follows_history (runtime := Utc.runtime) Demo.clock Demo.random
                Demo.morning Demo.oneOrder) as W.
  cbv zeta in W. apply W.
  constructor; [reflexivity|constructor].
Defined.

Lemma updateOrderStatus_unknown_or_completed_witness :
  updateOrderStatus Demo.clock "o7" "ready" "" Demo.oneOrder
  = (mkResult false "Order not found" None, Demo.oneOrder) /\
  exists o' s',
    updateOrderStatus Demo.clock Demo.placedId
                      "completed" "" Demo.afterOrder
    = (mkResult true "Order status updated to completed" (Some o'), s') /\
    Order.completedAt o' = Some 1793700000007 /\
    Order.createdAt o' <= 1793700000007.
Proof.
  split.
  - apply (proj1 (updateOrderStatus_unknown_or_completed (runtime := Utc.runtime)
                    Demo.clock Demo.random Demo.oneOrder "o7" "")).
    constructor; [discriminate|constructor].
  - destruct (proj1 (proj2 (updateOrderStatus_unknown_or_completed
                              (runtime := Utc.runtime)
                              Demo.clock Demo.random Demo.afterOrder Demo.placedId ""))
                    Demo.placedOrder eq_refl)
      as (o' & s' & Hrun & _ & _ & Hdone & Hle).
    exists o', s'. split; [exact Hrun|]. split; [exact Hdone|].
    apply Hle.
    + intros i j Hij. unfold Demo.clock. lia.
    + exists 3%nat. split; [simpl; lia|reflexivity].
Defined.

Lemma completedAt_written_by_completed_only_witness :
  evolves completedAtKept
    (getAllOrders (storage Demo.oneOrder))
    (getAllOrders
       (storage (updateOrderStatus Demo.clock
                                   "o1" "preparing" "" Demo.oneOrder).2)).
Proof.
  pose proof (completedAt_written_by_completed_only (runtime := Utc.runtime)
                Demo.clock Demo.random Demo.oneOrder "o1" "preparing" "") as W.
  cbv zeta in W. apply W. discriminate.
Defined.

(** C7 as stated fails: nothing stops a second transition to "completed",
    and it overwrites the completion time the first one wrote. *)
Lemma completedAt_rewritten :
  let complete := updateOrderStatus Demo.clock
                                    "o1" "completed" "" in
  let s1 := (complete Demo.oneOrder).2 in
  let s2 := (complete s1).2 in
  Order.completedAt <$> getOrderById "o1" (storage s1) = Some (Some 1793700000002) /\
  Order.completedAt <$> getOrderById "o1" (storage s2) = Some (Some 1793700000005).
Proof. split; vm_compute; reflexivity. Qed.

(** ** Look-ups *)

#[local] Instance isActive_dec (o : Order.t) : Decision (isActive o).
Proof. unfold isActive. apply _. Defined.

Lemma filter_bool_decide {A} (f : A -> bool) (P : A -> Prop) `{!forall x, Decision (P x)}
    (xs : list A) :
  (forall x, f x = true <-> P x) -> List.filter f xs = filter P xs.
Proof.
  intros Hf. induction xs as [|x xs IH]; simpl; [done|].
  destruct (f x) eqn:Hx.
  - rewrite filter_cons_True by (by apply Hf). by rewrite IH.
  - rewrite filter_cons_False; [done|]. rewrite <- Hf. congruence.
Qed.

Lemma includes_active (o : Order.t) :
  Js.includes activeStatuses (Order.status o) = true <-> isActive o.
Proof.
  unfold Js.includes, activeStatuses, isActive. simpl.
  rewrite !orb_true_iff, !String.eqb_eq. 
  unfold ORDER_STATUS.PENDING, ORDER_STATUS.PREPARING, ORDER_STATUS.READY.
  intuition discriminate.
Qed.

(** C9. getActiveOrders returns the orders whose status is pending,
    preparing or ready, each as often as the collection holds it and
    nothing else, in ascending order of createdAt.  On a collection of one
    pending, one preparing, one completed and one cancelled order, stored
    in any order, the result is the pending and the preparing order, the
    older of the two first. *)
Theorem getActiveOrders_spec (st : Storage) :
  let active := getActiveOrders st in
  active ≡ₚ filter isActive (getAllOrders st) /\
  (forall o, o ∈ active <-> o ∈ getAllOrders st /\ isActive o) /\
  StronglySorted oldestFirst active /\
  (forall p q c x,
     Order.status p = "pending" -> Order.status q = "preparing" ->
     Order.status c = "completed" -> Order.status x = "cancelled" ->
     getAllOrders st ≡ₚ [p; q; c; x] ->
     (active = [p; q] \/ active = [q; p]) /\
     (Order.createdAt p < Order.createdAt q -> active = [p; q]) /\
     (Order.createdAt q < Order.createdAt p -> active = [q; p])).
Proof.
  intros active.
  assert (Hperm : active ≡ₚ filter isActive (getAllOrders st)).
  { subst active. unfold getActiveOrders, byCreatedAt.
    rewrite (sort_Permutation Order.createdAt).
    by rewrite (filter_bool_decide _ isActive _ includes_active). }
  assert (Hsorted : StronglySorted oldestFirst active).
  { subst active. unfold getActiveOrders, byCreatedAt, oldestFirst.
    apply (sort_sorted Order.createdAt). }
  split; [done|]. split; [|split; [done|]].
  - intros o. rewrite Hperm, list_elem_of_filter. tauto.
  - intros p q c x Hp Hq Hc Hx Hall.
    assert (Htwo : active ≡ₚ [p; q]).
    { rewrite Hperm, Hall.
      rewrite filter_cons_True by (by left).
      rewrite filter_cons_True by (right; by left).
      rewrite filter_cons_False
        by (unfold isActive; rewrite Hc; intuition discriminate).
      rewrite filter_cons_False
        by (unfold isActive; rewrite Hx; intuition discriminate).
      done. }
    symmetry in Htwo. apply Permutation_length_2_inv in Htwo.
    split; [done|]. split; intros Hlt.
    + destruct Htwo as [->| Heq]; [done|]. rewrite Heq in Hsorted.
      apply StronglySorted_cons in Hsorted as [Hhead _].
      apply Forall_cons in Hhead as [Hqp _]. unfold oldestFirst in Hqp. lia.
    + destruct Htwo as [Heq| ->]; [|done]. rewrite Heq in Hsorted.
      apply StronglySorted_cons in Hsorted as [Hhead _].
      apply Forall_cons in Hhead as [Hpq _]. unfold oldestFirst in Hpq. lia.
Qed.

Lemma getActiveOrders_spec_witness :
  getActiveOrders Demo.counter = [Demo.O1; Demo.O2].
Proof.
  pose proof (getActiveOrders_spec Demo.counter) as W. cbv zeta in W.
  destruct W as (_ & _ & _ & Hscenario).
  apply (Hscenario Demo.O1 Demo.O2 Demo.O4 Demo.O5); try reflexivity.
  apply Permutation_swap.
Defined.

Section Queries.

Context {runtime : DateRuntime}.
Variable now : nat -> Z.
Variable rand36 : nat -> string.

(** C10. When several orders carry the same token, getOrderByToken
    returns the one stored first, whatever follows it in the collection;
    and since createOrder only appends, placing a further order, even
    one that is handed the same token, does not change the answer. *)
Theorem getOrderByToken_first (s : State) (token : string)
    (before after : list Order.t) (o : Order.t) :
  getAllOrders (storage s) = (before ++ o :: after)%list ->
  Order.token o = token ->
  Forall (fun x => Order.token x <> token) before ->
  getOrderByToken token (storage s) = Some o /\
  getOrderByToken token (storage (createOrder now rand36 s).2) = Some o.
Proof.
  intros Horders Ho Hbefore.
  assert (Hfirst : getOrderByToken token (storage s) = Some o).
  { unfold getOrderByToken. rewrite Horders. apply find_first.
    - eapply Forall_impl; [exact Hbefore|]. intros x Hx. by apply String.eqb_neq.
    - by apply String.eqb_eq. }
  split; [done|].
  destruct (outcome_orders now rand36 _ _ _ _ (step_outcome now rand36 CreateOrder s))
    as [Heq|[(u & _ & Heq)|(? & ? & ? & ? & [=] & _)]].
  - simpl in Heq. unfold bind in Heq.
    destruct (createOrder now rand36 s) as [r s1]. simpl in *.
    unfold getOrderByToken. by rewrite Heq.
  - simpl in Heq. unfold bind in Heq.
    destruct (createOrder now rand36 s) as [r s1]. simpl in *.
    unfold getOrderByToken. rewrite Heq. by apply find_app_Some.
Qed.

Lemma dayOrders_counted (date : Z) (orders : list Order.t) :
  List.filter (fun o => String.eqb (Order.status o) ORDER_STATUS.COMPLETED)
    (List.filter (fun o => String.eqb (toDateString (Order.createdAt o))
                                      (toDateString date)) orders)
  = filter (countedOn date) orders.
Proof.
  induction orders as [|o orders IH]; simpl; [done|].
  destruct (String.eqb (toDateString (Order.createdAt o)) (toDateString date)) eqn:Hday;
    simpl.
  - destruct (String.eqb (Order.status o) ORDER_STATUS.COMPLETED) eqn:Hst.
    + apply String.eqb_eq in Hday, Hst.
      rewrite filter_cons_True by done. by rewrite IH.
    + apply String.eqb_neq in Hst.
      rewrite filter_cons_False; [done|]. by intros [? _].
  - apply String.eqb_neq in Hday.
    rewrite filter_cons_False; [done|]. by intros [_ ?].
Qed.

Lemma sum_contributions (date : Z) (orders : list Order.t) :
  sumZ (map Order.total (filter (countedOn date) orders))
  = sumZ (map (contribution date) orders).
Proof.
  induction orders as [|o orders IH]; simpl; [done|].
  unfold contribution at 1. case_bool_decide as Ho.
  - rewrite filter_cons_True by done. simpl. by rewrite IH.
  - rewrite filter_cons_False by done. by rewrite IH.
Qed.

(** C5. The revenue of getDailyReport is the sum of total over the
    orders that are completed and were created on the day of the report,
    every other order adding nothing; in particular an order created on
    another day adds nothing even if it is completed, so taking it out of
    the collection leaves the revenue as it is.  The average order value
    is the revenue divided by the number of those orders, and 0 when
    there is none. *)
Theorem getDailyReport_revenue (date : Z) (st : Storage) :
  let report := getDailyReport date st in
  let counted := filter (countedOn date) (getAllOrders st) in
  revenue report = sumZ (map Order.total counted) /\
  revenue report = sumZ (map (contribution date) (getAllOrders st)) /\
  completedOrders report = length counted /\
  (counted = [] -> averageOrderValue report = inject_Z 0) /\
  (counted <> [] ->
     averageOrderValue report
     = Qdiv (inject_Z (revenue report)) (inject_Z (Z.of_nat (length counted)))) /\
  (forall before o after st',
     getAllOrders st = (before ++ o :: after)%list ->
     getAllOrders st' = (before ++ after)%list ->
     ~ createdOn date o ->
     revenue (getDailyReport date st') = revenue report).
Proof.
  intros report counted. subst report counted.
  assert (Hrev : forall st0,
            revenue (getDailyReport date st0)
            = sumZ (map Order.total (filter (countedOn date) (getAllOrders st0)))).
  { intros st0. unfold getDailyReport. simpl.
    rewrite dayOrders_counted, (reduce_add Order.total). lia. }
  split; [apply Hrev|]. split; [by rewrite Hrev, sum_contributions|].
  split; [unfold getDailyReport; simpl; by rewrite dayOrders_counted|].
  split; [|split].
  - intros Hnone. unfold getDailyReport. simpl.
    by rewrite dayOrders_counted, Hnone.
  - intros Hsome. unfold getDailyReport. simpl.
    rewrite dayOrders_counted.
    destruct (filter (countedOn date) (getAllOrders st)); [done|]. reflexivity.
  - intros before o after st' Hst Hst' Hday.
    rewrite !Hrev, Hst, Hst', !filter_app.
    rewrite filter_cons_False; [done|]. by intros [_ ?].
Qed.

End Queries.

(** ** Tokens *)

Section Tokens.

Context {runtime : DateRuntime}.
Variable now : nat -> Z.
Variable rand36 : nat -> string.

Lemma todayOrders_count (date : Z) (orders : list Order.t) :
  length (todayOrders date orders) = sameDayCount (toDateString date) orders.
Proof.
  unfold todayOrders, sameDayCount.
  rewrite (filter_bool_decide _
             (fun o => toDateString (Order.createdAt o) = toDateString date)); [done|].
  intros o. apply String.eqb_eq.
Qed.

Lemma tokenAt_format (s : State) :
  tokenAt now s
  = tokenFormat (now (ticks s))
      (sameDayCount (toDateString (now (ticks s))) (getAllOrders (storage s)) + 1).
Proof. unfold tokenAt, tokenFormat. by rewrite todayOrders_count. Qed.

Lemma sameDayCount_snoc (day : string) (orders : list Order.t) (o : Order.t) :
  toDateString (Order.createdAt o) = day ->
  sameDayCount day (orders ++ [o]) = S (sameDayCount day orders).
Proof.
  intros Ho. unfold sameDayCount.
  rewrite filter_app, filter_cons_True, filter_nil by done.
  rewrite length_app. simpl. lia.
Qed.

Lemma sameDayCount_alter (day : string) (f : Order.t -> Order.t) (i : nat)
    (orders : list Order.t) :
  (forall o, Order.createdAt (f o) = Order.createdAt o) ->
  sameDayCount day (alter f i orders) = sameDayCount day orders.
Proof.
  intros Hf. unfold sameDayCount. revert i.
  induction orders as [|o orders IH]; intros [|i]; try done.
  - change (alter f 0%nat (o :: orders)) with (f o :: orders).
    rewrite !filter_cons, Hf. by destruct (decide _).
  - change (alter f (S i) (o :: orders)) with (o :: alter f i orders).
    rewrite !filter_cons. destruct (decide _); simpl; by rewrite IH.
Qed.

Lemma outcome_ticks (s s' : State) (op : Op) (r : option Result) :
  outcome now rand36 s op r s' -> (ticks s <= ticks s')%nat.
Proof. intros Hout. destruct Hout; simpl; lia. Qed.

Lemma run_ticks (ops : list Op) (s : State) :
  (ticks s <= ticks (run now rand36 ops s).2)%nat.
Proof.
  revert s. induction ops as [|op ops IH]; intros s; [done|].
  rewrite run_cons_state. etrans; [|apply IH].
  eapply outcome_ticks, step_outcome.
Qed.

Lemma run_cons_tokens (op : Op) (ops : list Op) (s : State) :
  (run now rand36 (op :: ops) s).1
  = (issued op (step now rand36 op s).1
     ++ (run now rand36 ops (step now rand36 op s).2).1)%list.
Proof.
  simpl. destruct (step now rand36 op s) as [r s1]. simpl.
  destruct (run now rand36 ops s1). reflexivity.
Qed.

Lemma run_tokens (ops : list Op) (s : State) (day : string) :
  (forall k, (ticks s <= k < ticks (run now rand36 ops s).2)%nat ->
     toDateString (now k) = day) ->
  forall k token,
    (run now rand36 ops s).1 !! k = Some token ->
    exists i, (ticks s <= i < ticks (run now rand36 ops s).2)%nat /\
      token = tokenFormat (now i) (sameDayCount day (getAllOrders (storage s)) + k + 1).
Proof.
  revert s. induction ops as [|op ops IH]; intros s Hday k token; [done|].
  rewrite run_cons_tokens. rewrite run_cons_state in Hday |- *.
  pose proof (step_outcome now rand36 op s) as Hout.
  pose proof (outcome_ticks _ _ _ _ Hout) as Hticks.
  pose proof (run_ticks ops (step now rand36 op s).2) as Hrest.
  destruct (step now rand36 op s) as [r s1]. simpl in Hout, Hticks, Hrest, Hday |- *.
  assert (IHrest : forall j tok,
            (run now rand36 ops s1).1 !! j = Some tok ->
            exists i, (ticks s1 <= i < ticks (run now rand36 ops s1).2)%nat /\
              tok = tokenFormat (now i)
                      (sameDayCount day (getAllOrders (storage s1)) + j + 1)).
  { apply IH. intros j Hj. apply Hday. lia. }
  clear IH.
  destruct (run now rand36 ops s1) as [tokens s2]. simpl in Hrest, Hday, IHrest |- *.
  assert (Hkeep : sameDayCount day (getAllOrders (storage s1))
                  = sameDayCount day (getAllOrders (storage s)) ->
                  tokens !! k = Some token ->
                  exists i, (ticks s <= i < ticks s2)%nat /\
                    token = tokenFormat (now i)
                              (sameDayCount day (getAllOrders (storage s)) + k + 1)).
  { intros Hcount Hk. destruct (IHrest k token Hk) as (i & Hi & ->).
    exists i. split; [lia|by rewrite Hcount]. }
  inversion Hout; subst; simpl; try (by apply Hkeep).
  - (* a successful createOrder *)
    clear Hkeep. simpl in Hticks, Hrest.
    destruct k as [|k]; simpl.
    + intros [= <-]. exists (ticks s). split; [lia|].
      rewrite tokenAt_format, (Hday (ticks s)) by lia.
      repeat f_equal. lia.
    + intros Hk. destruct (IHrest k token Hk) as (i & Hi & ->).
      exists i. simpl in Hi. split; [lia|].
      change (getAllOrders (storage (mkState (mkStorage _ (Some ?l) _) _ _))) with l.
      rewrite sameDayCount_snoc by (apply (Hday (3 + ticks s)%nat); lia).
      f_equal. lia.
  - (* a transition that found its order *)
    apply Hkeep.
    change (getAllOrders (storage (mkState (mkStorage _ (Some ?l) _) _ _))) with l.
    by apply sameDayCount_alter.
Qed.

End Tokens.

#[local] Instance sameStamp_preorder : PreOrder sameStamp.
Proof.
  split.
  - by intros o.
  - intros o1 o2 o3 [H1 H2] [H3 H4]. split; congruence.
Qed.

Section TokenText.

Context {runtime : DateRuntime}.
Variable now : nat -> Z.
Variable rand36 : nat -> string.

Lemma dateStr_decimal (date : Z) :
  1000 <= getFullYear date <= 9999 ->
  0 <= getMonth date <= 11 -> 1 <= getDate date <= 31 ->
  dateStr date
  = decimal 4 (getFullYear date) +:+ decimal 2 (getMonth date + 1) +:+
    decimal 2 (getDate date).
Proof.
  intros Hy Hm Hd. unfold dateStr.
  rewrite <- (padStart_full 4 "0" (Js.toString 10 (getFullYear date)))
    by (by rewrite year_length).
  rewrite !toString_nonneg by lia.
  rewrite !padStart_decimal by lia.
  by rewrite !Z2N.id by lia.
Qed.

Lemma sequenceNum_decimal (n : nat) :
  Z.of_nat n < 10000 ->
  Js.padStart 4 "0" (Js.toString 10 (Z.of_nat n)) = decimal 4 (Z.of_nat n).
Proof.
  intros Hn. rewrite toString_of_nat, padStart_decimal; [|lia|].
  - by rewrite nat_N_Z.
  - change (10 ^ N.of_nat 4)%N with 10000%N. lia.
Qed.

Lemma tokenFormat_text (date : Z) (n : nat) :
  1000 <= getFullYear date <= 9999 ->
  0 <= getMonth date <= 11 -> 1 <= getDate date <= 31 ->
  Z.of_nat n < 10000 ->
  tokenFormat date n
  = tokenText (getFullYear date) (getMonth date + 1) (getDate date) (Z.of_nat n).
Proof.
  intros Hy Hm Hd Hn. unfold tokenFormat, tokenText.
  rewrite dateStr_decimal, sequenceNum_decimal by done.
  by rewrite !append_assoc.
Qed.

(** A creation hands out a token exactly when the cart holds a line and
    a customer is logged in. *)
Lemma run_placements (ops : list Op) (s : State) :
  length (run now rand36 ops s).1
  = placements ops (cartFilled (storage s)) (loggedIn (storage s)).
Proof.
  revert s. induction ops as [|op ops IH]; intros s; [done|].
  rewrite run_cons_tokens, length_app, IH.
  pose proof (step_outcome now rand36 op s) as Hout.
  destruct (step now rand36 op s) as [r s1]. simpl in Hout |- *.
  unfold cartFilled, loggedIn.
  inversion Hout as [cart|user|Hcart|Hcart Huser|u Hcart Huser| |]; subst; simpl.
  - unfold getCart. simpl. by destruct cart as [[|line cart]|].
  - unfold getCurrentUser. simpl. by destruct user.
  - by rewrite Hcart.
  - rewrite Huser. by destruct (getCart _).
  - rewrite Huser. by destruct (getCart (storage s)).
  - done.
  - done.
Qed.

(** The k-th token handed out is the token of the k-th order the history
    appends to the collection, an order created on the day. *)
Lemma run_stamps (ops : list Op) (s : State) (day : string) :
  (forall k, (ticks s <= k < ticks (run now rand36 ops s).2)%nat ->
     toDateString (now k) = day) ->
  forall k token,
    (run now rand36 ops s).1 !! k = Some token ->
    exists o,
      getAllOrders (storage (run now rand36 ops s).2)
        !! (length (getAllOrders (storage s)) + k)%nat = Some o /\
      Order.token o = token /\ toDateString (Order.createdAt o) = day.
Proof.
  revert s. induction ops as [|op ops IH]; intros s Hday k token; [done|].
  rewrite run_cons_tokens. rewrite run_cons_state in Hday |- *.
  pose proof (step_outcome now rand36 op s) as Hout.
  pose proof (outcome_ticks _ _ _ _ _ _ Hout) as Hticks.
  pose proof (run_ticks now rand36 ops (step now rand36 op s).2) as Hrest.
  pose proof (run_evolves now rand36 sameStamp ops
                (fun _ _ _ _ _ _ _ _ => conj eq_refl eq_refl)
                (step now rand36 op s).2) as Hev.
  destruct (step now rand36 op s) as [r s1]. simpl in Hout, Hticks, Hrest, Hday, Hev |- *.
  assert (IHrest : forall j tok,
            (run now rand36 ops s1).1 !! j = Some tok ->
            exists o,
              getAllOrders (storage (run now rand36 ops s1).2)
                !! (length (getAllOrders (storage s1)) + j)%nat = Some o /\
              Order.token o = tok /\ toDateString (Order.createdAt o) = day).
  { apply IH. intros j Hj. apply Hday. lia. }
  clear IH.
  destruct (run now rand36 ops s1) as [tokens s2].
  simpl in Hrest, Hday, Hev, IHrest |- *.
  assert (Hkeep : length (getAllOrders (storage s1)) = length (getAllOrders (storage s)) ->
                  tokens !! k = Some token ->
                  exists o,
                    getAllOrders (storage s2)
                      !! (length (getAllOrders (storage s)) + k)%nat = Some o /\
                    Order.token o = token /\ toDateString (Order.createdAt o) = day).
  { intros Hlen Hk. rewrite <- Hlen. by apply IHrest. }
  inversion Hout; subst; simpl; try (by apply Hkeep).
  - (* a successful createOrder *)
    clear Hkeep. simpl in Hticks, Hrest, Hev, IHrest.
    change (getAllOrders (mkStorage _ (Some ?l) _)) with l in Hev, IHrest.
    destruct k as [|k]; simpl.
    + intros [= <-].
      destruct (Hev (length (getAllOrders (storage s))) (orderAt now rand36 s u))
        as (o' & Ho' & Htoken & Hcreated).
      { by rewrite lookup_app_r, Nat.sub_diag by lia. }
      exists o'. rewrite Nat.add_0_r. split; [done|]. split; [done|].
      rewrite Hcreated. apply (Hday (3 + ticks s)%nat). lia.
    + intros Hk. destruct (IHrest k token Hk) as (o & Ho & Htoken & Hcreated).
      exists o. split; [|done].
      rewrite length_app in Ho. simpl in Ho.
      by replace (length (getAllOrders (storage s)) + S k)%nat
        with (length (getAllOrders (storage s)) + 1 + k)%nat by lia.
  - (* a transition that found its order *)
    apply Hkeep.
    change (getAllOrders (mkStorage _ (Some ?l) _)) with l.
    apply length_alter.
Qed.

End TokenText.

Section TokenSequence.

Context {runtime : DateRuntime}.
Variable now : nat -> Z.
Variable rand36 : nat -> string.

Lemma tokenSequence_format (date : Z) (n : nat) :
  tokenSequence (tokenFormat date n) = Z.of_nat n.
Proof.
  unfold tokenFormat.
  change ("TKN-" +:+ dateStr date +:+ "-" +:+ ?x)
    with (("TKN-" +:+ dateStr date) +:+ "-" +:+ x).
  apply tokenSequence_padded.
Qed.

(** C2. Take any history of operations (cart changes, log-ins,
    transitions, order creations one after the other, nothing removed)
    all of whose clock readings fall on one calendar day.  Every creation
    made with a line in the cart and a customer logged in hands out a
    token, and nothing else does: the number of tokens is the number of
    such creations.  The k-th token is the token of the k-th order the
    history appends to the collection, an order created on that day.  It
    is TKN-YYYYMMDD-NNNN: YYYYMMDD is the year (four digits), the month
    counted from 1 (two digits) and the day of the month (two digits) of
    a clock reading of that day, digit by digit, and NNNN the number of
    orders of that day already in the collection plus one, padded with
    zeros to four digits (exactly four up to 9999).  The numbers read
    back from the tokens grow strictly in creation order, and the tokens
    are pairwise distinct. *)
Theorem tokens_of_a_day (ops : list Op) (s : State) (day : string) :
  (forall k, (ticks s <= k < ticks (run now rand36 ops s).2)%nat ->
     toDateString (now k) = day) ->
  let existing := sameDayCount day (getAllOrders (storage s)) in
  let tokens := (run now rand36 ops s).1 in
  (forall k token,
     tokens !! k = Some token ->
     let sequenceNum :=
       Js.padStart 4 "0" (Js.toString 10 (Z.of_nat (existing + k + 1))) in
     (exists i, (ticks s <= i < ticks (run now rand36 ops s).2)%nat /\
        toDateString (now i) = day /\
        token = "TKN-" +:+ dateStr (now i) +:+ "-" +:+ sequenceNum /\
        (1000 <= getFullYear (now i) <= 9999 ->
         0 <= getMonth (now i) <= 11 -> 1 <= getDate (now i) <= 31 ->
         String.length (dateStr (now i)) = 8%nat /\
         dateStr (now i)
         = decimal 4 (getFullYear (now i)) +:+ decimal 2 (getMonth (now i) + 1) +:+
           decimal 2 (getDate (now i)) /\
         (Z.of_nat (existing + k + 1) < 10000 ->
          token = tokenText (getFullYear (now i)) (getMonth (now i) + 1)
                            (getDate (now i)) (Z.of_nat (existing + k + 1))))) /\
     tokenSequence token = Z.of_nat (existing + k + 1) /\
     (Z.of_nat (existing + k + 1) < 10000 ->
      String.length sequenceNum = 4%nat /\
      sequenceNum = decimal 4 (Z.of_nat (existing + k + 1))) /\
     (exists o,
        getAllOrders (storage (run now rand36 ops s).2)
          !! (length (getAllOrders (storage s)) + k)%nat = Some o /\
        Order.token o = token /\ toDateString (Order.createdAt o) = day)) /\
  (forall i j a b,
     (i < j)%nat -> tokens !! i = Some a -> tokens !! j = Some b ->
     tokenSequence a < tokenSequence b) /\
  NoDup tokens /\
  length tokens = placements ops (cartFilled (storage s)) (loggedIn (storage s)).
Proof.
  intros Hday existing tokens.
  assert (Hseq : forall k token, tokens !! k = Some token ->
            tokenSequence token = Z.of_nat (existing + k + 1)).
  { intros k token Hk.
    destruct (run_tokens now rand36 ops s day Hday k token Hk) as (i & _ & ->).
    apply tokenSequence_format. }
  split; [|split; [|split]].
  - intros k token Hk sequenceNum. split; [|split; [|split]].
    + destruct (run_tokens now rand36 ops s day Hday k token Hk) as (i & Hi & ->).
      exists i. split; [done|]. split; [by apply Hday|]. split; [done|].
      intros Hy Hm Hd. split; [|split].
      * unfold dateStr.
        rewrite !append_length, year_length, !two_digits_length by lia. done.
      * by apply dateStr_decimal.
      * intros Hn. by apply tokenFormat_text.
    + by apply Hseq.
    + intros Hn. split; [apply sequenceNum_length, Hn|apply sequenceNum_decimal, Hn].
    + by apply (run_stamps now rand36 ops s day Hday).
  - intros i j a b Hij Ha Hb. rewrite (Hseq i a Ha), (Hseq j b Hb). lia.
  - apply NoDup_alt. intros i j token Hi Hj.
    pose proof (Hseq i token Hi). pose proof (Hseq j token Hj). lia.
  - apply run_placements.
Qed.

End TokenSequence.

Example rush_tokens :
  (run (runtime := Utc.runtime) Demo.clock Demo.random Demo.rush Demo.lunch).1
  = ["TKN-20261103-0002"; "TKN-20261103-0003"; "TKN-20261103-0004"].
Proof. vm_compute. reflexivity. Qed.

Lemma tokens_of_a_day_witness :
  let tokens :=
    (run (runtime := Utc.runtime) Demo.clock Demo.random Demo.rush Demo.lunch).1 in
  NoDup tokens /\ length tokens = 3%nat /\
  exists o,
    getAllOrders
      (storage (run (runtime := Utc.runtime) Demo.clock Demo.random
                    Demo.rush Demo.lunch).2) !! 1%nat = Some o /\
    Order.token o = tokenText 2026 11 3 2.
Proof.
  pose proof (tokens_of_a_day (runtime := Utc.runtime) Demo.clock Demo.random
                Demo.rush Demo.lunch "Tue Nov 03 2026") as W.
  cbv zeta in W.
  destruct W as (Hformat & _ & Hdistinct & Hcount).
  { intros k [_ Hk].
    change (ticks (run Demo.clock Demo.random Demo.rush Demo.lunch).2) with 17%nat in Hk.
    do 17 (destruct k as [|k]; [vm_compute; reflexivity|]).
    lia. }
  cbv zeta. split; [exact Hdistinct|]. split; [exact Hcount|].
  destruct (Hformat 0%nat "TKN-20261103-0002" eq_refl)
    as ((i & [_ Hi] & _ & _ & Htext) & _ & _ & o & Ho & Htoken & _).
  exists o. split; [exact Ho|]. rewrite Htoken.
  change (ticks (run Demo.clock Demo.random Demo.rush Demo.lunch).2) with 17%nat in Hi.
  do 17 (destruct i as [|i];
         [destruct Htext as (_ & _ & Hsame); [vm_compute; intuition discriminate..|];
          exact (Hsame eq_refl)|]).
  lia.
Defined.

Lemma getOrderByToken_first_witness :
  getOrderByToken "TKN-20261103-0001" Demo.board = Some Demo.O2.
Proof.
  apply (getOrderByToken_first (runtime := Utc.runtime) Demo.clock Demo.random
           (mkState Demo.board 0 0) "TKN-20261103-0001"
           [] [Demo.O1; Demo.O3; Demo.O4; Demo.O5] Demo.O2).
  - reflexivity.
  - reflexivity.
  - constructor.
Defined.

Lemma getDailyReport_revenue_witness :
  revenue (getDailyReport (runtime := Utc.runtime) 1793700000000 Demo.counter)
  = revenue (getDailyReport (runtime := Utc.runtime) 1793700000000 Demo.board).
Proof.
  pose proof (getDailyReport_revenue (runtime := Utc.runtime) 1793700000000 Demo.board)
    as W.
  cbv zeta in W. destruct W as (_ & _ & _ & _ & _ & Hout).
  apply (Hout [Demo.O2; Demo.O1] Demo.O3 [Demo.O4; Demo.O5] Demo.counter).
  - reflexivity.
  - reflexivity.
  - vm_compute. discriminate.
Defined.

Example board_report :
  let report := getDailyReport (runtime := Utc.runtime) 1793700000000 Demo.board in
  date report = "Tue Nov 03 2026" /\ totalOrders report = 4%nat /\
  completedOrders report = 1%nat /\ cancelledOrders report = 1%nat /\
  revenue report = 700 /\ Qeq (averageOrderValue report) (inject_Z 700).
Proof. vm_compute. repeat split. Qed.

(** ** The cart *)

Lemma findRef_Some {A} (p : A -> bool) (xs : list A) (i : nat) (x : A) :
  findRef p xs = Some (i, x) ->
  xs !! i = Some x /\ p x = true /\ Forall (fun y => p y = false) (take i xs).
Proof.
  revert i. induction xs as [|y xs IH]; intros i; simpl; [done|].
  destruct (p y) eqn:Hy.
  - intros [= <- <-]. simpl. auto.
  - destruct (findRef p xs) as [[j z]|]; [|done].
    intros [= <- <-]. destruct (IH j eq_refl) as (Hj & Hz & Hbefore).
    simpl. auto.
Qed.

Lemma findRef_None {A} (p : A -> bool) (xs : list A) :
  findRef p xs = None <-> Forall (fun y => p y = false) xs.
Proof.
  induction xs as [|y xs IH]; simpl.
  - split; [constructor|done].
  - destruct (p y) eqn:Hy.
    + split; [done|]. intros Hall. apply Forall_cons in Hall as [Hy' _]. congruence.
    + destruct (findRef p xs) as [[j z]|].
      * split; [done|]. intros Hall. apply Forall_cons in Hall as [_ Hall].
        by apply IH in Hall.
      * split; [|done]. intros _. constructor; [done|]. by apply IH.
Qed.

Lemma findRef_find {A} (p : A -> bool) (xs : list A) :
  Js.find p xs = snd <$> findRef p xs.
Proof.
  induction xs as [|y xs IH]; simpl; [done|].
  destruct (p y); [done|]. rewrite IH. by destruct (findRef p xs) as [[j z]|].
Qed.

Lemma sumZ_app (xs ys : list Z) : sumZ (xs ++ ys) = sumZ xs + sumZ ys.
Proof. induction xs as [|x xs IH]; simpl; [done|]. rewrite IH. lia. Qed.

Lemma sumZ_alter {A} (g : A -> Z) (f : A -> A) (i : nat) (xs : list A) (x : A) :
  xs !! i = Some x ->
  sumZ (map g (alter f i xs)) = sumZ (map g xs) - g x + g (f x).
Proof.
  revert i. induction xs as [|y xs IH]; intros [|i] Hi; try done.
  - injection Hi as ->. simpl. lia.
  - change (alter f (S i) (y :: xs)) with (y :: alter f i xs).
    simpl. rewrite (IH i) by done. lia.
Qed.

Lemma getCartItemCount_sum (st : Storage) :
  getCartItemCount st = sumZ (map CartItem.quantity (getCart st)).
Proof. unfold getCartItemCount. by rewrite (reduce_add CartItem.quantity). Qed.

(** The lines of a cart that do not carry [itemId]. *)
Lemma other_lines_length (itemId : string) (cart : list CartItem.t) :
  length (List.filter (fun item => negb (String.eqb (CartItem.id item) itemId)) cart)
  = length cart <->
  Forall (fun item => String.eqb (CartItem.id item) itemId = false) cart.
Proof.
  induction cart as [|line cart IH]; simpl; [by split; [constructor|]|].
  pose proof (List.filter_length_le
                (fun item => negb (String.eqb (CartItem.id item) itemId)) cart) as Hle.
  destruct (String.eqb (CartItem.id line) itemId) eqn:Hline; simpl.
  - split; [lia|]. intros Hall. apply Forall_cons in Hall as [Hne _].
    simpl in Hne. congruence.
  - split.
    + intros Hlen. constructor; [done|]. apply IH. lia.
    + intros Hall. apply Forall_cons in Hall as [_ Hall]. apply IH in Hall. lia.
Qed.

Lemma other_lines_all (itemId : string) (cart : list CartItem.t) :
  Forall (fun item => String.eqb (CartItem.id item) itemId = false) cart ->
  List.filter (fun item => negb (String.eqb (CartItem.id item) itemId)) cart = cart.
Proof.
  induction 1 as [|line cart Hline _ IH]; simpl; [done|].
  by rewrite Hline, IH.
Qed.

Lemma find_Some {A} (p : A -> bool) (xs : list A) (x : A) :
  Js.find p xs = Some x -> p x = true /\ x ∈ xs.
Proof.
  rewrite findRef_find. destruct (findRef p xs) as [[i y]|] eqn:Href; [|done].
  intros [= <-]. destruct (findRef_Some _ _ _ _ Href) as (Hi & Hy & _).
  split; [done|]. by eapply list_elem_of_lookup_2.
Qed.

Lemma addToCart_success (menu : option (list MenuItem.t)) (itemId : string)
    (quantity : Z) (s : State) (menuItem : MenuItem.t) :
  getMenuItem itemId menu = Some menuItem ->
  MenuItem.available menuItem = true ->
  addToCart menu itemId quantity s
  = (CartResult.mk true (MenuItem.name menuItem +:+ " added to cart!")
       (Some (sumZ (map CartItem.quantity
                        (cartAfterAdd menuItem itemId quantity (getCart (storage s)))))),
     withCart (cartAfterAdd menuItem itemId quantity (getCart (storage s))) s).
Proof.
  intros Hitem Havailable. unfold addToCart. rewrite Hitem, Havailable. simpl.
  unfold bind, gets, saveCart, saveToStorage_CART, modify, ret, withCart, cartAfterAdd.
  simpl. rewrite getCartItemCount_sum. reflexivity.
Qed.

Lemma removeFromCart_present (itemId : string) (s : State) :
  otherLines itemId (getCart (storage s)) <> getCart (storage s) ->
  removeFromCart itemId s
  = (CartResult.mk true "Item removed from cart" None,
     withCart (otherLines itemId (getCart (storage s))) s).
Proof.
  intros Hpresent. unfold removeFromCart, bind, gets. simpl.
  destruct (length _ =? length _)%nat eqn:Hlen; [|done].
  apply Nat.eqb_eq, other_lines_length, other_lines_all in Hlen. done.
Qed.

Lemma removeFromCart_absent (itemId : string) (s : State) :
  otherLines itemId (getCart (storage s)) = getCart (storage s) ->
  removeFromCart itemId s = (CartResult.mk false "Item not in cart" None, s).
Proof.
  intros Habsent. unfold removeFromCart, bind, gets. simpl.
  fold (otherLines itemId (getCart (storage s))). rewrite Habsent.
  by rewrite Nat.eqb_refl.
Qed.

Lemma findRef_alter {A} (p : A -> bool) (f : A -> A) (xs : list A) (i : nat) (x : A) :
  (forall y, p (f y) = p y) ->
  findRef p xs = Some (i, x) ->
  findRef p (alter f i xs) = Some (i, f x).
Proof.
  intros Hpf. revert i. induction xs as [|y xs IH]; intros i; simpl; [done|].
  destruct (p y) eqn:Hy.
  - intros [= <- <-]. simpl. by rewrite Hpf, Hy.
  - destruct (findRef p xs) as [[j z]|] eqn:Href; [|done].
    intros [= <- <-].
    change (alter f (S j) (y :: xs)) with (y :: alter f j xs).
    simpl. by rewrite Hy, (IH j eq_refl).
Qed.

Lemma alter_fixed {A} (f : A -> A) (xs : list A) (i : nat) (x : A) :
  xs !! i = Some x -> f x = x -> alter f i xs = xs.
Proof.
  revert i. induction xs as [|y xs IH]; intros [|i] Hi Hx; try done.
  - injection Hi as ->. change (alter f 0%nat (x :: xs)) with (f x :: xs). by rewrite Hx.
  - change (alter f (S i) (y :: xs)) with (y :: alter f i xs). by rewrite (IH i).
Qed.

Lemma map_id_alter (f : CartItem.t -> CartItem.t) (i : nat) (cart : list CartItem.t) :
  (forall line, CartItem.id (f line) = CartItem.id line) ->
  map CartItem.id (alter f i cart) = map CartItem.id cart.
Proof.
  intros Hf. revert i. induction cart as [|line cart IH]; intros [|i]; try done.
  - change (alter f 0%nat (line :: cart)) with (f line :: cart). simpl. by rewrite Hf.
  - change (alter f (S i) (line :: cart)) with (line :: alter f i cart).
    simpl. by rewrite IH.
Qed.

Lemma getCart_stored (s : State) (line : CartItem.t) :
  line ∈ getCart (storage s) -> withCart (getCart (storage s)) s = s.
Proof.
  destruct s as [[cart orders user] tk dr]. unfold withCart, getCart. simpl.
  destruct cart as [cart|]; simpl; [done|]. by intros ?%elem_of_nil.
Qed.

(** X1. A successful addToCart raises the number of units in the cart by
    the quantity added and reports the new number; the subtotal grows by
    the quantity times the unit price, which is the price already on the
    cart line when the item is in the cart (the menu price is used for a
    new line only); nothing but the cart is touched. *)
Theorem addToCart_adds_quantity (menu : option (list MenuItem.t)) (itemId : string)
    (quantity : Z) (s : State) (menuItem : MenuItem.t) :
  getMenuItem itemId menu = Some menuItem ->
  MenuItem.available menuItem = true ->
  let r := (addToCart menu itemId quantity s).1 in
  let s' := (addToCart menu itemId quantity s).2 in
  let unitPrice :=
    match Js.find (fun item => String.eqb (CartItem.id item) itemId) (getCart (storage s)) with
    | Some line => CartItem.price line
    | None => MenuItem.price menuItem
    end in
  CartResult.success r = true /\
  CartResult.cartCount r = Some (getCartItemCount (storage s) + quantity) /\
  getCartItemCount (storage s') = getCartItemCount (storage s) + quantity /\
  getCartSubtotal (storage s') = getCartSubtotal (storage s) + unitPrice * quantity /\
  onlyCartChanged s s'.
Proof.
  intros Hitem Havailable r s' unitPrice. subst r s' unitPrice.
  rewrite (addToCart_success _ _ _ _ _ Hitem Havailable). simpl.
  rewrite !getCartItemCount_sum, !getCartSubtotal_sum, findRef_find.
  change (getCart (mkStorage (Some ?c) _ _)) with c.
  unfold cartAfterAdd.
  destruct (findRef _ (getCart (storage s))) as [[i line]|] eqn:Href; simpl.
  - destruct (findRef_Some _ _ _ _ Href) as (Hi & _ & _).
    rewrite (sumZ_alter CartItem.quantity _ _ _ _ Hi).
    rewrite (sumZ_alter lineAmount _ _ _ _ Hi).
    unfold lineAmount. simpl.
    split; [done|]. split; [f_equal; lia|]. split; [lia|]. split; [lia|done].
  - rewrite !map_app, !sumZ_app. unfold lineAmount. simpl.
    split; [done|]. split; [f_equal; lia|]. split; [lia|]. split; [lia|done].
Qed.

Lemma removeFromCart_cart (itemId : string) (s : State) :
  getCart (storage (removeFromCart itemId s).2) = otherLines itemId (getCart (storage s))
  /\ onlyCartChanged s (removeFromCart itemId s).2.
Proof.
  unfold removeFromCart, bind, gets. simpl.
  fold (otherLines itemId (getCart (storage s))).
  destruct (length _ =? length _)%nat eqn:Hlen; simpl; [|done].
  apply Nat.eqb_eq, other_lines_length, other_lines_all in Hlen.
  fold (otherLines itemId (getCart (storage s))) in Hlen. by rewrite Hlen.
Qed.

Lemma otherLines_ids (itemId : string) (cart : list CartItem.t) :
  Forall (fun line => CartItem.id line <> itemId) (otherLines itemId cart) /\
  (forall line, line ∈ otherLines itemId cart <-> line ∈ cart /\ CartItem.id line <> itemId).
Proof.
  unfold otherLines. split.
  - apply Forall_forall. intros line Hline.
    apply list_elem_of_In, List.filter_In in Hline as [_ Hne].
    apply negb_true_iff, String.eqb_neq in Hne. done.
  - intros line. rewrite !list_elem_of_In, List.filter_In, negb_true_iff, String.eqb_neq.
    done.
Qed.

Lemma tidy_otherLines (itemId : string) (cart : list CartItem.t) :
  tidyCart cart -> tidyCart (otherLines itemId cart).
Proof.
  unfold tidyCart, otherLines. intros [Hids Hunits]. split.
  - induction cart as [|line cart IH]; simpl; [constructor|].
    apply NoDup_cons in Hids as [Hfresh Hids].
    apply Forall_cons in Hunits as [_ Hunits].
    destruct (negb _); simpl; [|by apply IH].
    apply NoDup_cons. split; [|by apply IH].
    intros Hin. apply Hfresh.
    apply list_elem_of_fmap in Hin as (other & -> & Hother).
    apply list_elem_of_fmap. exists other. split; [done|].
    apply list_elem_of_In, List.filter_In in Hother as [Hother _].
    by apply list_elem_of_In.
  - apply Forall_forall. intros line Hline. rewrite Forall_forall in Hunits.
    apply Hunits. apply list_elem_of_In, List.filter_In in Hline as [Hline _].
    by apply list_elem_of_In.
Qed.

Lemma tidy_setQuantity (value : Z) (i : nat) (cart : list CartItem.t) :
  1 <= value -> tidyCart cart -> tidyCart (alter (setQuantity value) i cart).
Proof.
  unfold tidyCart. intros Hvalue [Hids Hunits]. split.
  - by rewrite map_id_alter.
  - apply Forall_alter; [done|]. intros line _ _. done.
Qed.

Lemma bind_ret_state {A} (m : M A) (s : State) :
  ((m ;; ret tt) s).2 = (m s).2.
Proof. unfold bind, ret. by destruct (m s). Qed.

Lemma cartStep_tidy (menu : option (list MenuItem.t)) (op : CartOp) (s : State) :
  addsUnits op ->
  tidyCart (getCart (storage s)) ->
  tidyCart (getCart (storage (cartStep menu op s).2)) /\
  onlyCartChanged s (cartStep menu op s).2.
Proof.
  intros Hop Htidy.
  assert (Hremove : forall itemId,
            tidyCart (getCart (storage (removeFromCart itemId s).2)) /\
            onlyCartChanged s (removeFromCart itemId s).2).
  { intros itemId. destruct (removeFromCart_cart itemId s) as [-> Hframe].
    split; [by apply tidy_otherLines|done]. }
  destruct op as [itemId quantity|itemId|itemId quantity|itemId|itemId|]; simpl in *.
  - rewrite bind_ret_state.
    destruct (getMenuItem itemId menu) as [menuItem|] eqn:Hitem;
      [|by unfold addToCart; rewrite Hitem].
    destruct (MenuItem.available menuItem) eqn:Havailable;
      [|by unfold addToCart; rewrite Hitem, Havailable].
    rewrite (addToCart_success _ _ _ _ _ Hitem Havailable). simpl.
    split; [|done]. unfold cartAfterAdd.
    change (getCart (mkStorage (Some ?c) _ _)) with c.
    destruct (findRef _ (getCart (storage s))) as [[i line]|] eqn:Href.
    + destruct (findRef_Some _ _ _ _ Href) as (Hi & _ & _).
      apply tidy_setQuantity; [|done].
      destruct Htidy as [_ Hunits]. rewrite Forall_lookup in Hunits.
      specialize (Hunits _ _ Hi). simpl in Hunits. lia.
    + apply findRef_None in Href. destruct Htidy as [Hids Hunits].
      apply find_Some in Hitem as [Hid _]. apply String.eqb_eq in Hid.
      split.
      * rewrite map_app. simpl. apply NoDup_app. split; [done|].
        split; [|apply NoDup_singleton].
        intros id Hin ->%list_elem_of_singleton.
        apply list_elem_of_fmap in Hin as (line & Hline & Hin).
        rewrite Forall_forall in Href. specialize (Href _ Hin). simpl in Href.
        apply String.eqb_neq in Href. congruence.
      * apply Forall_app. split; [done|]. by repeat constructor.
  - rewrite bind_ret_state. apply Hremove.
  - rewrite bind_ret_state. unfold updateCartQuantity.
    destruct (quantity <? 1) eqn:Hq; [apply Hremove|]. apply Z.ltb_ge in Hq.
    unfold bind, gets. simpl.
    destruct (findRef _ (getCart (storage s))) as [[i line]|]; simpl; [|done].
    split; [|done]. by apply tidy_setQuantity.
  - unfold increaseQuantity, bind, gets. simpl.
    destruct (findRef _ (getCart (storage s))) as [[i line]|] eqn:Href; simpl; [|done].
    split; [|done]. destruct (findRef_Some _ _ _ _ Href) as (Hi & _ & _).
    apply tidy_setQuantity; [|done].
    destruct Htidy as [_ Hunits]. rewrite Forall_lookup in Hunits.
    specialize (Hunits _ _ Hi). simpl in Hunits. lia.
  - unfold decreaseQuantity, bind, gets. simpl.
    destruct (findRef _ (getCart (storage s))) as [[i line]|] eqn:Href; simpl; [|done].
    destruct (1 <? CartItem.quantity line) eqn:Hq; simpl.
    + split; [|done]. apply Z.ltb_lt in Hq. apply tidy_setQuantity; [lia|done].
    + specialize (Hremove itemId). by destruct (removeFromCart itemId s).
  - split; [|done]. split; [constructor|constructor].
Qed.

(** X2. A cart with one line per item and at least one unit on every line
    stays so under every sequence of cart operations (additions of at
    least one unit, removals, quantity updates, the + and - buttons,
    clearing); and these operations touch neither the orders nor the
    session, and never read the clock. *)
Theorem cart_stays_tidy (menu : option (list MenuItem.t)) (ops : list CartOp) (s : State) :
  Forall addsUnits ops ->
  tidyCart (getCart (storage s)) ->
  tidyCart (getCart (storage (cartRun menu ops s))) /\
  onlyCartChanged s (cartRun menu ops s).
Proof.
  revert s. induction ops as [|op ops IH]; intros s Hops Htidy; simpl; [done|].
  apply Forall_cons in Hops as [Hop Hops].
  destruct (cartStep_tidy menu op s Hop Htidy) as [Htidy' Hframe].
  destruct (IH _ Hops Htidy') as [Hfinal Hframe'].
  split; [done|]. unfold onlyCartChanged in *.
  destruct Hframe as (Ho & Hu & Ht & Hd), Hframe' as (Ho' & Hu' & Ht' & Hd').
  repeat split; congruence.
Qed.

(** X3. removeFromCart drops every line of the item and keeps the others
    in their order; it succeeds exactly when the cart held such a line,
    leaves the state alone when it did not, touches nothing but the cart,
    and removing the same item again fails with "Item not in cart". *)
Theorem removeFromCart_removes (itemId : string) (s : State) :
  let r := (removeFromCart itemId s).1 in
  let s' := (removeFromCart itemId s).2 in
  getCart (storage s') = otherLines itemId (getCart (storage s)) /\
  (forall line, line ∈ getCart (storage s') <->
                line ∈ getCart (storage s) /\ CartItem.id line <> itemId) /\
  (CartResult.success r = true <->
   exists line, line ∈ getCart (storage s) /\ CartItem.id line = itemId) /\
  (CartResult.success r = false -> s' = s) /\
  onlyCartChanged s s' /\
  removeFromCart itemId s' = (CartResult.mk false "Item not in cart" None, s').
Proof.
  intros r s'. subst r s'.
  destruct (removeFromCart_cart itemId s) as [Hcart Hframe].
  split; [done|]. split; [rewrite Hcart; apply otherLines_ids|].
  split; [|split; [|split; [done|]]].
  - unfold removeFromCart, bind, gets. simpl.
    destruct (length _ =? length _)%nat eqn:Hlen; simpl.
    + apply Nat.eqb_eq, other_lines_length in Hlen. split; [done|].
      intros (line & Hline & Hid). rewrite Forall_forall in Hlen.
      specialize (Hlen _ Hline). simpl in Hlen. apply String.eqb_neq in Hlen. done.
    + split; [|done]. intros _. apply Nat.eqb_neq in Hlen.
      rewrite other_lines_length in Hlen.
      apply not_Forall_Exists in Hlen; [|intros line; apply _].
      apply Exists_exists in Hlen as (line & Hline & Hid).
      exists line. split; [done|]. simpl in Hid.
      apply String.eqb_eq. by destruct (String.eqb (CartItem.id line) itemId).
  - unfold removeFromCart, bind, gets. simpl.
    by destruct (length _ =? length _)%nat.
  - apply removeFromCart_absent. rewrite Hcart. unfold otherLines.
    apply other_lines_all. apply Forall_forall. intros line Hline.
    apply String.eqb_neq.
    apply list_elem_of_In, List.filter_In in Hline as [_ Hne].
    by apply negb_true_iff, String.eqb_neq in Hne.
Qed.

(** X4. updateCartQuantity with a quantity of at least 1 puts that
    quantity on the line of the item (the first one found), changes no
    other line, and moves the number of units by the difference; without
    such a line it fails with "Item not in cart" and changes nothing.
    With a quantity below 1 it removes the item: no line of it is left. *)
Theorem updateCartQuantity_sets (itemId : string) (quantity : Z) (s : State) :
  let byId := fun i => String.eqb (CartItem.id i) itemId in
  let r := (updateCartQuantity itemId quantity s).1 in
  let s' := (updateCartQuantity itemId quantity s).2 in
  (forall line,
     1 <= quantity -> Js.find byId (getCart (storage s)) = Some line ->
     r = CartResult.mk true "Cart updated" None /\
     Js.find byId (getCart (storage s')) = Some (setQuantity quantity line) /\
     (exists i, getCart (storage s) !! i = Some line /\
        getCart (storage s') = <[i := setQuantity quantity line]> (getCart (storage s))) /\
     getCartItemCount (storage s')
     = getCartItemCount (storage s) - CartItem.quantity line + quantity /\
     onlyCartChanged s s') /\
  (1 <= quantity -> Js.find byId (getCart (storage s)) = None ->
     r = CartResult.mk false "Item not in cart" None /\ s' = s) /\
  (quantity < 1 ->
     getCart (storage s') = otherLines itemId (getCart (storage s)) /\
     Js.find byId (getCart (storage s')) = None).
Proof.
  intros byId r s'. subst r s'. split; [|split].
  - intros line Hq Hline. rewrite findRef_find in Hline.
    unfold updateCartQuantity. destruct (quantity <? 1) eqn:Hlt; [lia|].
    unfold bind, gets. simpl. fold byId.
    destruct (findRef byId (getCart (storage s))) as [[i x]|] eqn:Href; [|done].
    injection Hline as ->. simpl.
    destruct (findRef_Some _ _ _ _ Href) as (Hi & _ & _).
    change (getCart (mkStorage (Some ?c) _ _)) with c.
    split; [done|]. split; [|split; [|split; [|done]]].
    + by rewrite findRef_find,
        (findRef_alter byId (setQuantity quantity) _ _ _ (fun _ => eq_refl) Href).
    + exists i. split; [done|]. rewrite list_insert_alter.
      apply list_alter_ext; [|done]. intros y Hy. congruence.
    + rewrite !getCartItemCount_sum.
      change (getCart (mkStorage (Some ?c) _ _)) with c.
      by rewrite (sumZ_alter CartItem.quantity _ _ _ _ Hi).
  - intros Hq Hnone. rewrite findRef_find in Hnone.
    unfold updateCartQuantity. destruct (quantity <? 1) eqn:Hlt; [lia|].
    unfold bind, gets. simpl. fold byId.
    by destruct (findRef byId (getCart (storage s))) as [[i x]|].
  - intros Hq. unfold updateCartQuantity.
    destruct (quantity <? 1) eqn:Hlt; [|lia].
    destruct (removeFromCart_cart itemId s) as [Hcart _].
    split; [done|]. rewrite Hcart, findRef_find.
    assert (Hnone : findRef byId (otherLines itemId (getCart (storage s))) = None).
    { apply findRef_None. eapply Forall_impl; [apply otherLines_ids|].
      intros line Hline. by apply String.eqb_neq. }
    by rewrite Hnone.
Qed.

(** X5. Pressing + and then - on a cart line that holds at least one unit
    gives back exactly the state before. *)
Theorem increase_then_decrease (itemId : string) (s : State) (line : CartItem.t) :
  Js.find (fun i => String.eqb (CartItem.id i) itemId) (getCart (storage s)) = Some line ->
  1 <= CartItem.quantity line ->
  (decreaseQuantity itemId (increaseQuantity itemId s).2).2 = s.
Proof.
  intros Hline Hq. rewrite findRef_find in Hline.
  destruct (findRef _ (getCart (storage s))) as [[i x]|] eqn:Href; [|done].
  injection Hline as ->.
  destruct (findRef_Some _ _ _ _ Href) as (Hi & _ & _).
  unfold increaseQuantity at 1. unfold bind, gets. simpl. rewrite Href. simpl.
  unfold decreaseQuantity, bind, gets. simpl.
  change (getCart (mkStorage (Some ?c) _ _)) with c.
  rewrite (findRef_alter (fun i => String.eqb (CartItem.id i) itemId)
             (setQuantity (CartItem.quantity line + 1)) _ _ _
             (fun _ => eq_refl) Href).
  simpl.
  destruct (1 <? CartItem.quantity line + 1) eqn:Hlt; [|lia]. simpl.
  rewrite list_alter_alter_eq.
  rewrite (alter_fixed _ _ _ _ Hi).
  - apply (getCart_stored s line). by eapply list_elem_of_lookup_2.
  - destruct line as [id name price image q]. unfold setQuantity. simpl. f_equal. lia.
Qed.

Lemma addToCart_adds_quantity_witness :
  getCartItemCount (storage (addToCart Shelf.menu "m1" 1 Shelf.shopping).2) = 4 /\
  getCartSubtotal (storage (addToCart Shelf.menu "m1" 1 Shelf.shopping).2) = 1330.
Proof.
  pose proof (addToCart_adds_quantity Shelf.menu "m1" 1 Shelf.shopping Shelf.rice
                eq_refl eq_refl) as W.
  cbv zeta in W. destruct W as (_ & _ & Hcount & Hsubtotal & _).
  split; [exact Hcount|exact Hsubtotal].
Defined.

Lemma cart_stays_tidy_witness :
  tidyCart (getCart (storage (cartRun Shelf.menu Shelf.visit Shelf.shopping))).
Proof.
  apply (cart_stays_tidy Shelf.menu Shelf.visit Shelf.shopping).
  - repeat constructor; simpl; lia.
  - split.
    + simpl. apply NoDup_cons. split; [|apply NoDup_singleton].
      intros Hin. apply list_elem_of_singleton in Hin. discriminate.
    + repeat constructor; simpl; lia.
Defined.

Lemma updateCartQuantity_sets_witness :
  Js.find (fun i => String.eqb (CartItem.id i) "m2")
          (getCart (storage (updateCartQuantity "m2" 5 Shelf.shopping).2))
  = Some (setQuantity 5 Demo.itemB) /\
  getCart (storage (updateCartQuantity "m2" 0 Shelf.shopping).2) = [Demo.itemA].
Proof.
  split.
  - pose proof (updateCartQuantity_sets "m2" 5 Shelf.shopping) as W.
    cbv zeta in W. destruct W as (Hset & _ & _).
    destruct (Hset Demo.itemB ltac:(lia) eq_refl) as (_ & Hfound & _).
    exact Hfound.
  - pose proof (updateCartQuantity_sets "m2" 0 Shelf.shopping) as W.
    cbv zeta in W. destruct W as (_ & _ & Hzero).
    destruct (Hzero ltac:(lia)) as [Hcart _]. exact Hcart.
Defined.

Lemma increase_then_decrease_witness :
  (decreaseQuantity "m2" (increaseQuantity "m2" Shelf.shopping).2).2 = Shelf.shopping.
Proof.
  apply (increase_then_decrease "m2" Shelf.shopping Demo.itemB).
  - reflexivity.
  - simpl. lia.
Defined.

(** ** The menu catalogue *)

Lemma filter_out_length {A} (p : A -> bool) (xs : list A) :
  length (List.filter (fun x => negb (p x)) xs) = length xs <->
  Forall (fun x => p x = false) xs.
Proof.
  induction xs as [|x xs IH]; simpl; [by split; [constructor|]|].
  pose proof (List.filter_length_le (fun x => negb (p x)) xs) as Hle.
  destruct (p x) eqn:Hx; simpl.
  - split; [lia|]. intros Hall. apply Forall_cons in Hall as [Hne _]. congruence.
  - split.
    + intros Hlen. constructor; [done|]. apply IH. lia.
    + intros Hall. apply Forall_cons in Hall as [_ Hall]. apply IH in Hall. lia.
Qed.

Lemma filter_out_none {A} (p : A -> bool) (xs : list A) :
  Forall (fun x => p x = false) xs -> List.filter (fun x => negb (p x)) xs = xs.
Proof.
  induction 1 as [|x xs Hx _ IH]; simpl; [done|]. by rewrite Hx, IH.
Qed.

Lemma find_by_unique_id (items : list MenuItem.t) (item : MenuItem.t) :
  NoDup (map MenuItem.id items) -> item ∈ items ->
  Js.find (fun i => String.eqb (MenuItem.id i) (MenuItem.id item)) items = Some item.
Proof.
  induction items as [|first items IH]; intros Hids Hin; [by apply elem_of_nil in Hin|].
  simpl in *. apply NoDup_cons in Hids as [Hfresh Hids].
  apply elem_of_cons in Hin as [->|Hin]; [by rewrite String.eqb_refl|].
  destruct (String.eqb (MenuItem.id first) (MenuItem.id item)) eqn:Hsame; [|by apply IH].
  apply String.eqb_eq in Hsame. exfalso. apply Hfresh. rewrite Hsame.
  apply list_elem_of_fmap. by exists item.
Qed.

Lemma toggle_found (itemId : string) (menu : option (list MenuItem.t))
    (i : nat) (item : MenuItem.t) :
  findRef (fun i => String.eqb (MenuItem.id i) itemId) (getMenuItems false menu)
  = Some (i, item) ->
  toggleItemAvailability itemId menu
  = (MenuResult.mk true
       ("Item is now " +:+
        (if negb (MenuItem.available item) then "available" else "unavailable"))
       (Some (negb (MenuItem.available item))),
     Some (alter (setAvailable (negb (MenuItem.available item))) i
                 (getMenuItems false menu))) /\
  findRef (fun i => String.eqb (MenuItem.id i) itemId)
    (alter (setAvailable (negb (MenuItem.available item))) i (getMenuItems false menu))
  = Some (i, setAvailable (negb (MenuItem.available item)) item).
Proof.
  intros Href. split.
  - unfold toggleItemAvailability. by rewrite Href.
  - by apply (findRef_alter (fun i => String.eqb (MenuItem.id i) itemId)
                (setAvailable (negb (MenuItem.available item)))).
Qed.

(** X6. toggleItemAvailability flips the availability of the first item
    with the id, and of that item only: every other item of the menu
    stays at its place as it was, and the item flipped keeps its other
    fields.  It reports the new value, with the message "Item is now
    available" or "Item is now unavailable"; a second toggle gives back
    the menu as it was.  On an unknown id it fails with "Item not found"
    and leaves the menu alone. *)
Theorem toggleItemAvailability_twice (itemId : string) (menu : option (list MenuItem.t)) :
  let r := (toggleItemAvailability itemId menu).1 in
  let menu' := (toggleItemAvailability itemId menu).2 in
  (forall item,
     getMenuItem itemId menu = Some item ->
     MenuResult.success r = true /\
     MenuResult.available r = Some (negb (MenuItem.available item)) /\
     getMenuItem itemId menu'
     = Some (setAvailable (negb (MenuItem.available item)) item) /\
     length (getMenuItems false menu') = length (getMenuItems false menu) /\
     (toggleItemAvailability itemId menu').2 = menu /\
     MenuResult.message r
     = (if MenuItem.available item then "Item is now unavailable"
        else "Item is now available") /\
     exists i item',
       getMenuItems false menu !! i = Some item /\
       (forall j other,
          (j < i)%nat -> getMenuItems false menu !! j = Some other ->
          MenuItem.id other <> itemId) /\
       getMenuItems false menu' !! i = Some item' /\
       MenuItem.available item' = negb (MenuItem.available item) /\
       (MenuItem.id item', MenuItem.name item', MenuItem.description item',
        MenuItem.price item', MenuItem.category item', MenuItem.image item',
        MenuItem.preparationTime item', MenuItem.createdAt item',
        MenuItem.updatedAt item')
       = (MenuItem.id item, MenuItem.name item, MenuItem.description item,
          MenuItem.price item, MenuItem.category item, MenuItem.image item,
          MenuItem.preparationTime item, MenuItem.createdAt item,
          MenuItem.updatedAt item) /\
       forall j, j <> i ->
         getMenuItems false menu' !! j = getMenuItems false menu !! j) /\
  (getMenuItem itemId menu = None ->
     r = MenuResult.mk false "Item not found" None /\ menu' = menu).
Proof.
  intros r menu'. subst r menu'. unfold getMenuItem. rewrite findRef_find.
  destruct (findRef _ (getMenuItems false menu)) as [[i x]|] eqn:Href; simpl.
  - split; [|done]. intros item [= <-].
    destruct (findRef_Some _ _ _ _ Href) as (Hi & _ & Hbefore).
    destruct (toggle_found _ _ _ _ Href) as [-> Href']. simpl.
    change (default [] menu) with (getMenuItems false menu).
    split; [done|]. split; [done|].
    split; [by rewrite findRef_find, Href'|].
    split; [by rewrite length_alter|].
    split.
    { assert (Hagain : findRef (fun i => String.eqb (MenuItem.id i) itemId)
                         (getMenuItems false
                            (Some (alter (setAvailable (negb (MenuItem.available x))) i
                                         (getMenuItems false menu))))
                       = Some (i, setAvailable (negb (MenuItem.available x)) x))
        by exact Href'.
      destruct (toggle_found _ _ _ _ Hagain) as [-> _]. simpl.
      change (getMenuItems false (Some ?l)) with l.
      rewrite list_alter_alter_eq, (alter_fixed _ _ _ _ Hi).
      + destruct menu as [items|]; [done|]. by destruct i.
      + destruct x as [? ? ? ? ? ? available ? ? ?]. unfold setAvailable. simpl.
        by rewrite negb_involutive. }
    split; [by destruct (MenuItem.available x)|].
    exists i, (setAvailable (negb (MenuItem.available x)) x).
    split; [done|]. split.
    { intros j other Hj Hother Hid.
      rewrite Forall_forall in Hbefore.
      assert (Hp : String.eqb (MenuItem.id other) itemId = false).
      { apply (Hbefore other). apply list_elem_of_lookup. exists j.
        by rewrite lookup_take_lt. }
      apply String.eqb_neq in Hp. done. }
    split; [by rewrite list_lookup_alter_eq, Hi|].
    split; [done|]. split; [done|].
    intros j Hj. by rewrite list_lookup_alter_ne.
  - split; [done|]. intros _. unfold toggleItemAvailability. by rewrite Href.
Qed.

(** X7. deleteMenuItem takes every item with the id off the menu and
    keeps the others; it succeeds exactly when there was such an item and
    otherwise leaves the menu alone.  Afterwards the item cannot be found
    and addToCart refuses it with "Item not found", leaving the state as
    it is. *)
Theorem deleteMenuItem_removes (itemId : string) (menu : option (list MenuItem.t)) :
  let r := (deleteMenuItem itemId menu).1 in
  let menu' := (deleteMenuItem itemId menu).2 in
  (forall item, item ∈ getMenuItems false menu' <->
                item ∈ getMenuItems false menu /\ MenuItem.id item <> itemId) /\
  (MenuResult.success r = true <-> getMenuItem itemId menu <> None) /\
  (MenuResult.success r = false -> menu' = menu) /\
  getMenuItem itemId menu' = None /\
  (forall quantity s,
     addToCart menu' itemId quantity s
     = (CartResult.mk false "Item not found" None, s)).
Proof.
  intros r menu'. subst r menu'.
  set (items := getMenuItems false menu).
  set (kept := List.filter (fun item => negb (String.eqb (MenuItem.id item) itemId)) items).
  assert (Hkept : forall item, item ∈ kept <-> item ∈ items /\ MenuItem.id item <> itemId).
  { intros item. subst kept.
    rewrite !list_elem_of_In, List.filter_In, negb_true_iff, String.eqb_neq. done. }
  assert (Hsame : length kept = length items ->
                  Forall (fun item => String.eqb (MenuItem.id item) itemId = false) items).
  { subst kept. apply filter_out_length. }
  assert (Hitems' : getMenuItems false (deleteMenuItem itemId menu).2 = kept).
  { unfold deleteMenuItem. fold items. fold kept.
    destruct (length kept =? length items)%nat eqn:Hlen; simpl; [|done].
    apply Nat.eqb_eq in Hlen. fold items. subst kept.
    symmetry. by apply filter_out_none, Hsame. }
  assert (Hgone : getMenuItem itemId (deleteMenuItem itemId menu).2 = None).
  { unfold getMenuItem. rewrite Hitems', findRef_find.
    assert (Hnone : findRef (fun item => String.eqb (MenuItem.id item) itemId) kept = None).
    { apply findRef_None, Forall_forall. intros item Hitem.
      apply Hkept in Hitem as [_ Hne]. by apply String.eqb_neq. }
    by rewrite Hnone. }
  split; [by rewrite Hitems'|]. split; [|split; [|split; [done|]]].
  - unfold deleteMenuItem, getMenuItem. fold items. fold kept.
    destruct (length kept =? length items)%nat eqn:Hlen; simpl.
    + apply Nat.eqb_eq in Hlen. split; [done|]. intros Hfound. exfalso. apply Hfound.
      rewrite findRef_find.
      assert (Hnone : findRef (fun item => String.eqb (MenuItem.id item) itemId) items
                      = None) by (by apply findRef_None, Hsame).
      by rewrite Hnone.
    + split; [|done]. intros _ Hnone. apply Nat.eqb_neq in Hlen. apply Hlen.
      rewrite findRef_find in Hnone.
      destruct (findRef _ items) as [|] eqn:Href; [done|].
      apply findRef_None in Href. subst kept. by apply filter_out_length.
  - unfold deleteMenuItem. fold items. fold kept.
    by destruct (length kept =? length items)%nat.
  - intros quantity s. unfold addToCart. by rewrite Hgone.
Qed.

(** X8. With one item per id on the menu, every item the customer is shown
    (the available items of a category, or of all categories) can be put
    in the cart: addToCart on its id succeeds.  An item that is not
    available is never shown. *)
Theorem listed_items_can_be_added (category : string) (menu : option (list MenuItem.t))
    (item : MenuItem.t) :
  NoDup (map MenuItem.id (getMenuItems false menu)) ->
  item ∈ filterByCategory category menu ->
  MenuItem.available item = true /\
  (category = "all" \/ MenuItem.category item = category) /\
  forall quantity s,
    CartResult.success (addToCart menu (MenuItem.id item) quantity s).1 = true.
Proof.
  intros Hids Hlisted.
  assert (Hshown : item ∈ getMenuItems false menu /\ MenuItem.available item = true /\
                   (category = "all" \/ MenuItem.category item = category)).
  { unfold filterByCategory, getMenuItems in *.
    destruct (String.eqb category "all") eqn:Hall.
    - apply String.eqb_eq in Hall.
      apply list_elem_of_In, List.filter_In in Hlisted as [Hin Ha].
      split; [by apply list_elem_of_In|]. auto.
    - apply list_elem_of_In, List.filter_In in Hlisted as [Hin Hc].
      apply List.filter_In in Hin as [Hin Ha]. apply String.eqb_eq in Hc.
      split; [by apply list_elem_of_In|]. auto. }
  destruct Hshown as (Hin & Havailable & Hcategory).
  split; [done|]. split; [done|]. intros quantity s.
  rewrite (addToCart_success menu _ quantity s item); [done| |done].
  unfold getMenuItem. by apply find_by_unique_id.
Qed.

(** X9. After toggling an available item, addToCart refuses it with "Item
    is not available" and leaves the state as it is. *)
Theorem unavailable_after_toggle (itemId : string) (menu : option (list MenuItem.t))
    (item : MenuItem.t) (quantity : Z) (s : State) :
  getMenuItem itemId menu = Some item ->
  MenuItem.available item = true ->
  CartResult.success (addToCart menu itemId quantity s).1 = true /\
  addToCart (toggleItemAvailability itemId menu).2 itemId quantity s
  = (CartResult.mk false "Item is not available" None, s).
Proof.
  intros Hitem Havailable.
  split; [by rewrite (addToCart_success _ _ _ _ _ Hitem Havailable)|].
  unfold getMenuItem in Hitem. rewrite findRef_find in Hitem.
  destruct (findRef _ (getMenuItems false menu)) as [[i x]|] eqn:Href; [|done].
  injection Hitem as ->.
  destruct (toggle_found _ _ _ _ Href) as [-> Href']. cbn [snd].
  unfold addToCart, getMenuItem.
  change (getMenuItems false (Some ?l)) with l.
  rewrite findRef_find, Href'. simpl. by rewrite Havailable.
Qed.

Lemma removeFromCart_removes_witness :
  (removeFromCart "m9" Shelf.shopping).2 = Shelf.shopping /\
  getCart (storage (removeFromCart "m1" Shelf.shopping).2) = [Demo.itemB].
Proof.
  split.
  - pose proof (removeFromCart_removes "m9" Shelf.shopping) as W. cbv zeta in W.
    destruct W as (_ & _ & _ & Hsame & _). apply Hsame. reflexivity.
  - pose proof (removeFromCart_removes "m1" Shelf.shopping) as W. cbv zeta in W.
    destruct W as (Hcart & _). exact Hcart.
Defined.

Lemma toggleItemAvailability_twice_witness :
  getMenuItem "m3" (toggleItemAvailability "m3" Shelf.menu).2
  = Some (setAvailable true Shelf.tea) /\
  (toggleItemAvailability "m3" (toggleItemAvailability "m3" Shelf.menu).2).2 = Shelf.menu /\
  MenuResult.message (toggleItemAvailability "m3" Shelf.menu).1 = "Item is now available" /\
  getMenuItems false (toggleItemAvailability "m3" Shelf.menu).2 !! 0%nat = Some Shelf.rice.
Proof.
  pose proof (toggleItemAvailability_twice "m3" Shelf.menu) as W. cbv zeta in W.
  destruct W as [Hfound _].
  destruct (Hfound Shelf.tea eq_refl)
    as (_ & _ & Hitem & _ & Hback & Hmessage & i & item' & Hi & _ & _ & _ & _ & Hothers).
  split; [exact Hitem|]. split; [exact Hback|]. split; [exact Hmessage|].
  destruct i as [|[|[|i]]]; try discriminate Hi.
  by rewrite Hothers.
Defined.

Lemma deleteMenuItem_removes_witness :
  (deleteMenuItem "m9" Shelf.menu).2 = Shelf.menu /\
  getMenuItem "m2" (deleteMenuItem "m2" Shelf.menu).2 = None.
Proof.
  split.
  - pose proof (deleteMenuItem_removes "m9" Shelf.menu) as W. cbv zeta in W.
    destruct W as (_ & _ & Hsame & _). apply Hsame. reflexivity.
  - pose proof (deleteMenuItem_removes "m2" Shelf.menu) as W. cbv zeta in W.
    destruct W as (_ & _ & _ & Hgone & _). exact Hgone.
Defined.

Lemma listed_items_can_be_added_witness :
  CartResult.success (addToCart Shelf.menu "m2" 1 Shelf.shopping).1 = true.
Proof.
  apply (listed_items_can_be_added "Kottu" Shelf.menu Shelf.kottu).
  - simpl. repeat (apply NoDup_cons; split; [|]).
    + intros Hin. repeat (apply elem_of_cons in Hin as [Hin|Hin]; [discriminate|]).
      by apply elem_of_nil in Hin.
    + intros Hin. repeat (apply elem_of_cons in Hin as [Hin|Hin]; [discriminate|]).
      by apply elem_of_nil in Hin.
    + intros Hin. by apply elem_of_nil in Hin.
    + apply NoDup_nil_2.
  - simpl. apply list_elem_of_singleton. reflexivity.
Defined.

Lemma unavailable_after_toggle_witness :
  addToCart (toggleItemAvailability "m1" Shelf.menu).2 "m1" 1 Shelf.shopping
  = (CartResult.mk false "Item is not available" None, Shelf.shopping).
Proof.
  apply (unavailable_after_toggle "m1" Shelf.menu Shelf.rice 1 Shelf.shopping);
    reflexivity.
Defined.

(** ** Orders: what creation copies and what transitions keep *)

#[local] Instance sameOrder_preorder : PreOrder sameOrder.
Proof.
  split.
  - intros o. unfold sameOrder. tauto.
  - intros o1 o2 o3. unfold sameOrder. intros H12 H23.
    repeat match goal with H : _ /\ _ |- _ => destruct H end.
    repeat split; congruence.
Qed.

Lemma sort_ext {A} (c1 c2 : A -> A -> Z) (xs : list A) :
  (forall a b, c1 a b = c2 a b) -> Js.sort c1 xs = Js.sort c2 xs.
Proof.
  intros Hc. induction xs as [|x xs IH]; simpl; [done|]. rewrite IH.
  generalize (Js.sort c2 xs). intros ys.
  induction ys as [|y ys IHys]; simpl; [done|]. by rewrite Hc, IHys.
Qed.

Section MoreOrders.

Context {runtime : DateRuntime}.
Variable now : nat -> Z.
Variable rand36 : nat -> string.

(** X10. The order createOrder places copies the cart line by line, in
    order, with each line's subtotal its price times its quantity, and its
    subtotal is the sum of its lines' subtotals; it carries the id, name
    and email of the current user, is pending and not completed.  With no
    negative price or quantity in the cart its total is not negative. *)
Theorem createOrder_snapshot (s : State) (u : User.t) :
  getCart (storage s) <> [] ->
  getCurrentUser (storage s) = Some u ->
  exists o s',
    createOrder now rand36 s = (mkResult true "Order placed successfully!" (Some o), s') /\
    Forall2 copiedFrom (getCart (storage s)) (Order.items o) /\
    Order.subtotal o = sumZ (map OrderItem.subtotal (Order.items o)) /\
    Order.userId o = User.id u /\ Order.userName o = User.name u /\
    Order.userEmail o = User.email u /\
    Order.status o = ORDER_STATUS.PENDING /\ Order.completedAt o = None /\
    (Forall (fun line => 0 <= CartItem.price line /\ 0 <= CartItem.quantity line)
            (getCart (storage s)) -> 0 <= Order.total o).
Proof.
  intros Hcart Huser. do 2 eexists.
  split; [by apply createOrder_success|]. simpl.
  rewrite getCartSubtotal_sum. generalize (getCart (storage s)). intros cart.
  split; [|split; [|repeat split]].
  - induction cart as [|line cart IH]; simpl; constructor; [|done]. by repeat split.
  - f_equal. rewrite map_map. done.
  - intros Hpos. assert (0 <= sumZ (map lineAmount cart)); [|lia].
    induction Hpos as [|line cart [Hp Hq] _ IH]; simpl; [done|].
    unfold lineAmount at 1. nia.
Qed.

(** X11. A successful createOrder appends the new order to the collection,
    leaves the orders already there and the session as they were, and
    empties the cart; so placing the order a second time right away fails
    with "Cart is empty" and adds nothing. *)
Theorem createOrder_once (s : State) (u : User.t) :
  getCart (storage s) <> [] ->
  getCurrentUser (storage s) = Some u ->
  let r := (createOrder now rand36 s).1 in
  let s' := (createOrder now rand36 s).2 in
  (exists o, order r = Some o /\
     getAllOrders (storage s') = (getAllOrders (storage s) ++ [o])%list) /\
  getCart (storage s') = [] /\
  getCurrentUser (storage s') = Some u /\
  createOrder now rand36 s' = (mkResult false "Cart is empty" None, s').
Proof.
  intros Hcart Huser r s'. subst r s'.
  rewrite (createOrder_success now rand36 s u Hcart Huser). simpl.
  split; [by eexists|]. split; [done|]. split; [done|].
  by apply createOrder_empty.
Qed.

(** X12. Along every history of operations no order is ever removed or
    moved: each order stays at its place in the collection, with the id,
    token, customer, items, amounts and createdAt it was placed with. *)
Theorem orders_keep_identity (ops : list Op) (s : State) :
  let s' := (run now rand36 ops s).2 in
  evolves sameOrder (getAllOrders (storage s)) (getAllOrders (storage s')) /\
  (length (getAllOrders (storage s)) <= length (getAllOrders (storage s')))%nat.
Proof.
  intros s'. subst s'.
  assert (Hev : evolves sameOrder (getAllOrders (storage s))
                        (getAllOrders (storage (run now rand36 ops s).2))).
  { apply (run_evolves now rand36 sameOrder). intros. unfold sameOrder. simpl. tauto. }
  split; [done|].
  destruct (getAllOrders (storage s)) as [|o orders] eqn:Horders using rev_ind;
    [simpl; lia|].
  destruct (Hev (length orders) o) as (o' & Ho' & _).
  { by rewrite lookup_app_r, Nat.sub_diag by lia. }
  apply lookup_lt_Some in Ho'. rewrite length_app. simpl. lia.
Qed.

(** X13. A transition of an existing order appends exactly one entry to
    its history: the new status, the current reading of the clock, and the
    note given, or "Status changed to <status>" when the note is empty.
    The order keeps everything it was placed with, updatedAt is the next
    reading, and the cart, the session and the size of the collection are
    untouched. *)
Theorem updateOrderStatus_appends (s : State) (orderId newStatus note : string)
    (o : Order.t) :
  getOrderById orderId (storage s) = Some o ->
  let r := (updateOrderStatus now orderId newStatus note s).1 in
  let s' := (updateOrderStatus now orderId newStatus note s).2 in
  success r = true /\
  message r = "Order status updated to " +:+ newStatus /\
  exists o',
    order r = Some o' /\ getOrderById orderId (storage s') = Some o' /\
    Order.status o' = newStatus /\
    Order.statusHistory o'
    = (Order.statusHistory o ++
       [StatusEntry.mk newStatus (now (ticks s))
          (if String.eqb note "" then "Status changed to " +:+ newStatus else note)])%list /\
    Order.updatedAt o' = now (1 + ticks s)%nat /\
    sameOrder o o' /\
    CART (storage s') = CART (storage s) /\
    CURRENT_USER (storage s') = CURRENT_USER (storage s) /\
    length (getAllOrders (storage s')) = length (getAllOrders (storage s)).
Proof.
  intros Ho r s'. subst r s'. unfold getOrderById in Ho.
  destruct (find_findIndex _ _ _ Ho) as (i & Hi & Hlook).
  pose proof (updateOrderStatus_found now s orderId newStatus note i Hi) as Hrun.
  cbv zeta in Hrun. rewrite Hrun. simpl.
  split; [done|]. split; [done|].
  rewrite list_lookup_alter_eq, Hlook. simpl. eexists. split; [done|].
  split.
  { unfold getOrderById. change (getAllOrders (mkStorage _ (Some ?l) _)) with l.
    rewrite (find_alter _ _ _ i); [by rewrite Hlook|done|exact Hi]. }
  simpl. split; [done|]. split; [done|]. split; [done|].
  split; [unfold sameOrder; simpl; tauto|].
  split; [done|]. split; [done|].
  change (getAllOrders (mkStorage _ (Some ?l) _)) with l. by rewrite length_alter.
Qed.

End MoreOrders.

Lemma createOrder_snapshot_witness :
  exists o s',
    createOrder (runtime := Utc.runtime) Demo.clock Demo.random Demo.ready
    = (mkResult true "Order placed successfully!" (Some o), s') /\
    Forall2 copiedFrom [Demo.itemA; Demo.itemB] (Order.items o) /\
    Order.userId o = "u1" /\ 0 <= Order.total o.
Proof.
  destruct (createOrder_snapshot (runtime := Utc.runtime) Demo.clock Demo.random
              Demo.ready Demo.U1)
    as (o & s' & Hrun & Hitems & _ & Huser & _ & _ & _ & _ & Htotal);
    [discriminate|reflexivity|].
  exists o, s'. split; [exact Hrun|]. split; [exact Hitems|]. split; [exact Huser|].
  apply Htotal. repeat constructor; discriminate.
Defined.

Lemma createOrder_once_witness :
  createOrder (runtime := Utc.runtime) Demo.clock Demo.random Demo.afterOrder
  = (mkResult false "Cart is empty" None, Demo.afterOrder).
Proof.
  pose proof (createOrder_once (runtime := Utc.runtime) Demo.clock Demo.random
                Demo.ready Demo.U1) as W.
  cbv zeta in W. destruct W as (_ & _ & _ & Hagain); [discriminate|reflexivity|].
  exact Hagain.
Defined.

Lemma updateOrderStatus_appends_witness :
  exists o',
    getOrderById "o1"
      (storage (updateOrderStatus Demo.clock "o1" "ready" "" Demo.oneOrder).2) = Some o' /\
    Order.statusHistory o'
    = [StatusEntry.mk "pending" 1793699940000 "Order placed";
       StatusEntry.mk "ready" 1793700000000 "Status changed to ready"].
Proof.
  pose proof (updateOrderStatus_appends Demo.clock Demo.random
                Demo.oneOrder "o1" "ready" "" Demo.O1) as W.
  cbv zeta in W.
  destruct W as (_ & _ & o' & _ & Hfound & _ & Hhistory & _); [reflexivity|].
  exists o'. split; [exact Hfound|exact Hhistory].
Defined.

Lemma StronglySorted_weaken {A} (R1 R2 : relation A) (xs : list A) :
  (forall a b, R1 a b -> R2 a b) -> StronglySorted R1 xs -> StronglySorted R2 xs.
Proof.
  intros HR. induction 1 as [|x xs _ IH Hx]; constructor; [done|].
  eapply Forall_impl; [exact Hx|]. intros y. apply HR.
Qed.

(** X14. getOrdersByStatus returns the orders with exactly that status,
    each as often as the collection holds it, oldest first. *)
Theorem getOrdersByStatus_spec (status : string) (st : Storage) :
  getOrdersByStatus status st
    ≡ₚ filter (fun o => Order.status o = status) (getAllOrders st) /\
  (forall o, o ∈ getOrdersByStatus status st <->
             o ∈ getAllOrders st /\ Order.status o = status) /\
  StronglySorted oldestFirst (getOrdersByStatus status st).
Proof.
  assert (Hperm : getOrdersByStatus status st
                    ≡ₚ filter (fun o => Order.status o = status) (getAllOrders st)).
  { unfold getOrdersByStatus, byCreatedAt.
    rewrite (sort_Permutation Order.createdAt).
    rewrite (filter_bool_decide _ (fun o => Order.status o = status)); [done|].
    intros o. apply String.eqb_eq. }
  split; [done|]. split.
  - intros o. rewrite Hperm, list_elem_of_filter. tauto.
  - unfold getOrdersByStatus, byCreatedAt, oldestFirst.
    apply (sort_sorted Order.createdAt).
Qed.

(** X15. getUserOrders returns the orders of exactly that customer, each
    as often as the collection holds it, newest first. *)
Theorem getUserOrders_spec (userId : string) (st : Storage) :
  getUserOrders userId st
    ≡ₚ filter (fun o => Order.userId o = userId) (getAllOrders st) /\
  (forall o, o ∈ getUserOrders userId st <->
             o ∈ getAllOrders st /\ Order.userId o = userId) /\
  StronglySorted newestFirst (getUserOrders userId st).
Proof.
  assert (Hsort : forall xs : list Order.t,
            Js.sort (fun a b => byCreatedAt b a) xs
            = Js.sort (fun a b => - Order.createdAt a - - Order.createdAt b) xs).
  { intros xs. apply sort_ext. intros a b. unfold byCreatedAt. lia. }
  assert (Hperm : getUserOrders userId st
                    ≡ₚ filter (fun o => Order.userId o = userId) (getAllOrders st)).
  { unfold getUserOrders. rewrite Hsort.
    rewrite (sort_Permutation (fun o => - Order.createdAt o)).
    rewrite (filter_bool_decide _ (fun o => Order.userId o = userId)); [done|].
    intros o. apply String.eqb_eq. }
  split; [done|]. split.
  - intros o. rewrite Hperm, list_elem_of_filter. tauto.
  - unfold getUserOrders. rewrite Hsort.
    eapply StronglySorted_weaken; [|apply (sort_sorted (fun o => - Order.createdAt o))].
    intros a b. unfold newestFirst. simpl. lia.
Qed.

(** ** Dashboards *)

Lemma status_counts (orders : list Order.t) :
  let count status :=
    length (List.filter (fun o => String.eqb (Order.status o) status) orders) in
  (count ORDER_STATUS.PENDING + count ORDER_STATUS.PREPARING + count ORDER_STATUS.READY
   + count ORDER_STATUS.COMPLETED + count ORDER_STATUS.CANCELLED <= length orders)%nat /\
  (Forall knownStatus orders ->
   (count ORDER_STATUS.PENDING + count ORDER_STATUS.PREPARING + count ORDER_STATUS.READY
    + count ORDER_STATUS.COMPLETED + count ORDER_STATUS.CANCELLED = length orders)%nat).
Proof.
  cbv zeta. induction orders as [|o orders [IHle IHeq]]; [by split|].
  assert (Hcases :
    forall b1 b2 b3 b4 b5 : bool,
      b1 = String.eqb (Order.status o) ORDER_STATUS.PENDING ->
      b2 = String.eqb (Order.status o) ORDER_STATUS.PREPARING ->
      b3 = String.eqb (Order.status o) ORDER_STATUS.READY ->
      b4 = String.eqb (Order.status o) ORDER_STATUS.COMPLETED ->
      b5 = String.eqb (Order.status o) ORDER_STATUS.CANCELLED ->
      ((if b1 then 1 else 0) + (if b2 then 1 else 0) + (if b3 then 1 else 0)
       + (if b4 then 1 else 0) + (if b5 then 1 else 0) <= 1)%nat /\
      (knownStatus o ->
       ((if b1 then 1 else 0) + (if b2 then 1 else 0) + (if b3 then 1 else 0)
        + (if b4 then 1 else 0) + (if b5 then 1 else 0) = 1)%nat)).
  { intros b1 b2 b3 b4 b5 H1 H2 H3 H4 H5. unfold knownStatus.
    rewrite !elem_of_cons, elem_of_nil.
    unfold ORDER_STATUS.PENDING, ORDER_STATUS.PREPARING, ORDER_STATUS.READY,
      ORDER_STATUS.COMPLETED, ORDER_STATUS.CANCELLED in *.
    destruct b1, b2, b3, b4, b5;
      repeat match goal with
             | H : true = String.eqb _ _ |- _ => symmetry in H; apply String.eqb_eq in H
             | H : false = String.eqb _ _ |- _ => symmetry in H; apply String.eqb_neq in H
             end;
      try (split; [simpl; lia|intros _; reflexivity]);
      try (exfalso; congruence).
    split; [simpl; lia|]. intros Hknown. exfalso. intuition. }
  destruct (Hcases _ _ _ _ _ eq_refl eq_refl eq_refl eq_refl eq_refl) as [Hle Heq].
  simpl.
  destruct (String.eqb (Order.status o) ORDER_STATUS.PENDING),
           (String.eqb (Order.status o) ORDER_STATUS.PREPARING),
           (String.eqb (Order.status o) ORDER_STATUS.READY),
           (String.eqb (Order.status o) ORDER_STATUS.COMPLETED),
           (String.eqb (Order.status o) ORDER_STATUS.CANCELLED);
    simpl in *; (split; [lia|]);
    intros Hall; apply Forall_cons in Hall as [Hknown Hall];
    specialize (IHeq Hall); specialize (Heq Hknown); lia.
Qed.

Section DashboardFacts.

Context {runtime : DateRuntime}.
Variable now : nat -> Z.

(** X16. getTodayStats reads the clock once and nothing else changes.  Its
    figures are those of getDailyReport for that moment: same number of
    orders of the day, of completed and of cancelled ones, same revenue.
    The five status counts never add up to more than the total, and add
    up to it when every order of the day has one of the five statuses. *)
Theorem getTodayStats_matches_report (s : State) :
  let stats := (getTodayStats now s).1 in
  let s' := (getTodayStats now s).2 in
  let report := getDailyReport (now (ticks s)) (storage s) in
  storage s' = storage s /\ ticks s' = S (ticks s) /\
  TodayStats.total stats = totalOrders report /\
  TodayStats.completed stats = completedOrders report /\
  TodayStats.cancelled stats = cancelledOrders report /\
  TodayStats.revenue stats = revenue report /\
  (TodayStats.pending stats + TodayStats.preparing stats + TodayStats.ready stats
   + TodayStats.completed stats + TodayStats.cancelled stats
   <= TodayStats.total stats)%nat /\
  (Forall (fun o => createdOn (now (ticks s)) o -> knownStatus o)
          (getAllOrders (storage s)) ->
   (TodayStats.pending stats + TodayStats.preparing stats + TodayStats.ready stats
    + TodayStats.completed stats + TodayStats.cancelled stats
    = TodayStats.total stats)%nat).
Proof.
  cbv zeta. unfold getTodayStats, newDate, bind, gets, ret, getDailyReport. simpl.
  repeat (split; [reflexivity|]).
  set (today := List.filter _ (getAllOrders (storage s))).
  destruct (status_counts today) as [Hle Heq]. cbv zeta in Hle, Heq.
  split; [exact Hle|]. intros Hknown. apply Heq.
  subst today. apply Forall_forall. intros o Ho.
  apply list_elem_of_In, List.filter_In in Ho as [Ho Hday].
  rewrite Forall_forall in Hknown. apply Hknown; [by apply list_elem_of_In|].
  by apply String.eqb_eq.
Qed.

End DashboardFacts.

Lemma getTodayStats_matches_report_witness :
  let stats :=
    (getTodayStats (runtime := Utc.runtime) Demo.clock (mkState Demo.counter 0 0)).1 in
  (TodayStats.pending stats + TodayStats.preparing stats + TodayStats.ready stats
   + TodayStats.completed stats + TodayStats.cancelled stats
   = TodayStats.total stats)%nat.
Proof.
  pose proof (getTodayStats_matches_report (runtime := Utc.runtime) Demo.clock
                (mkState Demo.counter 0 0)) as W.
  cbv zeta in W. destruct W as (_ & _ & _ & _ & _ & _ & _ & Hsum).
  cbv zeta. apply Hsum.
  repeat constructor; intros _; apply list_elem_of_In; simpl; auto 10.
Defined.

(** *** The best sellers of the daily report *)

Lemma countOf_countItem (name key : string) (quantity : Z) (itemCounts : list (string * Z)) :
  countOf key (countItem name quantity itemCounts)
  = countOf key itemCounts + (if String.eqb name key then quantity else 0).
Proof.
  unfold countOf. induction itemCounts as [|[k c] rest IH]; simpl; [lia|].
  destruct (String.eqb k name) eqn:Hk; simpl.
  - apply String.eqb_eq in Hk. subst k.
    destruct (String.eqb name key); [|lia].
    destruct (Z.eqb_spec c 0); lia.
  - rewrite IH. lia.
Qed.

Lemma countItem_keys (name : string) (quantity : Z) (itemCounts : list (string * Z)) :
  NoDup itemCounts.*1 ->
  NoDup (countItem name quantity itemCounts).*1 /\
  forall key, key ∈ (countItem name quantity itemCounts).*1 <->
              key ∈ itemCounts.*1 \/ key = name.
Proof.
  induction itemCounts as [|[k c] rest IH]; simpl; intros Hkeys.
  - split; [apply NoDup_singleton|]. intros key.
    rewrite list_elem_of_singleton, elem_of_nil. tauto.
  - apply NoDup_cons in Hkeys as [Hfresh Hkeys].
    destruct (String.eqb k name) eqn:Hk; simpl.
    + apply String.eqb_eq in Hk. subst k. split; [by apply NoDup_cons|].
      intros key. rewrite elem_of_cons. tauto.
    + apply String.eqb_neq in Hk. destruct (IH Hkeys) as [Hkeys' Hmem].
      split.
      * apply NoDup_cons. split; [|done]. rewrite Hmem. tauto.
      * intros key. rewrite !elem_of_cons, Hmem. tauto.
Qed.

Lemma countOf_entry (itemCounts : list (string * Z)) (name : string) (count : Z) :
  NoDup itemCounts.*1 -> (name, count) ∈ itemCounts -> countOf name itemCounts = count.
Proof.
  unfold countOf. induction itemCounts as [|[k c] rest IH]; simpl; intros Hkeys Hin.
  - by apply elem_of_nil in Hin.
  - apply NoDup_cons in Hkeys as [Hfresh Hkeys].
    assert (Hrest : forall d, (name, d) ∈ rest -> k <> name).
    { intros d Hd ->. apply Hfresh. apply list_elem_of_fmap. by exists (name, d). }
    apply elem_of_cons in Hin as [[= <- <-]|Hin].
    + rewrite String.eqb_refl.
      assert (Hzero : sumZ (map (fun entry : string * Z =>
                                   if String.eqb entry.1 name then entry.2 else 0) rest)
                      = 0); [|lia].
      clear IH Hkeys Hrest. induction rest as [|[k' c'] rest IH]; simpl; [done|].
      rewrite IH by (intros Hin; apply Hfresh; simpl; by right).
      destruct (String.eqb_spec k' name) as [->|]; [|lia].
      exfalso. apply Hfresh. simpl. by left.
    + specialize (Hrest _ Hin). apply String.eqb_neq in Hrest. rewrite Hrest.
      rewrite (IH Hkeys Hin). lia.
Qed.

Lemma countItems_spec (orders : list Order.t) :
  NoDup (countItems orders).*1 /\
  (forall name, countOf name (countItems orders) = unitsSold name orders) /\
  (forall name, name ∈ (countItems orders).*1 <-> soldIn name orders).
Proof.
  unfold countItems.
  assert (Hitems : forall (items : list OrderItem.t) (acc : list (string * Z)),
    NoDup acc.*1 ->
    let acc' :=
      fold_left (fun itemCounts item =>
                   countItem (OrderItem.name item) (OrderItem.quantity item) itemCounts)
                items acc in
    NoDup acc'.*1 /\
    (forall name, countOf name acc'
       = countOf name acc
         + sumZ (map (fun item => if String.eqb (OrderItem.name item) name
                                  then OrderItem.quantity item else 0) items)) /\
    (forall name, name ∈ acc'.*1 <->
       name ∈ acc.*1 \/ exists item, item ∈ items /\ OrderItem.name item = name)).
  { induction items as [|item items IH]; intros acc Hacc; simpl.
    - split; [done|]. split; [intros; lia|]. intros name. split; [by left|].
      intros [?|(item & Hin & _)]; [done|]. by apply elem_of_nil in Hin.
    - destruct (countItem_keys (OrderItem.name item) (OrderItem.quantity item) acc Hacc)
        as [Hacc' Hmem].
      destruct (IH _ Hacc') as (Hkeys & Hcount & Hnames). cbv zeta in *.
      split; [done|]. split.
      + intros name. rewrite Hcount, countOf_countItem. lia.
      + intros name. rewrite Hnames, Hmem. split.
        * intros [[? | ->]|(other & Hin & Hname)]; [by left| |].
          -- right. exists item. split; [by left|done].
          -- right. exists other. split; [by right|done].
        * intros [?|(other & Hin & Hname)]; [by left; left|].
          apply elem_of_cons in Hin as [-> |Hin]; [by left; right|].
          right. by exists other. }
  assert (Horders : forall (acc : list (string * Z)),
    NoDup acc.*1 ->
    let acc' :=
      fold_left (fun itemCounts order =>
                   fold_left (fun itemCounts item =>
                                countItem (OrderItem.name item) (OrderItem.quantity item)
                                          itemCounts)
                             (Order.items order) itemCounts)
                orders acc in
    NoDup acc'.*1 /\
    (forall name, countOf name acc' = countOf name acc + unitsSold name orders) /\
    (forall name, name ∈ acc'.*1 <-> name ∈ acc.*1 \/ soldIn name orders)).
  { induction orders as [|o orders IH]; intros acc Hacc; simpl.
    - split; [done|]. split; [intros; unfold unitsSold; simpl; lia|].
      intros name. split; [by left|].
      intros [?|(o & item & Hin & _)]; [done|]. by apply elem_of_nil in Hin.
    - destruct (Hitems (Order.items o) acc Hacc) as (Hacc' & Hcount' & Hnames').
      cbv zeta in *.
      destruct (IH _ Hacc') as (Hkeys & Hcount & Hnames).
      split; [done|]. split.
      + intros name. rewrite Hcount, Hcount'. unfold unitsSold. simpl. lia.
      + intros name. rewrite Hnames, Hnames'. unfold soldIn. split.
        * intros [[?|(item & Hin & Hname)]|(o' & item & Ho' & Hin & Hname)]; [by left| |].
          -- right. exists o, item. split; [by left|done].
          -- right. exists o', item. split; [by right|done].
        * intros [?|(o' & item & Ho' & Hin & Hname)]; [by left; left|].
          apply elem_of_cons in Ho' as [-> |Ho']; [left; right; by exists item|].
          right. by exists o', item. }
  destruct (Horders [] (NoDup_nil_2)) as (Hkeys & Hcount & Hnames). cbv zeta in *.
  split; [done|]. split.
  - intros name. rewrite Hcount. unfold countOf. simpl. lia.
  - intros name. rewrite Hnames. simpl. rewrite elem_of_nil. tauto.
Qed.

Section BestSellers.

Context {runtime : DateRuntime}.

(** X17. The popular items of the daily report, for item names that are
    ordinary object keys: at most five names, no name twice, each with
    the number of units of that name sold by the completed orders created
    on the day of the report, best seller first; and every name sold that
    day and not listed sold no more units than any name listed (the list
    is then full). *)
Theorem popularItems_top_five (date : Z) (st : Storage) :
  let counted := filter (countedOn date) (getAllOrders st) in
  let popular := popularItems date st in
  plainNames counted ->
  (length popular <= 5)%nat /\
  NoDup popular.*1 /\
  StronglySorted bestFirst popular /\
  (forall name count, (name, count) ∈ popular ->
     count = unitsSold name counted /\ soldIn name counted) /\
  (forall name, soldIn name counted -> name ∉ popular.*1 ->
     length popular = 5%nat /\
     forall entry, entry ∈ popular -> unitsSold name counted <= entry.2).
Proof.
  intros counted popular _. subst popular. unfold popularItems.
  rewrite dayOrders_counted. fold counted.
  destruct (countItems_spec counted) as (Hkeys & Hcount & Hnames).
  set (counts := countItems counted) in *.
  assert (Hsort : Js.sort (fun a b : string * Z => b.2 - a.2) counts
                  = Js.sort (fun a b : string * Z => - a.2 - - b.2) counts).
  { apply sort_ext. intros a b. lia. }
  rewrite Hsort.
  set (sorted := Js.sort (fun a b : string * Z => - a.2 - - b.2) counts).
  assert (Hperm : sorted ≡ₚ counts) by apply (sort_Permutation (fun e : string * Z => - e.2)).
  assert (Hsorted : StronglySorted bestFirst sorted).
  { eapply StronglySorted_weaken;
      [|apply (sort_sorted (fun e : string * Z => - e.2))].
    intros a b. unfold bestFirst. simpl. lia. }
  assert (Hentry : forall name count, (name, count) ∈ sorted ->
            count = unitsSold name counted /\ soldIn name counted).
  { intros name count Hin. rewrite Hperm in Hin. split.
    - rewrite <- Hcount. symmetry. by apply countOf_entry.
    - apply Hnames. apply list_elem_of_fmap. by exists (name, count). }
  split; [rewrite length_take; lia|]. split; [|split; [|split]].
  - rewrite fmap_take. eapply sublist_NoDup; [|apply sublist_take].
    by rewrite Hperm.
  - rewrite <- (take_drop 5 sorted) in Hsorted.
    by apply StronglySorted_app_1_l in Hsorted.
  - intros name count Hin. apply Hentry.
    eapply elem_of_submseteq; [exact Hin|]. apply sublist_submseteq, sublist_take.
  - intros name Hsold Hmissing.
    apply Hnames in Hsold. apply list_elem_of_fmap in Hsold as ([name' count] & -> & Hin).
    simpl in *. rewrite <- Hperm, <- (take_drop 5 sorted) in Hin.
    apply elem_of_app in Hin as [Hin|Hin].
    { exfalso. apply Hmissing. apply list_elem_of_fmap. by exists (name', count). }
    assert (Hcount' : count = unitsSold name' counted).
    { apply Hentry. rewrite <- (take_drop 5 sorted). apply elem_of_app. by right. }
    split.
    + rewrite length_take. apply list_elem_of_lookup in Hin as [i Hi].
      apply lookup_lt_Some in Hi. rewrite length_drop in Hi. lia.
    + intros entry Hlisted. rewrite <- Hcount'.
      rewrite <- (take_drop 5 sorted) in Hsorted.
      apply (StronglySorted_app_1_elem_of _ _ _ _ _ Hsorted Hlisted Hin).
Qed.

End BestSellers.

Lemma popularItems_top_five_witness :
  2 = unitsSold "Rice and Curry"
        (filter (countedOn (runtime := Utc.runtime) 1793700000000)
                (getAllOrders Demo.board)) /\
  StronglySorted bestFirst
    (popularItems (runtime := Utc.runtime) 1793700000000 Demo.board).
Proof.
  pose proof (popularItems_top_five (runtime := Utc.runtime) 1793700000000 Demo.board)
    as W.
  cbv zeta in W. destruct W as (_ & _ & Hsorted & Hcount & _).
  - apply Forall_forall. intros o [_ Ho]%list_elem_of_filter. revert o Ho.
    apply Forall_forall. repeat constructor; try reflexivity.
    all: intros Hin; apply list_elem_of_In in Hin; simpl in Hin; intuition discriminate.
  - split; [|exact Hsorted].
    apply (Hcount "Rice and Curry" 2). apply list_elem_of_In. vm_compute. by left.
Defined.

(** ** Ids *)

Lemma charValue_digitChar (d : N) : (d < 36)%N -> charValue (Js.digitChar d) = d.
Proof.
  intros Hd.
  assert (Hcases : In d [0; 1; 2; 3; 4; 5; 6; 7; 8; 9; 10; 11; 12; 13; 14; 15; 16; 17;
                         18; 19; 20; 21; 22; 23; 24; 25; 26; 27; 28; 29; 30; 31; 32; 33;
                         34; 35]%N).
  { simpl. lia. }
  simpl in Hcases.
  repeat (destruct Hcases as [<-|Hcases]; [reflexivity|]). done.
Qed.

Lemma log2_div_any (radix n : N) (fuel : nat) :
  (2 <= radix)%N ->
  (N.to_nat (N.log2 n) < S fuel)%nat -> (n / radix <> 0)%N ->
  (N.to_nat (N.log2 (n / radix)) < fuel)%nat.
Proof.
  intros Hradix Hfuel Hq.
  assert (Hle : (2 * (n / radix) <= n)%N).
  { pose proof (N.Div0.mul_div_le n radix).
    pose proof (N.mul_le_mono_r 2 radix (n / radix) Hradix). lia. }
  apply N.log2_le_mono in Hle.
  rewrite N.log2_double in Hle by (by apply N.neq_0_lt_0). lia.
Qed.

Lemma digitsValue_toStringGo (fuel : nat) (radix n : N) (rest : string) :
  (2 <= radix <= 36)%N ->
  (N.to_nat (N.log2 n) < fuel)%nat ->
  digitsValue radix 0 (Js.toStringGo fuel radix n rest) = digitsValue radix n rest.
Proof.
  intros Hradix. revert n rest.
  induction fuel as [|fuel IH]; intros n rest Hfuel; [lia|].
  simpl.
  assert (Hmod : (n mod radix < radix)%N) by (apply N.mod_lt; lia).
  pose proof (charValue_digitChar (n mod radix) ltac:(lia)) as Hval.
  pose proof (N.div_mod n radix ltac:(lia)) as Hdm.
  destruct (n / radix =? 0)%N eqn:Hq.
  - apply N.eqb_eq in Hq. simpl. rewrite Hval. f_equal. rewrite Hq in Hdm. lia.
  - apply N.eqb_neq in Hq.
    rewrite IH by (apply log2_div_any; [lia|done|done]).
    simpl. rewrite Hval. f_equal. lia.
Qed.

Lemma natToString_inj (radix a b : N) :
  (2 <= radix <= 36)%N -> Js.natToString radix a = Js.natToString radix b -> a = b.
Proof.
  intros Hradix Heq.
  assert (Hvalue : forall n, digitsValue radix 0 (Js.natToString radix n) = n).
  { intros n. unfold Js.natToString. by rewrite digitsValue_toStringGo by lia. }
  by rewrite <- (Hvalue a), <- (Hvalue b), Heq.
Qed.

Lemma toStringGo_length_le (fuel : nat) (radix n : N) (rest : string) (k : nat) :
  (2 <= radix)%N -> (0 < k)%nat -> (n < radix ^ N.of_nat k)%N ->
  (String.length (Js.toStringGo fuel radix n rest) <= k + String.length rest)%nat.
Proof.
  intros Hradix. revert n rest k.
  induction fuel as [|fuel IH]; intros n rest k Hk Hn; simpl; [lia|].
  destruct (n / radix =? 0)%N eqn:Hq; simpl; [lia|].
  apply N.eqb_neq in Hq.
  destruct k as [|[|k]]; [lia| |].
  - exfalso. apply Hq. apply N.div_small. by rewrite N.pow_1_r in Hn.
  - etrans; [apply (IH _ _ (S k)); [lia|]|simpl; lia].
    apply N.Div0.div_lt_upper_bound.
    replace (N.of_nat (S (S k))) with (N.succ (N.of_nat (S k))) in Hn by lia.
    by rewrite N.pow_succ_r' in Hn.
Qed.

Lemma toStringGo_length_min (fuel : nat) (radix n : N) (rest : string) (k : nat) :
  (2 <= radix)%N ->
  (radix ^ N.of_nat k <= n)%N -> (N.to_nat (N.log2 n) < fuel)%nat ->
  (S k + String.length rest <= String.length (Js.toStringGo fuel radix n rest))%nat.
Proof.
  intros Hradix. revert n rest k.
  induction fuel as [|fuel IH]; intros n rest k Hn Hfuel; [lia|].
  simpl. destruct (n / radix =? 0)%N eqn:Hq.
  - apply N.eqb_eq in Hq. apply N.div_small_iff in Hq; [|lia].
    destruct k as [|k]; [simpl; lia|]. exfalso.
    assert (radix ^ 1 <= radix ^ N.of_nat (S k))%N by (apply N.pow_le_mono_r; lia).
    rewrite N.pow_1_r in *. lia.
  - apply N.eqb_neq in Hq.
    pose proof (log2_div_any radix n fuel Hradix Hfuel Hq) as Hfuel'.
    apply N.neq_0_lt_0 in Hq.
    destruct k as [|k].
    + etrans; [|apply (IH _ _ O); [|done]]; simpl; [lia|].
      rewrite N.pow_0_r. lia.
    + etrans; [|apply (IH _ _ k); [|done]]; simpl; [lia|].
      apply N.div_le_lower_bound; [lia|].
      replace (N.of_nat (S k)) with (N.succ (N.of_nat k)) in Hn by lia.
      by rewrite N.pow_succ_r' in Hn.
Qed.

(** The time part of an id written between 1972 and 2059 has eight
    characters. *)
Lemma time_part_length (t : Z) :
  78364164096 <= t < 2821109907456 -> String.length (Js.toString 36 t) = 8%nat.
Proof.
  intros Ht. rewrite toString_nonneg by lia. unfold Js.natToString.
  set (fuel := S (N.to_nat (N.log2 (Z.to_N t)))).
  assert (Hfuel : (N.to_nat (N.log2 (Z.to_N t)) < fuel)%nat) by (subst fuel; lia).
  clearbody fuel.
  pose proof (toStringGo_length_le fuel 36 (Z.to_N t) "" 8 ltac:(lia) ltac:(lia)) as Hle.
  pose proof (toStringGo_length_min fuel 36 (Z.to_N t) "" 7 ltac:(lia)) as Hge.
  change (36 ^ N.of_nat 8)%N with 2821109907456%N in Hle.
  change (36 ^ N.of_nat 7)%N with 78364164096%N in Hge.
  simpl String.length in Hle, Hge.
  specialize (Hle ltac:(lia)). specialize (Hge ltac:(lia) Hfuel). lia.
Qed.

Lemma append_inj_length (s1 s2 t1 t2 : string) :
  String.length s1 = String.length s2 -> s1 +:+ t1 = s2 +:+ t2 -> s1 = s2.
Proof.
  revert s2. induction s1 as [|c s1 IH]; intros [|d s2] Hlen Heq; try done.
  change (String c (s1 +:+ t1) = String d (s2 +:+ t2)) in Heq.
  injection Heq as -> Heq. f_equal. apply IH; [|done]. simpl in Hlen. lia.
Qed.

Lemma time_part_inj (t1 t2 : Z) (r1 r2 : string) :
  78364164096 <= t1 < 2821109907456 -> 78364164096 <= t2 < 2821109907456 ->
  Js.toString 36 t1 +:+ r1 = Js.toString 36 t2 +:+ r2 -> t1 = t2.
Proof.
  intros Ht1 Ht2 Heq.
  apply append_inj_length in Heq; [|by rewrite !time_part_length].
  rewrite !toString_nonneg in Heq by lia.
  apply natToString_inj in Heq; [lia|lia].
Qed.


Section Ids.

Context {runtime : DateRuntime}.
Variable now : nat -> Z.
Variable rand36 : nat -> string.

(** X18. Two ids generated at different clock readings (between 1972 and
    2059) differ, whatever Math.random contributes. *)
Theorem generateId_distinct (s1 s2 : State) :
  eightDigitTime (now (ticks s1)) -> eightDigitTime (now (ticks s2)) ->
  now (ticks s1) <> now (ticks s2) ->
  (generateId now rand36 s1).1 <> (generateId now rand36 s2).1.
Proof.
  unfold eightDigitTime. intros Ht1 Ht2 Hne Heq. apply Hne.
  unfold generateId, bind, newDate, mathRandom36, ret in Heq. simpl in Heq.
  by apply time_part_inj in Heq.
Qed.



End Ids.

Lemma generateId_distinct_witness :
  (generateId Demo.clock Demo.random Demo.ready).1
  <> (generateId Demo.clock Demo.random Demo.afterOrder).1.
Proof.
  apply generateId_distinct; unfold eightDigitTime; simpl; unfold Demo.clock; lia.
Defined.

